(** * The flower content pipeline: a shallow embedding and its properties

    The development follows the Python sources:
    - [domain/exceptions.py], [domain/entities.py]: exceptions and entities;
    - [infrastructure/database/repositories.py]: the SQLAlchemy repository;
    - [core/services/image_analyzer.py], [core/services/social_publisher.py],
      [infrastructure/external/*_service.py]: analysis and publishing;
    - [workers/tasks.py]: the task [process_flower_content];
    - [infrastructure/ai/claude_service.py],
      [core/services/content_generator.py]: the Claude client and the
      content generator;
    - [app/api.py]: the upload route and the lookup route.

    Python code that mutates objects and raises exceptions is written in a
    state-and-exception monad over a [Machine] that holds the database
    table, the session, the clock, the locals of the running task and a
    trace of the calls that cross the task's boundary. *)

From stdpp Require Import gmap strings list pretty.
Local Open Scope string_scope.
Local Open Scope list_scope.

(** ** Python values and exceptions *)

Module Py.

(** The exception classes that occur in the modelled code.  The first
    seven are [domain/exceptions.py]; [SQLAlchemyError] and
    [ExternalError] stand for what the database driver and the remote
    services raise; the others are raised by the interpreter. *)
Inductive ExnClass : Type :=
| DomainException
| ImageAnalysisError
| ContentGenerationError
| MediaProcessingError
| PublishingError
| RepositoryError
| TaskQueueError
| SQLAlchemyError
| ExternalError
| KeyError
| IndexError
| TypeError
| AttributeError
| ValueError
| UnboundLocalError.

(** An exception object: its class and what [str(e)] gives.  For a
    [DomainException] this is also [e.message]. *)
Record Exn : Type := mkExn { exn_class : ExnClass; exn_str : string }.

(** What the interpreter raises when a local variable is read before it
    was assigned. *)
Definition unbound_local (name : string) : Exn :=
  mkExn UnboundLocalError
    ("cannot access local variable '" +:+ name +:+
     "' where it is not associated with a value").

(** [isinstance(e, DomainException)]: the clause [except DomainException]. *)
Definition is_DomainException (c : ExnClass) : bool :=
  match c with
  | DomainException | ImageAnalysisError | ContentGenerationError
  | MediaProcessingError | PublishingError | RepositoryError
  | TaskQueueError => true
  | _ => false
  end.

(** The outcome of evaluating Python code: a value or a raised exception. *)
Inductive Res (A : Type) : Type :=
| Ok (a : A)
| Raise (e : Exn).
Arguments Ok {A} a.
Arguments Raise {A} e.

Definition is_Raise {A} (r : Res A) : bool :=
  match r with Ok _ => false | Raise _ => true end.

(** JSON-shaped values, as [json.loads] produces them.  Numbers keep
    their decimal text. *)
#[local] Unset Elimination Schemes.
Inductive Val : Type :=
| VNone
| VBool (b : bool)
| VInt (digits : string)
| VFloat (digits : string)
| VStr (s : string)
| VList (l : list Val)
| VDict (d : list (string * Val)).
#[local] Set Elimination Schemes.

Definition Dict : Type := list (string * Val).

Definition type_name (v : Val) : string :=
  match v with
  | VNone => "NoneType"
  | VBool _ => "bool"
  | VInt _ => "int"
  | VFloat _ => "float"
  | VStr _ => "str"
  | VList _ => "list"
  | VDict _ => "dict"
  end.

(** [d.get(k)]: [None] when the key is missing. *)
Fixpoint dict_get (k : string) (d : Dict) : option Val :=
  match d with
  | [] => None
  | (k', v) :: rest => if String.eqb k k' then Some v else dict_get k rest
  end.

(** [d.get(k, default)]. *)
Definition dict_get_default (k : string) (default : Val) (d : Dict) : Val :=
  match dict_get k d with Some v => v | None => default end.

(** [v[k]] for a string key [k]. *)
Definition subscript (v : Val) (k : string) : Res Val :=
  match v with
  | VDict d =>
      match dict_get k d with
      | Some x => Ok x
      | None => Raise (mkExn KeyError ("'" +:+ k +:+ "'"))
      end
  | VStr _ =>
      Raise (mkExn TypeError "string indices must be integers, not 'str'")
  | VList _ =>
      Raise (mkExn TypeError "list indices must be integers or slices, not str")
  | _ =>
      Raise (mkExn TypeError
               ("'" +:+ type_name v +:+ "' object is not subscriptable"))
  end.

(** An empty list or dictionary is false. *)
Definition is_empty {A} (l : list A) : bool :=
  match l with [] => true | _ :: _ => false end.

(** Truth value of a string and of an optional string ([None] and the
    empty string are false). *)
Definition str_truthy (s : string) : bool := negb (String.eqb s "").

Definition opt_truthy (o : option string) : bool :=
  match o with Some s => str_truthy s | None => false end.

(** [x or y] on an optional string: [x] when it is true. *)
Definition or_else (o : option string) (fallback : Res string) : Res string :=
  match o with
  | Some s => if str_truthy s then Ok s else fallback
  | None => fallback
  end.

End Py.
Export Py.

(** ** Entities ([domain/entities.py]) *)

Inductive Platform : Type := NAVER | INSTAGRAM | YOUTUBE.

Global Instance Platform_eq_dec : EqDecision Platform.
Proof. solve_decision. Defined.

(** [platform.value] *)
Definition Platform_value (p : Platform) : string :=
  match p with
  | NAVER => "naver"
  | INSTAGRAM => "instagram"
  | YOUTUBE => "youtube"
  end.

(** [Platform(s)]: the member with that value, or [ValueError]. *)
Definition Platform_of_value (s : string) : Res Platform :=
  if String.eqb s "naver" then Ok NAVER
  else if String.eqb s "instagram" then Ok INSTAGRAM
  else if String.eqb s "youtube" then Ok YOUTUBE
  else Raise (mkExn ValueError ("'" +:+ s +:+ "' is not a valid Platform")).

Inductive PostStatus : Type := PENDING | PROCESSING | COMPLETED | FAILED.

Definition PostStatus_value (st : PostStatus) : string :=
  match st with
  | PENDING => "pending"
  | PROCESSING => "processing"
  | COMPLETED => "completed"
  | FAILED => "failed"
  end.

(** A point in time ([datetime]); the clock of the machine counts upwards. *)
Definition datetime : Type := nat.

Module FlowerData.

Record t : Type := mk {
  flower_type : Val;
  colors : Val;
  seasonal : Val;
  meaning : Val;
  care_tips : Val;
  decoration_ideas : Val;
  gift_occasions : Val
}.

Definition from_dict (data : Dict) : t :=
  {| flower_type :=
       dict_get_default "flower_type"
         (VDict [("korean", VStr ""); ("english", VStr "");
                 ("scientific", VStr "")]) data;
     colors := dict_get_default "colors" (VList []) data;
     seasonal := dict_get_default "seasonal" (VStr "") data;
     meaning := dict_get_default "meaning" (VStr "") data;
     care_tips := dict_get_default "care_tips" (VStr "") data;
     decoration_ideas := dict_get_default "decoration_ideas" (VStr "") data;
     gift_occasions := dict_get_default "gift_occasions" (VList []) data |}.

Definition to_dict (fd : t) : Dict :=
  [("flower_type", flower_type fd);
   ("colors", colors fd);
   ("seasonal", seasonal fd);
   ("meaning", meaning fd);
   ("care_tips", care_tips fd);
   ("decoration_ideas", decoration_ideas fd);
   ("gift_occasions", gift_occasions fd)].

End FlowerData.

(** The field [flower_data] of a post holds a [FlowerData] object or a
    plain dictionary ([Union[FlowerData, Dict[str, Any]]]). *)
Inductive FlowerDataField : Type :=
| AsFlowerData (fd : FlowerData.t)
| AsDict (d : Dict).

Module PublishResult.

Record t : Type := mk {
  success : bool;
  platform : Platform;
  url : option string;
  post_id : option string;
  error : option string
}.

End PublishResult.

Module FlowerPost.

Record t : Type := mk {
  id : string;
  image_paths : list string;
  platforms : list Platform;
  title : option string;
  description : option string;
  schedule_time : datetime;
  status : string;
  error_message : option string;
  flower_data : option FlowerDataField;
  blog_content : option string;
  instagram_caption : option string;
  instagram_tags : option (list string);
  video_path : option string;
  publish_results : list PublishResult.t;
  created_at : datetime;
  updated_at : datetime
}.

(** Attribute assignments [post.x = v]. *)
Definition set_status (v : string) (p : t) : t :=
  mk (id p) (image_paths p) (platforms p) (title p) (description p)
     (schedule_time p) v (error_message p) (flower_data p)
     (blog_content p) (instagram_caption p) (instagram_tags p)
     (video_path p) (publish_results p) (created_at p) (updated_at p).

Definition set_error_message (v : option string) (p : t) : t :=
  mk (id p) (image_paths p) (platforms p) (title p) (description p)
     (schedule_time p) (status p) v (flower_data p)
     (blog_content p) (instagram_caption p) (instagram_tags p)
     (video_path p) (publish_results p) (created_at p) (updated_at p).

Definition set_flower_data (v : option FlowerDataField) (p : t) : t :=
  mk (id p) (image_paths p) (platforms p) (title p) (description p)
     (schedule_time p) (status p) (error_message p) v
     (blog_content p) (instagram_caption p) (instagram_tags p)
     (video_path p) (publish_results p) (created_at p) (updated_at p).

Definition set_blog_content (v : option string) (p : t) : t :=
  mk (id p) (image_paths p) (platforms p) (title p) (description p)
     (schedule_time p) (status p) (error_message p) (flower_data p)
     v (instagram_caption p) (instagram_tags p)
     (video_path p) (publish_results p) (created_at p) (updated_at p).

Definition set_instagram_caption (v : option string) (p : t) : t :=
  mk (id p) (image_paths p) (platforms p) (title p) (description p)
     (schedule_time p) (status p) (error_message p) (flower_data p)
     (blog_content p) v (instagram_tags p)
     (video_path p) (publish_results p) (created_at p) (updated_at p).

Definition set_instagram_tags (v : option (list string)) (p : t) : t :=
  mk (id p) (image_paths p) (platforms p) (title p) (description p)
     (schedule_time p) (status p) (error_message p) (flower_data p)
     (blog_content p) (instagram_caption p) v
     (video_path p) (publish_results p) (created_at p) (updated_at p).

Definition set_video_path (v : option string) (p : t) : t :=
  mk (id p) (image_paths p) (platforms p) (title p) (description p)
     (schedule_time p) (status p) (error_message p) (flower_data p)
     (blog_content p) (instagram_caption p) (instagram_tags p)
     v (publish_results p) (created_at p) (updated_at p).

Definition set_publish_results (v : list PublishResult.t) (p : t) : t :=
  mk (id p) (image_paths p) (platforms p) (title p) (description p)
     (schedule_time p) (status p) (error_message p) (flower_data p)
     (blog_content p) (instagram_caption p) (instagram_tags p)
     (video_path p) v (created_at p) (updated_at p).

Definition set_updated_at (v : datetime) (p : t) : t :=
  mk (id p) (image_paths p) (platforms p) (title p) (description p)
     (schedule_time p) (status p) (error_message p) (flower_data p)
     (blog_content p) (instagram_caption p) (instagram_tags p)
     (video_path p) (publish_results p) (created_at p) v.

(** [FlowerPost.update_status(status, error_message=None)], with the
    value [now] that [datetime.now()] returns. *)
Definition update_status (st : PostStatus) (err : option string)
    (now : datetime) (p : t) : t :=
  let p1 := set_status (PostStatus_value st) p in
  let p2 := if opt_truthy err then set_error_message err p1 else p1 in
  set_updated_at now p2.

(** [FlowerPost.add_publish_result(result)]. *)
Definition add_publish_result (r : PublishResult.t) (now : datetime)
    (p : t) : t :=
  set_updated_at now (set_publish_results (publish_results p ++ [r]) p).

End FlowerPost.

(** [FlowerPost.__post_init__]: a dictionary given as [flower_data] is
    turned into a [FlowerData] object. *)
Definition FlowerPost_post_init (p : FlowerPost.t) : FlowerPost.t :=
  match FlowerPost.flower_data p with
  | Some (AsDict d) =>
      FlowerPost.set_flower_data (Some (AsFlowerData (FlowerData.from_dict d))) p
  | _ => p
  end.

(** ** The database ([infrastructure/database/models.py]) *)

(** One entry of the JSON column [publish_results], as [_map_to_model]
    writes it: a dictionary with the five keys below. *)
Module PublishResultJson.

Record t : Type := mk {
  success : bool;
  platform : string;
  url : option string;
  post_id : option string;
  error : option string
}.

End PublishResultJson.

(** A row of the table [flower_posts].  The primary key [id] is the key
    under which the row is stored in the table.  The column defaults of
    the ORM ([default=], [onupdate=]) are not part of the embedding: the
    repository writes every column on each save and update. *)
Module FlowerPostModel.

Record t : Type := mk {
  title : option string;
  description : option string;
  image_paths : list string;
  platforms : list string;
  schedule_time : datetime;
  status : string;
  error_message : option string;
  flower_data : option Dict;
  blog_content : option string;
  instagram_caption : option string;
  instagram_tags : option (list string);
  video_path : option string;
  publish_results : option (list PublishResultJson.t);
  created_at : datetime;
  updated_at : datetime
}.

End FlowerPostModel.

(** A change that the session holds until the next commit. *)
Inductive DbOp : Type :=
| OpInsert (k : string) (row : FlowerPostModel.t)
| OpUpdate (k : string) (row : FlowerPostModel.t)
| OpDelete (k : string).

(** Calls that cross the boundary of the task, in the order they happen. *)
Inductive Event : Type :=
| EvAnalyze (image_path : string)
| EvPublish (p : Platform)
| EvUpdate (post : FlowerPost.t).

(** A local variable of a Python function: unbound until first assigned. *)
Inductive Local (A : Type) : Type :=
| Unbound
| Bound (a : A).
Arguments Unbound {A}.
Arguments Bound {A} a.

(** ** The machine and its monad *)

Record Machine : Type := mkMachine {
  table : gmap string FlowerPostModel.t;  (* committed rows of flower_posts *)
  pending : list DbOp;                    (* changes held by the session *)
  clock : datetime;                       (* what datetime.now() returns next *)
  calls : nat;                            (* external calls made so far *)
  trace : list Event;
  post_var : Local (option FlowerPost.t); (* the task's local [post] *)
  results_var : gmap string PublishResult.t (* the task's local [results] *)
}.

Definition with_table (t : gmap string FlowerPostModel.t) (s : Machine) : Machine :=
  mkMachine t (pending s) (clock s) (calls s) (trace s) (post_var s) (results_var s).

Definition with_pending (ops : list DbOp) (s : Machine) : Machine :=
  mkMachine (table s) ops (clock s) (calls s) (trace s) (post_var s) (results_var s).

Definition with_clock (c : datetime) (s : Machine) : Machine :=
  mkMachine (table s) (pending s) c (calls s) (trace s) (post_var s) (results_var s).

Definition with_calls (n : nat) (s : Machine) : Machine :=
  mkMachine (table s) (pending s) (clock s) n (trace s) (post_var s) (results_var s).

Definition with_trace (t : list Event) (s : Machine) : Machine :=
  mkMachine (table s) (pending s) (clock s) (calls s) t (post_var s) (results_var s).

Definition with_post_var (p : Local (option FlowerPost.t)) (s : Machine) : Machine :=
  mkMachine (table s) (pending s) (clock s) (calls s) (trace s) p (results_var s).

Definition with_results_var (r : gmap string PublishResult.t) (s : Machine) : Machine :=
  mkMachine (table s) (pending s) (clock s) (calls s) (trace s) (post_var s) r.

(** A computation: from a machine to an outcome and the machine it leaves.
    A raised exception keeps the mutations made before it. *)
Definition M (A : Type) : Type := Machine -> Res A * Machine.

Definition ret {A} (a : A) : M A := fun s => (Ok a, s).

Definition raise {A} (e : Exn) : M A := fun s => (Raise e, s).

Definition bind {A B} (m : M A) (k : A -> M B) : M B :=
  fun s =>
    match m s with
    | (Ok a, s1) => k a s1
    | (Raise e, s1) => (Raise e, s1)
    end.

(** [try: m except Exception as e: h e]. *)
Definition try_except {A} (m : M A) (h : Exn -> M A) : M A :=
  fun s =>
    match m s with
    | (Ok a, s1) => (Ok a, s1)
    | (Raise e, s1) => h e s1
    end.

(** [try: m finally: f]: [f] runs on every way out of [m]. *)
Definition try_finally {A} (m : M A) (f : M unit) : M A :=
  fun s =>
    match m s with
    | (r, s1) =>
        match f s1 with
        | (Ok _, s2) => (r, s2)
        | (Raise e, s2) => (Raise e, s2)
        end
    end.

(** A pure computation that may raise. *)
Definition lift {A} (r : Res A) : M A := fun s => (r, s).

Definition modify (f : Machine -> Machine) : M unit := fun s => (Ok tt, f s).

Definition gets {A} (f : Machine -> A) : M A := fun s => (Ok (f s), s).

Declare Scope py_scope.
Delimit Scope py_scope with py.
Notation "x <- m ;; k" := (bind m (fun x => k))
  (at level 100, m at next level, right associativity) : py_scope.
Notation "m ;; k" := (bind m (fun _ => k))
  (at level 100, right associativity) : py_scope.
Local Open Scope py_scope.

(** Sequencing in [Res] alone. *)
Definition res_bind {A B} (r : Res A) (k : A -> Res B) : Res B :=
  match r with Ok a => k a | Raise e => Raise e end.

Fixpoint res_map {A B} (f : A -> Res B) (l : list A) : Res (list B) :=
  match l with
  | [] => Ok []
  | x :: rest =>
      res_bind (f x) (fun y =>
      res_bind (res_map f rest) (fun ys => Ok (y :: ys)))
  end.

(** [datetime.now()]: each reading is later than the one before. *)
Definition now : M datetime :=
  t <- gets clock ;;
  modify (with_clock (S t)) ;;
  ret t.

Definition log (e : Event) : M unit :=
  modify (fun s => with_trace (trace s ++ [e]) s).

(** ** Settings ([app/config.py]) *)

Module Settings.

Record t : Type := mk {
  ANTHROPIC_API_KEY : string;
  NAVER_USERNAME : string;
  NAVER_PASSWORD : string;
  INSTAGRAM_ACCESS_TOKEN : string;
  INSTAGRAM_ACCOUNT_ID : string;
  YOUTUBE_CREDENTIALS : string
}.

End Settings.

(** ** Collaborators

    What lies outside the repository's Python code: the database server,
    the Claude client, the content and video generators behind their
    interfaces, the browser session and the Graph API that the platform
    publishers drive, and the file system.  Each answer may depend on the
    arguments and on how many external calls were made before it. *)
Class Collaborators : Type := {
  (** [get_settings()]: the settings read from the process environment *)
  get_settings : Settings.t;
  (** the exception the database raises on this call, if any *)
  db_error : nat -> option string;
  (** [ClaudeClient.analyze_image(image_path, prompt)] *)
  claude_analyze_image : nat -> string -> string -> Res Dict;
  (** [ContentGeneratorInterface] *)
  generate_blog_post : nat -> Dict -> list string -> Res string;
  generate_instagram_caption : nat -> Dict -> Res string;
  generate_tags : nat -> Dict -> Res (list string);
  (** [MediaProcessorInterface.create_shorts_video] *)
  create_shorts_video : nat -> list string -> Dict -> string -> Res string;
  (** the Selenium session of [publish_to_naver], giving the post's url *)
  naver_browser : nat -> string -> string -> list string -> Res string;
  (** the Graph API calls of [publish_to_instagram], giving the post id *)
  instagram_graph_api : nat -> string -> list string -> list string -> Res string;
  (** [os.path.exists] *)
  path_exists : nat -> string -> bool;
  (** [str] of a value inside an f-string, for values that are not strings *)
  py_repr : Val -> string
}.

(** ** The session ([sqlalchemy.orm.Session]) *)

Module Session.
Section Session.
Context `{Collaborators}.

(** One round trip to the database: it may raise. *)
Definition db_call : M unit :=
  n <- gets calls ;;
  modify (with_calls (S n)) ;;
  match db_error n with
  | Some msg => raise (mkExn SQLAlchemyError msg)
  | None => ret tt
  end.

(** [db.query(FlowerPostModel).filter(FlowerPostModel.id == k).first()] *)
Definition query_first (k : string) : M (option FlowerPostModel.t) :=
  db_call ;; gets (fun s => table s !! k).

(** [db.add(row)], [setattr] on a loaded row, and [db.delete(row)] only
    record the change in the session. *)
Definition stage (op : DbOp) : M unit :=
  modify (fun s => with_pending (pending s ++ [op]) s).

(** The effect of flushing the held changes on the table.  An update
    writes the row as it is given.  The column [updated_at] has an
    [onupdate] default, which the database applies when an update leaves
    that column as it was; the default is not modelled, so the stored
    [updated_at] is the one of the post that was written. *)
Fixpoint apply_ops (ops : list DbOp) (t : gmap string FlowerPostModel.t)
    : Res (gmap string FlowerPostModel.t) :=
  match ops with
  | [] => Ok t
  | OpInsert k row :: rest =>
      match t !! k with
      | None => apply_ops rest (<[k := row]> t)
      | Some _ =>
          Raise (mkExn SQLAlchemyError
                   "UNIQUE constraint failed: flower_posts.id")
      end
  | OpUpdate k row :: rest =>
      match t !! k with
      | Some _ => apply_ops rest (<[k := row]> t)
      | None =>
          Raise (mkExn SQLAlchemyError
                   "UPDATE statement on table 'flower_posts' expected to update 1 row(s); 0 were matched.")
      end
  | OpDelete k :: rest =>
      match t !! k with
      | Some _ => apply_ops rest (base.delete k t)
      | None =>
          Raise (mkExn SQLAlchemyError
                   "DELETE statement on table 'flower_posts' expected to delete 1 row(s); 0 were matched.")
      end
  end.

(** [db.commit()]: all held changes reach the table, or none does. *)
Definition commit : M unit :=
  db_call ;;
  ops <- gets pending ;;
  t <- gets table ;;
  match apply_ops ops t with
  | Ok t' => modify (fun s => with_pending [] (with_table t' s))
  | Raise e => raise e
  end.

(** [db.refresh(row)]: the row is read again. *)
Definition refresh (k : string) : M FlowerPostModel.t :=
  db_call ;;
  found <- gets (fun s => table s !! k) ;;
  match found with
  | Some row => ret row
  | None => raise (mkExn SQLAlchemyError "Could not refresh instance")
  end.

(** [db.rollback()] and [db.close()] drop the held changes. *)
Definition rollback : M unit := modify (with_pending []).

Definition close : M unit := modify (with_pending []).

End Session.
End Session.

(** An external call: the collaborator answers for the current call number. *)
Definition external {A} (answer : nat -> Res A) : M A :=
  n <- gets calls ;;
  modify (with_calls (S n)) ;;
  lift (answer n).

(** ** The repository ([infrastructure/database/repositories.py]) *)

Module SQLAlchemyPostRepository.
Section Repository.
Context `{Collaborators}.

Definition publish_result_of_json (j : PublishResultJson.t) : Res PublishResult.t :=
  res_bind (Platform_of_value (PublishResultJson.platform j)) (fun p =>
  Ok (PublishResult.mk (PublishResultJson.success j) p
        (PublishResultJson.url j) (PublishResultJson.post_id j)
        (PublishResultJson.error j))).

Definition publish_result_to_json (r : PublishResult.t) : PublishResultJson.t :=
  PublishResultJson.mk (PublishResult.success r)
    (Platform_value (PublishResult.platform r))
    (PublishResult.url r) (PublishResult.post_id r) (PublishResult.error r).

(** [_map_to_entity(db_post)] *)
Definition _map_to_entity (k : string) (db_post : FlowerPostModel.t)
    : Res FlowerPost.t :=
  res_bind (res_map Platform_of_value (FlowerPostModel.platforms db_post))
    (fun platforms =>
  let flower_data :=
    match FlowerPostModel.flower_data db_post with
    | Some d =>
        if is_empty d then None
        else Some (AsFlowerData (FlowerData.from_dict d))
    | None => None
    end in
  res_bind
    match FlowerPostModel.publish_results db_post with
    | Some l => if is_empty l then Ok [] else res_map publish_result_of_json l
    | None => Ok []
    end
    (fun publish_results =>
  Ok (FlowerPost_post_init
        (FlowerPost.mk k
           (FlowerPostModel.image_paths db_post)
           platforms
           (FlowerPostModel.title db_post)
           (FlowerPostModel.description db_post)
           (FlowerPostModel.schedule_time db_post)
           (FlowerPostModel.status db_post)
           (FlowerPostModel.error_message db_post)
           flower_data
           (FlowerPostModel.blog_content db_post)
           (FlowerPostModel.instagram_caption db_post)
           (FlowerPostModel.instagram_tags db_post)
           (FlowerPostModel.video_path db_post)
           publish_results
           (FlowerPostModel.created_at db_post)
           (FlowerPostModel.updated_at db_post))))).

(** [_map_to_model(post)]: the primary key and the other columns. *)
Definition _map_to_model (post : FlowerPost.t) : string * FlowerPostModel.t :=
  let platforms := map Platform_value (FlowerPost.platforms post) in
  let flower_data :=
    match FlowerPost.flower_data post with
    | Some (AsFlowerData fd) => Some (FlowerData.to_dict fd)
    | Some (AsDict d) => if is_empty d then None else Some d
    | None => None
    end in
  let publish_results :=
    if is_empty (FlowerPost.publish_results post) then None
    else Some (map publish_result_to_json (FlowerPost.publish_results post)) in
  (FlowerPost.id post,
   FlowerPostModel.mk
     (FlowerPost.title post)
     (FlowerPost.description post)
     (FlowerPost.image_paths post)
     platforms
     (FlowerPost.schedule_time post)
     (FlowerPost.status post)
     (FlowerPost.error_message post)
     flower_data
     (FlowerPost.blog_content post)
     (FlowerPost.instagram_caption post)
     (FlowerPost.instagram_tags post)
     (FlowerPost.video_path post)
     publish_results
     (FlowerPost.created_at post)
     (FlowerPost.updated_at post)).

Definition find_by_id (post_id : string) : M (option FlowerPost.t) :=
  try_except
    (db_post <- Session.query_first post_id ;;
     match db_post with
     | None => ret None
     | Some row =>
         post <- lift (_map_to_entity post_id row) ;;
         ret (Some post)
     end)
    (fun e =>
       raise (mkExn RepositoryError
                ("포스트 조회 중 오류가 발생했습니다: " +:+ exn_str e))).

Definition save (post : FlowerPost.t) : M FlowerPost.t :=
  try_except
    (let '(k, db_post) := _map_to_model post in
     Session.stage (OpInsert k db_post) ;;
     Session.commit ;;
     row <- Session.refresh k ;;
     lift (_map_to_entity k row))
    (fun e =>
       Session.rollback ;;
       raise (mkExn RepositoryError
                ("포스트 저장 중 오류가 발생했습니다: " +:+ exn_str e))).

Definition update (post : FlowerPost.t) : M FlowerPost.t :=
  log (EvUpdate post) ;;
  try_except
    (db_post <- Session.query_first (FlowerPost.id post) ;;
     match db_post with
     | None =>
         raise (mkExn RepositoryError
                  ("업데이트할 포스트를 찾을 수 없습니다: " +:+ FlowerPost.id post))
     | Some _ =>
         let '(k, updated_post) := _map_to_model post in
         Session.stage (OpUpdate k updated_post) ;;
         Session.commit ;;
         row <- Session.refresh k ;;
         lift (_map_to_entity k row)
     end)
    (fun e =>
       Session.rollback ;;
       raise (mkExn RepositoryError
                ("포스트 업데이트 중 오류가 발생했습니다: " +:+ exn_str e))).

Definition delete (post_id : string) : M bool :=
  try_except
    (db_post <- Session.query_first post_id ;;
     match db_post with
     | None => ret false
     | Some _ =>
         Session.stage (OpDelete post_id) ;;
         Session.commit ;;
         ret true
     end)
    (fun e =>
       Session.rollback ;;
       raise (mkExn RepositoryError
                ("포스트 삭제 중 오류가 발생했습니다: " +:+ exn_str e))).

End Repository.
End SQLAlchemyPostRepository.

(** ** Image analysis ([core/services/image_analyzer.py]) *)

Module ClaudeImageAnalyzer.
Section Analyzer.
Context `{Collaborators}.

Definition prompt : string :=
  "이 꽃 이미지를 분석해주세요. 다음 정보를 JSON 형식으로 반환해주세요:
1. 꽃의 종류(한국어, 영어, 학명)
2. 꽃의 주요 색상
3. 꽃의 계절적 특성
4. 꽃말
5. 관리 팁
6. 장식/인테리어 제안
7. 적합한 선물 상황
온전히 JSON 형식으로만 응답해주세요.".

(** The value logged after the call:
    [flower_data.get('flower_type', {}).get('korean', '알 수 없음')]. *)
Definition logged_name (flower_data : Dict) : Res Val :=
  match dict_get_default "flower_type" (VDict []) flower_data with
  | VDict ft => Ok (dict_get_default "korean" (VStr "알 수 없음") ft)
  | v =>
      Raise (mkExn AttributeError
               ("'" +:+ type_name v +:+ "' object has no attribute 'get'"))
  end.

Definition analyze_flower_image (image_path : string) : M Dict :=
  try_except
    (log (EvAnalyze image_path) ;;
     flower_data <- external (fun n => claude_analyze_image n image_path prompt) ;;
     lift (logged_name flower_data) ;;
     ret flower_data)
    (fun e =>
       raise (mkExn ImageAnalysisError
                ("이미지 분석 중 오류가 발생했습니다: " +:+ exn_str e))).

End Analyzer.
End ClaudeImageAnalyzer.

(** ** Publishing *)

(** The platform publishers behind their interfaces
    ([core/interfaces/publisher.py]): the answer to one call, for the
    current call number. *)
Definition NaverPublisherInterface : Type :=
  nat -> string -> string -> list string -> Res PublishResult.t.

Definition InstagramPublisherInterface : Type :=
  nat -> string -> list string -> list string -> Res PublishResult.t.

Definition YoutubePublisherInterface : Type :=
  nat -> string -> string -> string -> list string -> Res PublishResult.t.

(** [try: body except Exception as e: h e] in [Res]. *)
Definition res_try {A} (body : Res A) (h : Exn -> Res A) : Res A :=
  match body with Ok a => Ok a | Raise e => h e end.

Section Publishers.
Context `{Collaborators}.

(** [NaverBlogPublisher.publish_to_naver]
    ([infrastructure/external/naver_service.py]) *)
Definition NaverBlogPublisher (username password : string)
    : NaverPublisherInterface :=
  fun n title content image_paths =>
    res_try
      (if negb (str_truthy username) || negb (str_truthy password) then
         Raise (mkExn PublishingError
                  "네이버 블로그 계정 정보가 설정되지 않았습니다.")
       else if negb (str_truthy title) then
         Raise (mkExn PublishingError "게시물 제목은 필수입니다.")
       else if negb (str_truthy content) then
         Raise (mkExn PublishingError "게시물 내용은 필수입니다.")
       else
         res_bind (naver_browser n title content image_paths) (fun post_url =>
         Ok (PublishResult.mk true NAVER (Some post_url) None None)))
      (fun e =>
         Ok (PublishResult.mk false NAVER None None (Some (exn_str e)))).

(** [InstagramPublisher.publish_to_instagram]
    ([infrastructure/external/instagram_service.py]) *)
Definition InstagramPublisher (access_token account_id : string)
    : InstagramPublisherInterface :=
  fun n caption hashtags image_paths =>
    res_try
      (if negb (str_truthy access_token) || negb (str_truthy account_id) then
         Raise (mkExn PublishingError
                  "Instagram API 계정 정보가 설정되지 않았습니다.")
       else if negb (str_truthy caption) then
         Raise (mkExn PublishingError "게시물 캡션은 필수입니다.")
       else if is_empty image_paths then
         Raise (mkExn PublishingError
                  "게시물 이미지는 최소 1개 이상 필요합니다.")
       else
         res_bind (instagram_graph_api n caption hashtags image_paths)
           (fun post_id =>
         let post_url := "https://www.instagram.com/p/" +:+ post_id in
         Ok (PublishResult.mk true INSTAGRAM (Some post_url) (Some post_id)
               None)))
      (fun e =>
         Ok (PublishResult.mk false INSTAGRAM None None (Some (exn_str e)))).

(** [YoutubePublisher.publish_to_youtube]
    ([infrastructure/external/youtube_service.py]) *)
Definition YoutubePublisher (credentials_path : string)
    : YoutubePublisherInterface :=
  fun n video_path title description tags =>
    res_try
      (if negb (str_truthy credentials_path) then
         Raise (mkExn PublishingError
                  "YouTube API 자격 증명 파일 경로가 설정되지 않았습니다.")
       else if negb (str_truthy video_path) then
         Raise (mkExn PublishingError "비디오 파일 경로는 필수입니다.")
       else if negb (path_exists n video_path) then
         Raise (mkExn PublishingError
                  ("비디오 파일을 찾을 수 없습니다: " +:+ video_path))
       else if negb (str_truthy title) then
         Raise (mkExn PublishingError "비디오 제목은 필수입니다.")
       else
         let video_id := "sample_video_id" in
         let video_url := "https://youtube.com/shorts/" +:+ video_id in
         Ok (PublishResult.mk true YOUTUBE (Some video_url) (Some video_id)
               None))
      (fun e =>
         Ok (PublishResult.mk false YOUTUBE None None (Some (exn_str e)))).

End Publishers.

(** The content dictionary handed to the registry: a key is present or
    absent. *)
Module Content.

Record t : Type := mk {
  title : option string;
  blog_content : option string;
  image_paths : option (list string);
  instagram_caption : option string;
  instagram_tags : option (list string);
  video_path : option string;
  description : option string;
  tags : option (list string)
}.

Definition empty : t := mk None None None None None None None None.

(** [content.get(key, default)] *)
Definition get {A} (field : option A) (default : A) : A :=
  match field with Some v => v | None => default end.

End Content.

(** [SocialPublisherService] ([core/services/social_publisher.py]) *)
Module SocialPublisherService.

(** [self.publishers]: a publisher given as [None] counts as missing. *)
Record t : Type := mk {
  naver_publisher : option NaverPublisherInterface;
  instagram_publisher : option InstagramPublisherInterface;
  youtube_publisher : option YoutubePublisherInterface
}.

Definition unsupported (platform : Platform) : Exn :=
  mkExn PublishingError
    ("지원되지 않는 플랫폼입니다: " +:+ Platform_value platform).

(** [publisher = self.publishers.get(platform)] together with the
    arguments that the branch for [platform] takes from [content]: the
    call to make, or [None] when no publisher is registered. *)
Definition dispatch (self : t) (platform : Platform) (content : Content.t)
    : option (nat -> Res PublishResult.t) :=
  match platform with
  | NAVER =>
      match naver_publisher self with
      | None => None
      | Some publisher =>
          Some (fun n =>
            publisher n
              (Content.get (Content.title content) "")
              (Content.get (Content.blog_content content) "")
              (Content.get (Content.image_paths content) []))
      end
  | INSTAGRAM =>
      match instagram_publisher self with
      | None => None
      | Some publisher =>
          Some (fun n =>
            publisher n
              (Content.get (Content.instagram_caption content) "")
              (Content.get (Content.instagram_tags content) [])
              (Content.get (Content.image_paths content) []))
      end
  | YOUTUBE =>
      match youtube_publisher self with
      | None => None
      | Some publisher =>
          Some (fun n =>
            publisher n
              (Content.get (Content.video_path content) "")
              (Content.get (Content.title content) "")
              (Content.get (Content.description content) "")
              (Content.get (Content.tags content) []))
      end
  end.

(** The result built in the [except] clause. *)
Definition failed (platform : Platform) (e : Exn) : PublishResult.t :=
  PublishResult.mk false platform None None (Some (exn_str e)).

Definition publish (self : t) (platform : Platform) (content : Content.t)
    : M PublishResult.t :=
  log (EvPublish platform) ;;
  try_except
    (match dispatch self platform content with
     | None => raise (unsupported platform)
     | Some call => external call
     end)
    (fun e => ret (failed platform e)).

End SocialPublisherService.

(** [get_social_publishers()] ([app/dependenties.py]) *)
Definition get_social_publishers `{Collaborators} : SocialPublisherService.t :=
  let settings := get_settings in
  SocialPublisherService.mk
    (Some (NaverBlogPublisher (Settings.NAVER_USERNAME settings)
             (Settings.NAVER_PASSWORD settings)))
    (Some (InstagramPublisher (Settings.INSTAGRAM_ACCESS_TOKEN settings)
             (Settings.INSTAGRAM_ACCOUNT_ID settings)))
    (Some (YoutubePublisher (Settings.YOUTUBE_CREDENTIALS settings))).

(** ** The task ([workers/tasks.py]) *)

(** What the task returns: [{"success": False, "error": ...}] or
    [{"success": True, "post_id": ..., "results": ...}]. *)
Inductive TaskResult : Type :=
| TaskError (error : string)
| TaskDone (post_id : string) (results : gmap string PublishResult.t).

Definition task_success (r : TaskResult) : bool :=
  match r with TaskDone _ _ => true | TaskError _ => false end.

Module Tasks.
Section Tasks.
Context `{Collaborators}.

(** Reading the local [post] to reach one of its attributes. *)
Definition get_post (attr : string) : M FlowerPost.t :=
  v <- gets post_var ;;
  match v with
  | Unbound => raise (unbound_local "post")
  | Bound None =>
      raise (mkExn AttributeError
               ("'NoneType' object has no attribute '" +:+ attr +:+ "'"))
  | Bound (Some p) => ret p
  end.

(** The object [post] is mutated in place. *)
Definition set_post (p : FlowerPost.t) : M unit :=
  modify (with_post_var (Bound (Some p))).

(** [post.update_status(status, error_message)] *)
Definition post_update_status (st : PostStatus) (err : option string) : M unit :=
  post <- get_post "update_status" ;;
  t <- now ;;
  set_post (FlowerPost.update_status st err t post).

(** [post.add_publish_result(result)] *)
Definition post_add_publish_result (r : PublishResult.t) : M unit :=
  post <- get_post "add_publish_result" ;;
  t <- now ;;
  set_post (FlowerPost.add_publish_result r t post).

(** [repository.update(post)] *)
Definition repository_update_post : M unit :=
  post <- get_post "id" ;;
  SQLAlchemyPostRepository.update post ;;
  ret tt.

(** A value inside an f-string. *)
Definition fmt (v : Val) : string :=
  match v with VStr s => s | _ => py_repr v end.

(** [flower_data['flower_type'][k]] *)
Definition flower_type_of (flower_data : Dict) (k : string) : Res Val :=
  res_bind (subscript (VDict flower_data) "flower_type") (fun ft =>
  subscript ft k).

(** [f"{flower_data['flower_type']['korean']} - {flower_data['meaning']}"] *)
Definition naver_default_title (flower_data : Dict) : Res string :=
  res_bind (flower_type_of flower_data "korean") (fun korean =>
  res_bind (subscript (VDict flower_data) "meaning") (fun meaning =>
  Ok (fmt korean +:+ " - " +:+ fmt meaning))).

(** [f"{flower_data['flower_type']['korean']} - {flower_data['flower_type']['english']}"] *)
Definition youtube_default_title (flower_data : Dict) : Res string :=
  res_bind (flower_type_of flower_data "korean") (fun korean =>
  res_bind (flower_type_of flower_data "english") (fun english =>
  Ok (fmt korean +:+ " - " +:+ fmt english))).

Definition youtube_description (flower_data : Dict) : Res string :=
  res_bind (flower_type_of flower_data "korean") (fun korean =>
  res_bind (flower_type_of flower_data "english") (fun english =>
  res_bind (subscript (VDict flower_data) "meaning") (fun meaning =>
  Ok (fmt korean +:+ " (" +:+ fmt english +:+ ") - " +:+ fmt meaning +:+ "

#꽃 #플라워 #쇼츠")))).

(** The body of the loop [for platform in post.platforms]. *)
Definition platform_stage (social_publishers : SocialPublisherService.t)
    (post_id : string) (flower_data : Dict) (platform : Platform) : M unit :=
  match platform with
  | NAVER =>
      post <- get_post "image_paths" ;;
      blog_content <-
        external (fun n =>
          generate_blog_post n flower_data (FlowerPost.image_paths post)) ;;
      set_post (FlowerPost.set_blog_content (Some blog_content) post) ;;
      repository_update_post ;;
      post <- get_post "title" ;;
      title <- lift (or_else (FlowerPost.title post)
                       (naver_default_title flower_data)) ;;
      naver_result <-
        SocialPublisherService.publish social_publishers NAVER
          (Content.mk (Some title) (Some blog_content)
             (Some (FlowerPost.image_paths post)) None None None None None) ;;
      post_add_publish_result naver_result ;;
      repository_update_post ;;
      modify (fun s =>
        with_results_var (<["naver" := naver_result]> (results_var s)) s)
  | INSTAGRAM =>
      caption <- external (fun n => generate_instagram_caption n flower_data) ;;
      hashtags <- external (fun n => generate_tags n flower_data) ;;
      post <- get_post "instagram_caption" ;;
      set_post (FlowerPost.set_instagram_tags (Some hashtags)
                  (FlowerPost.set_instagram_caption (Some caption) post)) ;;
      repository_update_post ;;
      post <- get_post "image_paths" ;;
      instagram_result <-
        SocialPublisherService.publish social_publishers INSTAGRAM
          (Content.mk None None (Some (FlowerPost.image_paths post))
             (Some caption) (Some hashtags) None None None) ;;
      post_add_publish_result instagram_result ;;
      repository_update_post ;;
      modify (fun s =>
        with_results_var (<["instagram" := instagram_result]> (results_var s)) s)
  | YOUTUBE =>
      let video_path := "uploads/" +:+ post_id +:+ "/shorts_video.mp4" in
      post <- get_post "image_paths" ;;
      external (fun n =>
        create_shorts_video n (FlowerPost.image_paths post) flower_data
          video_path) ;;
      set_post (FlowerPost.set_video_path (Some video_path) post) ;;
      repository_update_post ;;
      post <- get_post "title" ;;
      title <- lift (or_else (FlowerPost.title post)
                       (youtube_default_title flower_data)) ;;
      description <- lift (youtube_description flower_data) ;;
      tags <- external (fun n => generate_tags n flower_data) ;;
      youtube_result <-
        SocialPublisherService.publish social_publishers YOUTUBE
          (Content.mk (Some title) None None None None (Some video_path)
             (Some description) (Some tags)) ;;
      post_add_publish_result youtube_result ;;
      repository_update_post ;;
      modify (fun s =>
        with_results_var (<["youtube" := youtube_result]> (results_var s)) s)
  end.

(** [for platform in post.platforms: ...] *)
Fixpoint for_platforms (social_publishers : SocialPublisherService.t)
    (post_id : string) (flower_data : Dict) (l : list Platform) : M unit :=
  match l with
  | [] => ret tt
  | platform :: rest =>
      platform_stage social_publishers post_id flower_data platform ;;
      for_platforms social_publishers post_id flower_data rest
  end.

(** [post.image_paths[0]] *)
Definition first_image (post : FlowerPost.t) : Res string :=
  match FlowerPost.image_paths post with
  | main_image :: _ => Ok main_image
  | [] => Raise (mkExn IndexError "list index out of range")
  end.

(** The statements of the [try:] block that follow the early return. *)
Definition pipeline (social_publishers : SocialPublisherService.t)
    (post_id : string) : M TaskResult :=
  post_update_status PROCESSING None ;;
  repository_update_post ;;
  post <- get_post "image_paths" ;;
  main_image <- lift (first_image post) ;;
  flower_data <- ClaudeImageAnalyzer.analyze_flower_image main_image ;;
  post <- get_post "flower_data" ;;
  set_post (FlowerPost.set_flower_data (Some (AsDict flower_data)) post) ;;
  repository_update_post ;;
  modify (with_results_var ∅) ;;
  post <- get_post "platforms" ;;
  for_platforms social_publishers post_id flower_data
    (FlowerPost.platforms post) ;;
  post_update_status COMPLETED None ;;
  repository_update_post ;;
  results <- gets results_var ;;
  ret (TaskDone post_id results).

(** The statements inside [try:]. *)
Definition try_body (social_publishers : SocialPublisherService.t)
    (post_id : string) : M TaskResult :=
  found <- SQLAlchemyPostRepository.find_by_id post_id ;;
  modify (with_post_var (Bound found)) ;;
  match found with
  | None => ret (TaskError "Post not found")
  | Some _ => pipeline social_publishers post_id
  end.

(** The clauses [except DomainException as e] and [except Exception as e]. *)
Definition handlers (e : Exn) : M TaskResult :=
  if is_DomainException (exn_class e) then
    post_update_status FAILED (Some (exn_str e)) ;;
    repository_update_post ;;
    ret (TaskError (exn_str e))
  else
    post_update_status FAILED (Some (exn_str e)) ;;
    repository_update_post ;;
    ret (TaskError (exn_str e)).

(** The task with the publisher service it is given.  A run starts with
    a new session ([SessionLocal()]) and with its locals unbound. *)
Definition process_with (social_publishers : SocialPublisherService.t)
    (post_id : string) : M TaskResult :=
  modify (fun s =>
    with_results_var ∅ (with_post_var Unbound (with_pending [] s))) ;;
  try_finally
    (try_except (try_body social_publishers post_id) handlers)
    Session.close.

(** [process_flower_content(post_id)] *)
Definition process_flower_content (post_id : string) : M TaskResult :=
  process_with get_social_publishers post_id.

End Tasks.
End Tasks.


(** * Properties *)

(** ** Vocabulary of the statements *)

(** [wp m Q s]: running [m] from [s] ends in an outcome and a machine
    that satisfy [Q].  Every computation is a total function, so this is
    a statement about the one run there is. *)
Definition wp {A} (m : M A) (Q : Res A -> Machine -> Prop) (s : Machine) : Prop :=
  Q (m s).1 (m s).2.

(** The images sent to the analysis gateway, the platforms for which the
    registry was called, and the posts handed to [repository.update], in
    the order of the trace. *)
Definition analyses (t : list Event) : list string :=
  omap (fun ev => match ev with EvAnalyze p => Some p | _ => None end) t.

Definition publishes (t : list Event) : list Platform :=
  omap (fun ev => match ev with EvPublish p => Some p | _ => None end) t.

Definition updates (t : list Event) : list FlowerPost.t :=
  omap (fun ev => match ev with EvUpdate p => Some p | _ => None end) t.

(** The columns written for a post. *)
Definition row_of (p : FlowerPost.t) : FlowerPostModel.t :=
  (SQLAlchemyPostRepository._map_to_model p).2.

(** The requested platforms, the inputs and the fields that the loop over
    the platforms leaves alone. *)
Definition same_request (p0 p : FlowerPost.t) : Prop :=
  FlowerPost.id p = FlowerPost.id p0 /\
  FlowerPost.image_paths p = FlowerPost.image_paths p0 /\
  FlowerPost.platforms p = FlowerPost.platforms p0 /\
  FlowerPost.title p = FlowerPost.title p0 /\
  FlowerPost.status p = FlowerPost.status p0 /\
  FlowerPost.error_message p = FlowerPost.error_message p0 /\
  FlowerPost.created_at p = FlowerPost.created_at p0.

(** Between two steps of the loop: the session holds no change, the row
    of the post exists, and the local [post] is the post [p0] the loop
    started with plus the publish results [rs]. *)
Definition LoopInv (p0 : FlowerPost.t) (rs : list PublishResult.t)
    (s : Machine) : Prop :=
  pending s = [] /\ is_Some (table s !! FlowerPost.id p0) /\
  exists p, post_var s = Bound (Some p) /\ same_request p0 p /\
            FlowerPost.publish_results p = FlowerPost.publish_results p0 ++ rs.

(** [x] is what the registry returns for [platform]: the answer of the
    registered publisher, or the failed result built from the exception
    that the publisher (or the missing registration) raised. *)
Definition attempt (self : SocialPublisherService.t) (platform : Platform)
    (x : PublishResult.t) : Prop :=
  exists content n,
    match SocialPublisherService.dispatch self platform content with
    | None =>
        x = SocialPublisherService.failed platform
              (SocialPublisherService.unsupported platform)
    | Some call =>
        match call n with
        | Ok answer => x = answer
        | Raise e => x = SocialPublisherService.failed platform e
        end
    end.

(** What the registry returns when the publisher is asked as call number
    [n], and the machine it leaves. *)
Definition publish_answer (self : SocialPublisherService.t)
    (platform : Platform) (content : Content.t) (n : nat) : PublishResult.t :=
  match SocialPublisherService.dispatch self platform content with
  | None =>
      SocialPublisherService.failed platform
        (SocialPublisherService.unsupported platform)
  | Some call =>
      match call n with
      | Ok r => r
      | Raise e => SocialPublisherService.failed platform e
      end
  end.

Definition after_publish (self : SocialPublisherService.t)
    (platform : Platform) (content : Content.t) (s : Machine) : Machine :=
  with_calls
    (match SocialPublisherService.dispatch self platform content with
     | Some _ => S (calls s)
     | None => calls s
     end)
    (with_trace (trace s ++ [EvPublish platform]) s).

(** The machine after a successful [repository.update(p)]. *)
Definition after_update (p : FlowerPost.t) (s : Machine) : Machine :=
  with_calls (calls s + 3)
    (with_trace (trace s ++ [EvUpdate p])
       (with_table (<[FlowerPost.id p := row_of p]> (table s)) s)).

(** The analysis result names the flower and its meaning: the keys that
    the titles and the description read. *)
Definition describes (fd : Dict) : Prop :=
  exists ft korean english meaning,
    dict_get "flower_type" fd = Some (VDict ft) /\
    dict_get "korean" ft = Some korean /\
    dict_get "english" ft = Some english /\
    dict_get "meaning" fd = Some meaning.

(** A post handed to [repository.update] carries the error message
    [msg], or it has the status failed. *)
Definition message_kept (msg : option string) (p : FlowerPost.t) : Prop :=
  FlowerPost.error_message p = msg \/ FlowerPost.status p = "failed".

(** Every post handed to [repository.update] between [s] and [s'] carries
    the error message [msg] or has the status failed. *)
Definition writes_keep_message (msg : option string) (s s' : Machine)
    : Prop :=
  exists us,
    updates (trace s') = updates (trace s) ++ us /\
    Forall (message_kept msg) us.

Section Vocabulary.
Context `{C : Collaborators}.

(** The database answers every call. *)
Definition no_db_errors : Prop :=
  forall n, db_error n = None.

(** The content generator and the video generator answer every call. *)
Definition generation_succeeds : Prop :=
  (forall n fd paths, exists v, generate_blog_post n fd paths = Ok v) /\
  (forall n fd, exists v, generate_instagram_caption n fd = Ok v) /\
  (forall n fd, exists v, generate_tags n fd = Ok v) /\
  (forall n paths fd out, exists v, create_shorts_video n paths fd out = Ok v).

(** The answer of [find_by_id] when the database is asked as call number
    [n] and holds the table [t]. *)
Definition find_answer (post_id : string) (n : nat)
    (t : gmap string FlowerPostModel.t) : Res (option FlowerPost.t) :=
  let wrap msg :=
    mkExn RepositoryError ("포스트 조회 중 오류가 발생했습니다: " +:+ msg) in
  match db_error n with
  | Some msg => Raise (wrap msg)
  | None =>
      match t !! post_id with
      | None => Ok None
      | Some row =>
          match SQLAlchemyPostRepository._map_to_entity post_id row with
          | Ok p => Ok (Some p)
          | Raise e => Raise (wrap (exn_str e))
          end
      end
  end.

(** The answer of [analyze_flower_image] when the gateway is asked as
    call number [n]. *)
Definition analyze_answer (n : nat) (image_path : string) : Res Dict :=
  let wrap e :=
    mkExn ImageAnalysisError
      ("이미지 분석 중 오류가 발생했습니다: " +:+ exn_str e) in
  match claude_analyze_image n image_path ClaudeImageAnalyzer.prompt with
  | Ok flower_data =>
      match ClaudeImageAnalyzer.logged_name flower_data with
      | Ok _ => Ok flower_data
      | Raise e => Raise (wrap e)
      end
  | Raise e => Raise (wrap e)
  end.

(** What [repository.update(p)] does to a session that holds no change. *)
Definition update_post {A} (p : FlowerPost.t) (s : Machine)
    (r : Res A) (s' : Machine) : Prop :=
  pending s' = [] /\ post_var s' = post_var s /\
  results_var s' = results_var s /\ clock s' = clock s /\
  trace s' = trace s ++ [EvUpdate p] /\
  match r with
  | Ok _ =>
      is_Some (table s !! FlowerPost.id p) /\ s' = after_update p s
  | Raise e =>
      exn_class e = RepositoryError /\
      (table s' = table s \/
       (is_Some (db_error (calls s + 2)) /\
        table s' = <[FlowerPost.id p := row_of p]> (table s)))
  end /\
  (no_db_errors -> is_Some (table s !! FlowerPost.id p) ->
   exists a, r = Ok a).

(** What [find_by_id] does: one call to the database. *)
Definition find_post (post_id : string) (s : Machine)
    (r : Res (option FlowerPost.t)) (s' : Machine) : Prop :=
  s' = with_calls (S (calls s)) s /\
  match r with
  | Ok None => db_error (calls s) = None /\ table s !! post_id = None
  | Ok (Some p) =>
      db_error (calls s) = None /\
      exists row, table s !! post_id = Some row /\
                  SQLAlchemyPostRepository._map_to_entity post_id row = Ok p
  | Raise e =>
      exn_class e = RepositoryError /\
      (is_Some (db_error (calls s)) \/
       exists row e0,
         table s !! post_id = Some row /\
         SQLAlchemyPostRepository._map_to_entity post_id row = Raise e0)
  end.


(** Nothing in a step of the loop can fail. *)
Definition loop_hyps (fd : Dict) : Prop :=
  no_db_errors /\ generation_succeeds /\ describes fd.

Definition stage_post (self : SocialPublisherService.t) (platform : Platform)
    (p0 : FlowerPost.t) (rs : list PublishResult.t) (fd : Dict)
    (s : Machine) (r : Res unit) (s' : Machine) : Prop :=
  pending s' = [] /\
  analyses (trace s') = analyses (trace s) /\
  match r with
  | Ok _ => exists x, LoopInv p0 (rs ++ [x]) s' /\ attempt self platform x
  | Raise _ => True
  end /\
  (loop_hyps fd -> exists u, r = Ok u).

Definition loop_post (self : SocialPublisherService.t) (l : list Platform)
    (p0 : FlowerPost.t) (rs : list PublishResult.t) (fd : Dict)
    (s : Machine) (r : Res unit) (s' : Machine) : Prop :=
  pending s' = [] /\
  analyses (trace s') = analyses (trace s) /\
  match r with
  | Ok _ =>
      exists xs, LoopInv p0 (rs ++ xs) s' /\ Forall2 (attempt self) l xs
  | Raise _ => True
  end /\
  (loop_hyps fd -> exists u, r = Ok u).

Definition handlers_post (s : Machine) (r : Res TaskResult) (s' : Machine)
    : Prop :=
  pending s' = [] /\
  analyses (trace s') = analyses (trace s) /\
  publishes (trace s') = publishes (trace s) /\
  forall a b, r <> Ok (TaskDone a b).

(** Nothing in a run on the post [post0] can fail: the analysis is the
    fifth external call of the run, after the lookup and the three calls
    of the first update. *)
Definition run_hyps (post0 : FlowerPost.t) (s : Machine) : Prop :=
  no_db_errors /\ generation_succeeds /\
  exists img fd,
    Tasks.first_image post0 = Ok img /\
    analyze_answer (calls s + 4) img = Ok fd /\
    describes fd.

(** The row of [post0] after a run that completed. *)
Definition completed_from (self : SocialPublisherService.t)
    (post0 : FlowerPost.t) (s' : Machine) : Prop :=
  exists final xs,
    table s' !! FlowerPost.id post0 = Some (row_of final) /\
    FlowerPost.status final = "completed" /\
    FlowerPost.error_message final = FlowerPost.error_message post0 /\
    FlowerPost.publish_results final = FlowerPost.publish_results post0 ++ xs /\
    Forall2 (attempt self) (FlowerPost.platforms post0) xs /\
    FlowerPost.platforms final = FlowerPost.platforms post0 /\
    FlowerPost.created_at final = FlowerPost.created_at post0.

(** A run on a post that the lookup can return. *)
Definition found_post (self : SocialPublisherService.t) (post_id : string)
    (post0 : FlowerPost.t) (s : Machine) (r : Res TaskResult) (s' : Machine)
    : Prop :=
  (exists l, analyses (trace s') = analyses (trace s) ++ l /\
     match Tasks.first_image post0 with
     | Ok img => (l = [] \/ l = [img]) /\ (no_db_errors -> l = [img])
     | Raise _ => l = []
     end) /\
  (forall a b, r = Ok (TaskDone a b) ->
     a = post_id /\ completed_from self post0 s') /\
  (run_hyps post0 s -> exists b, r = Ok (TaskDone post_id b)).

(** A run whose lookup does not return a post. *)
Definition lookup_post (post_id : string) (s : Machine)
    (r : Res TaskResult) (s' : Machine) : Prop :=
  match find_answer post_id (calls s) (table s) with
  | Raise _ =>
      r = Raise (unbound_local "post") /\
      table s' = table s /\ trace s' = trace s
  | Ok None =>
      r = Ok (TaskError "Post not found") /\
      table s' = table s /\ trace s' = trace s
  | Ok (Some _) => True
  end.


End Vocabulary.

(** ** Sample inputs *)

Module Sample.

Definition flower_data : Dict :=
  [("flower_type",
    VDict [("korean", VStr "장미"); ("english", VStr "Rose");
           ("scientific", VStr "Rosa")]);
   ("colors", VList [VStr "빨강"]);
   ("seasonal", VStr "초여름");
   ("meaning", VStr "사랑");
   ("care_tips", VStr "물은 이틀에 한 번");
   ("decoration_ideas", VStr "유리 화병");
   ("gift_occasions", VList [VStr "기념일"])].

Definition settings : Settings.t :=
  Settings.mk "sk-ant-key" "florist" "secret" "token" "17841400000"
    "credentials.json".

(** Collaborators that differ in how the database, the analysis gateway,
    the blog generator and the Graph API answer. *)
Definition collaborators (db : nat -> option string)
    (analyze : nat -> Res Dict) (blog : Res string) (graph : Res string)
    : Collaborators :=
  {| get_settings := settings;
     db_error := db;
     claude_analyze_image := fun n _ _ => analyze n;
     generate_blog_post := fun _ _ _ => blog;
     generate_instagram_caption := fun _ _ => Ok "오늘의 꽃, 장미";
     generate_tags := fun _ _ => Ok ["#장미"; "#rose"];
     create_shorts_video := fun _ _ _ out => Ok out;
     naver_browser := fun _ _ _ _ => Ok "https://blog.naver.com/florist/1";
     instagram_graph_api := fun _ _ _ _ => graph;
     path_exists := fun _ _ => true;
     py_repr := fun _ => "<object>" |}.

Definition healthy : Collaborators :=
  collaborators (fun _ => None) (fun _ => Ok flower_data)
    (Ok "<h1>장미</h1>") (Ok "17900000001").



(** The gateway fails during the first run (calls 0 to 7) and answers
    afterwards. *)
Definition analysis_flaky : Collaborators :=
  collaborators (fun _ => None)
    (fun n =>
       if Nat.ltb n 8 then
         Raise (mkExn ImageAnalysisError "Claude API 오류: overloaded")
       else Ok flower_data)
    (Ok "<h1>장미</h1>") (Ok "17900000001").

Definition database_down : Collaborators :=
  collaborators (fun _ => Some "database is locked")
    (fun _ => Ok flower_data) (Ok "<h1>장미</h1>") (Ok "17900000001").



Definition row : FlowerPostModel.t :=
  FlowerPostModel.mk None None
    ["uploads/p1/rose.jpg"; "uploads/p1/rose2.jpg"]
    ["naver"; "instagram"] 90 "pending" None None None None None None None
    90 90.

Definition post : FlowerPost.t :=
  FlowerPost.mk "p1"
    ["uploads/p1/rose.jpg"; "uploads/p1/rose2.jpg"]
    [NAVER; INSTAGRAM] None None 90 "pending" None None None None None None
    [] 90 90.

(** One pending post, a new session, the clock at 100. *)
Definition machine : Machine :=
  mkMachine {["p1" := row]} [] 100 0 [] Unbound ∅.

(** An empty table. *)
Definition empty_machine : Machine :=
  mkMachine ∅ [] 100 0 [] Unbound ∅.

(** The per-platform results that a run returned. *)
Definition results_of (r : Res TaskResult) : gmap string PublishResult.t :=
  match r with
  | Ok (TaskDone _ results) => results
  | _ => ∅
  end.

End Sample.

(** * Further definitions *)

Import SQLAlchemyPostRepository ClaudeImageAnalyzer Tasks.

(** ** Reading back what was written *)

(** The post that [_map_to_entity] gives for the row that [_map_to_model]
    wrote for [p]: the flower data comes back as a [FlowerData] object, and
    an empty dictionary comes back as no data. *)
Definition read_back (p : FlowerPost.t) : FlowerPost.t :=
  FlowerPost.set_flower_data
    match FlowerPost.flower_data p with
    | Some (AsFlowerData fd) => Some (AsFlowerData fd)
    | Some (AsDict d) =>
        if is_empty d then None
        else Some (AsFlowerData (FlowerData.from_dict d))
    | None => None
    end
    p.

(** ** What a run leaves alone *)

(** The columns of a row that hold the request: what was uploaded and
    when. *)
Definition same_columns (row0 row : FlowerPostModel.t) : Prop :=
  FlowerPostModel.title row = FlowerPostModel.title row0 /\
  FlowerPostModel.description row = FlowerPostModel.description row0 /\
  FlowerPostModel.image_paths row = FlowerPostModel.image_paths row0 /\
  FlowerPostModel.platforms row = FlowerPostModel.platforms row0 /\
  FlowerPostModel.schedule_time row = FlowerPostModel.schedule_time row0 /\
  FlowerPostModel.created_at row = FlowerPostModel.created_at row0.

(** The post [p] has the id [post_id] and carries the request of the row
    [row0]. *)
Definition request_of (post_id : string) (row0 : FlowerPostModel.t)
    (p : FlowerPost.t) : Prop :=
  FlowerPost.id p = post_id /\
  FlowerPost.title p = FlowerPostModel.title row0 /\
  FlowerPost.description p = FlowerPostModel.description row0 /\
  FlowerPost.image_paths p = FlowerPostModel.image_paths row0 /\
  map Platform_value (FlowerPost.platforms p) =
    FlowerPostModel.platforms row0 /\
  FlowerPost.schedule_time p = FlowerPostModel.schedule_time row0 /\
  FlowerPost.created_at p = FlowerPostModel.created_at row0.

(** Between the machine [s0] and the machine [s], nothing but the row of
    [post_id] changed, that row still carries the request of [row0], and
    so does every post that was handed to [repository.update]. *)
Definition kept (post_id : string) (row0 : FlowerPostModel.t)
    (s0 s : Machine) : Prop :=
  (forall k, k <> post_id -> table s !! k = table s0 !! k) /\
  (exists row, table s !! post_id = Some row /\ same_columns row0 row) /\
  (exists us, updates (trace s) = updates (trace s0) ++ us /\
              Forall (request_of post_id row0) us).

(** The invariant of a run once the post is loaded: the session holds no
    change and the local [post] carries the request. *)
Definition RunInv (post_id : string) (row0 : FlowerPostModel.t)
    (s0 s : Machine) : Prop :=
  pending s = [] /\
  (exists p, post_var s = Bound (Some p) /\ request_of post_id row0 p) /\
  kept post_id row0 s0 s.

(** What the task returned agrees with the post [final] that is stored:
    completed for a run that returns its results, and failed, with the
    error that was returned when it is not empty, otherwise. *)
Definition terminal (res : TaskResult) (final : FlowerPost.t) : Prop :=
  match res with
  | TaskDone _ _ => FlowerPost.status final = "completed"
  | TaskError msg =>
      FlowerPost.status final = "failed" /\
      (msg <> "" -> FlowerPost.error_message final = Some msg)
  end.

Section RunVocabulary.
Context `{C : Collaborators}.

(** A run on the stored post [post_id], from the machine [s]. *)
Definition run_post (post_id : string) (row0 : FlowerPostModel.t)
    (s : Machine) (r : Res TaskResult) (s' : Machine) : Prop :=
  kept post_id row0 s s' /\
  (forall res, r = Ok res ->
     exists final,
       table s' !! post_id = Some (row_of final) /\ terminal res final) /\
  (no_db_errors -> exists res, r = Ok res).

End RunVocabulary.

(** ** Generation that fails *)

Section FailureVocabulary.
Context `{C : Collaborators}.


End FailureVocabulary.

(** ** The results that the task returns *)


(** ** Publishing *)

(** A publish result says one thing: a success carries a url and no
    error, a failure carries an error and neither url nor post id. *)
Definition well_formed (r : PublishResult.t) : Prop :=
  if PublishResult.success r then
    is_Some (PublishResult.url r) /\ PublishResult.error r = None
  else
    PublishResult.url r = None /\ PublishResult.post_id r = None /\
    is_Some (PublishResult.error r).

Section PublishVocabulary.
Context `{C : Collaborators}.


End PublishVocabulary.

(** ** Text ([str] methods used by the Claude client and the content
    generator)

    A Python string is held as the bytes of its UTF-8 encoding.  The
    characters searched for below are ASCII, so positions found in the
    bytes cut the text where Python cuts it. *)

Module Text.

Definition newline : Ascii.ascii := Ascii.ascii_of_nat 10.

Definition open_brace : Ascii.ascii := Ascii.ascii_of_nat 123.

Definition close_brace : Ascii.ascii := Ascii.ascii_of_nat 125.

(** [s.split(c)] for a one-character separator. *)
Fixpoint split (c : Ascii.ascii) (s : string) : list string :=
  match s with
  | EmptyString => [EmptyString]
  | String a rest =>
      if Ascii.eqb a c then EmptyString :: split c rest
      else
        match split c rest with
        | part :: parts => String a part :: parts
        | [] => [String a EmptyString]
        end
  end.

(** The code points for which [str.isspace] holds, in UTF-8: U+0009 to
    U+000D, U+001C to U+0020, U+0085, U+00A0, U+1680, U+2000 to U+200A,
    U+2028, U+2029, U+202F, U+205F and U+3000. *)
Definition space1 (a : nat) : bool :=
  (Nat.leb 9 a && Nat.leb a 13) || (Nat.leb 28 a && Nat.leb a 32).

Definition space2 (a b : nat) : bool :=
  Nat.eqb a 194 && (Nat.eqb b 133 || Nat.eqb b 160).

Definition space3 (a b c : nat) : bool :=
  (Nat.eqb a 225 && Nat.eqb b 154 && Nat.eqb c 128) ||
  (Nat.eqb a 226 && Nat.eqb b 128 &&
   ((Nat.leb 128 c && Nat.leb c 138) || Nat.eqb c 168 || Nat.eqb c 169 ||
    Nat.eqb c 175)) ||
  (Nat.eqb a 226 && Nat.eqb b 129 && Nat.eqb c 159) ||
  (Nat.eqb a 227 && Nat.eqb b 128 && Nat.eqb c 128).

(** [s.lstrip()] on the bytes of [s]. *)
Fixpoint lstrip (l : list nat) : list nat :=
  match l with
  | a :: r1 =>
      if space1 a then lstrip r1
      else
        match r1 with
        | b :: r2 =>
            if space2 a b then lstrip r2
            else
              match r2 with
              | c :: r3 => if space3 a b c then lstrip r3 else l
              | [] => l
              end
        | [] => l
        end
  | [] => []
  end.

(** [s.rstrip()] on the bytes of [s] in reverse order. *)
Fixpoint lstrip_reversed (l : list nat) : list nat :=
  match l with
  | a :: r1 =>
      if space1 a then lstrip_reversed r1
      else
        match r1 with
        | b :: r2 =>
            if space2 b a then lstrip_reversed r2
            else
              match r2 with
              | c :: r3 => if space3 c b a then lstrip_reversed r3 else l
              | [] => l
              end
        | [] => l
        end
  | [] => []
  end.

Definition bytes (s : string) : list nat :=
  map Ascii.nat_of_ascii (String.list_ascii_of_string s).

Definition of_bytes (l : list nat) : string :=
  String.string_of_list_ascii (map Ascii.ascii_of_nat l).

(** [s.strip()] *)
Definition strip (s : string) : string :=
  of_bytes (rev (lstrip_reversed (rev (lstrip (bytes s))))).

(** [s.startswith(prefix)] *)
Definition startswith (prefix s : string) : bool := String.prefix prefix s.

(** [s.endswith(suffix)] *)
Definition endswith (suffix s : string) : bool :=
  String.prefix (String.rev suffix) (String.rev s).

(** [s.lower()] on ASCII letters.  [lower] also changes letters outside
    ASCII, but none of them into an ASCII letter that the suffixes
    tested with it contain, so the tests come out as in Python. *)
Definition lower_byte (a : Ascii.ascii) : Ascii.ascii :=
  let n := Ascii.nat_of_ascii a in
  if Nat.leb 65 n && Nat.leb n 90 then Ascii.ascii_of_nat (n + 32) else a.

Fixpoint lower (s : string) : string :=
  match s with
  | EmptyString => EmptyString
  | String a rest => String (lower_byte a) (lower rest)
  end.

(** The position of the first and of the last occurrence of the
    character [c]. *)
Fixpoint first_index (c : Ascii.ascii) (s : string) : option nat :=
  match s with
  | EmptyString => None
  | String a rest =>
      if Ascii.eqb a c then Some 0 else S <$> first_index c rest
  end.

Fixpoint last_index (c : Ascii.ascii) (s : string) : option nat :=
  match s with
  | EmptyString => None
  | String a rest =>
      match last_index c rest with
      | Some i => Some (S i)
      | None => if Ascii.eqb a c then Some 0 else None
      end
  end.

(** [s.find(c)] and [s.rfind(c)]: [-1] when [c] does not occur. *)
Definition find (c : Ascii.ascii) (s : string) : Z :=
  match first_index c s with Some i => Z.of_nat i | None => (-1)%Z end.

Definition rfind (c : Ascii.ascii) (s : string) : Z :=
  match last_index c s with Some i => Z.of_nat i | None => (-1)%Z end.

(** [s[i:j]] for [0 <= i <= j]. *)
Definition slice (i j : Z) (s : string) : string :=
  String.substring (Z.to_nat i) (Z.to_nat (j - i)) s.

(** [sep.join(l)] for a list of strings. *)
Definition join (sep : string) (l : list string) : string :=
  String.concat sep l.

End Text.

(** ** The Claude client ([infrastructure/ai/claude_service.py]) *)

(** The arguments of [client.messages.create]: the model, the token
    limit, the text of the user message and, for an image, its media type
    and its bytes (sent in base64). *)
Module Request.

Record t : Type := mk {
  model : string;
  max_tokens : nat;
  text : string;
  image : option (string * string)
}.

End Request.

(** What [client.messages.create] does: it returns a message, given by
    the texts of its content blocks, or raises an [anthropic.APIError],
    or raises something else. *)
Inductive ApiAnswer : Type :=
| Message (content : list string)
| ApiError (message : string)
| OtherError (message : string).

(** The [except] clause that catches an exception of the client's
    methods, with [str(e)]. *)
Inductive Failure : Type :=
| ApiFailure (message : string)
| JsonFailure (message : string)
| OtherFailure (message : string).

(** What lies behind the client: the file system, the Anthropic API and
    the library functions whose results the code only passes on. *)
Class Claude : Type := {
  (** [open(path, "rb").read()]: the bytes, or [str] of the error *)
  read_image : nat -> string -> string + string;
  (** [client.messages.create(...)] *)
  messages_create : nat -> Request.t -> ApiAnswer;
  (** [json.loads] of a text that starts with an opening brace: a
      dictionary, or [str] of the [JSONDecodeError] *)
  json_loads : string -> Dict + string;
  (** [sep.join(x)] for an [x] that is not a list: joined characters or
      keys, or a [TypeError] *)
  join_other : string -> Val -> Res string
}.

Module ClaudeClient.
Section Client.
Context `{Claude}.

Definition not_found : string := "응답에서 JSON을 찾을 수 없습니다".

(** The media type chosen from the file name. *)
Definition mime_type_of (image_path : string) : string :=
  if Text.endswith ".png" (Text.lower image_path) then "image/png"
  else if Text.endswith ".webp" (Text.lower image_path) then "image/webp"
  else "image/jpeg".

(** The part of the response text that is parsed: from the first opening
    brace to the last closing brace. *)
Definition json_part (response_text : string) : option string :=
  let json_start := Text.find Text.open_brace response_text in
  let json_end := (Text.rfind Text.close_brace response_text + 1)%Z in
  if (json_start =? -1)%Z || (json_end <=? json_start)%Z then None
  else Some (Text.slice json_start json_end response_text).

(** The [try] block of [analyze_image]. *)
Definition analyze_image_body (n : nat) (image_path prompt : string)
    : Failure + Dict :=
  match read_image n image_path with
  | inr e => inl (OtherFailure e)
  | inl img_bytes =>
      let mime_type := mime_type_of image_path in
      match
        messages_create n
          (Request.mk "claude-3-opus-20240229" 1000 prompt
             (Some (mime_type, img_bytes)))
      with
      | ApiError e => inl (ApiFailure e)
      | OtherError e => inl (OtherFailure e)
      | Message [] => inl (OtherFailure "list index out of range")
      | Message (response_text :: _) =>
          match json_part response_text with
          | None => inl (OtherFailure not_found)
          | Some json_str =>
              match json_loads json_str with
              | inl flower_data => inr flower_data
              | inr e => inl (JsonFailure e)
              end
          end
      end
  end.

(** [ClaudeClient.analyze_image(image_path, prompt)] *)
Definition analyze_image (n : nat) (image_path prompt : string) : Res Dict :=
  match analyze_image_body n image_path prompt with
  | inr flower_data => Ok flower_data
  | inl (ApiFailure e) =>
      Raise (mkExn ImageAnalysisError ("Claude API 오류: " +:+ e))
  | inl (JsonFailure e) =>
      Raise (mkExn ImageAnalysisError ("JSON 파싱 오류: " +:+ e))
  | inl (OtherFailure e) =>
      Raise (mkExn ImageAnalysisError ("이미지 분석 오류: " +:+ e))
  end.

(** [ClaudeClient.generate_text(prompt, max_tokens, model)] *)
Definition generate_text (n : nat) (prompt : string) (max_tokens : nat)
    (model : string) : Res string :=
  match messages_create n (Request.mk model max_tokens prompt None) with
  | Message (response_text :: _) => Ok response_text
  | Message [] =>
      Raise (mkExn ContentGenerationError
               ("텍스트 생성 오류: " +:+ "list index out of range"))
  | ApiError e =>
      Raise (mkExn ContentGenerationError ("Claude API 오류: " +:+ e))
  | OtherError e =>
      Raise (mkExn ContentGenerationError ("텍스트 생성 오류: " +:+ e))
  end.

End Client.
End ClaudeClient.

(** ** The content generator ([core/services/content_generator.py]) *)

Module ClaudeContentGenerator.
Section Generator.
Context `{Collaborators} `{Claude}.

Definition dquote : string := String (Ascii.ascii_of_nat 34) EmptyString.

(** An f-string: its parts are evaluated from left to right. *)
Fixpoint fstring (parts : list (Res string)) : Res string :=
  match parts with
  | [] => Ok EmptyString
  | part :: rest =>
      res_bind part (fun s =>
      res_bind (fstring rest) (fun t => Ok (s +:+ t)))
  end.

(** [{x}] inside an f-string. *)
Definition formatted (r : Res Val) : Res string :=
  res_bind r (fun v => Ok (Tasks.fmt v)).

(** The items of a list that [join] accepts: strings only. *)
Fixpoint str_items (i : nat) (l : list Val) : Res (list string) :=
  match l with
  | [] => Ok []
  | VStr s :: rest =>
      res_bind (str_items (S i) rest) (fun ss => Ok (s :: ss))
  | v :: _ =>
      Raise (mkExn TypeError
               ("sequence item " +:+ pretty i +:+ ": expected str instance, "
                +:+ type_name v +:+ " found"))
  end.

(** [sep.join(x)] *)
Definition str_join (sep : string) (x : Val) : Res string :=
  match x with
  | VList l => res_bind (str_items 0 l) (fun ss => Ok (Text.join sep ss))
  | _ => join_other sep x
  end.

(** The f-string of [generate_blog_post]. *)
Definition blog_prompt (flower_data : Dict) : Res string :=
  fstring
    [Ok "
            다음 꽃 정보를 바탕으로 네이버 블로그에 게시할 내용을 작성해주세요:
            
            꽃 종류: ";
     formatted (flower_type_of flower_data "korean");
     Ok " (";
     formatted (flower_type_of flower_data "english");
     Ok ")
            학명: ";
     formatted (flower_type_of flower_data "scientific");
     Ok "
            색상: ";
     res_bind (subscript (VDict flower_data) "colors") (str_join ", ");
     Ok "
            계절적 특성: ";
     formatted (subscript (VDict flower_data) "seasonal");
     Ok "
            꽃말: ";
     formatted (subscript (VDict flower_data) "meaning");
     Ok "
            관리 팁: ";
     formatted (subscript (VDict flower_data) "care_tips");
     Ok "
            장식/인테리어 제안: ";
     formatted (subscript (VDict flower_data) "decoration_ideas");
     Ok "
            선물 상황: ";
     res_bind (subscript (VDict flower_data) "gift_occasions") (str_join ", ");
     Ok "
            
            블로그 포스트는 다음 구조로 작성해주세요:
            1. 매력적인 제목
            2. 꽃 소개 (특징, 역사적 배경 포함)
            3. 꽃말과 상징성
            4. 계절적 특성 및 최적의 감상 시기
            5. 관리 방법 및 팁
            6. 인테리어/장식 활용법
            7. 선물하기 좋은 상황
            8. 마무리 문구
            
            네이버 블로그에 적합한 HTML 태그를 포함해주세요. 또한 SEO에 유리한 키워드를 자연스럽게 포함시켜주세요.
            "].

(** The f-string of [generate_instagram_caption]. *)
Definition caption_prompt (flower_data : Dict) : Res string :=
  fstring
    [Ok "
            다음 꽃 정보를 바탕으로 인스타그램 게시물에 사용할 짧고 매력적인 캡션을 작성해주세요:
            
            꽃 종류: ";
     formatted (flower_type_of flower_data "korean");
     Ok " (";
     formatted (flower_type_of flower_data "english");
     Ok ")
            색상: ";
     res_bind (subscript (VDict flower_data) "colors") (str_join ", ");
     Ok "
            계절적 특성: ";
     formatted (subscript (VDict flower_data) "seasonal");
     Ok "
            꽃말: ";
     formatted (subscript (VDict flower_data) "meaning");
     Ok "
            
            캡션은 다음 요소를 포함해야 합니다:
            1. 감성적이고 눈길을 끄는 짧은 문구
            2. 꽃에 대한 간결한 설명
            3. 계절감이나 감정을 표현하는 문장
            4. 이모지 2~3개 적절히 사용
            5. 호출성 문구(CTA) - 예: ";
     Ok dquote;
     Ok "오늘 하루도 행복한 하루 되세요";
     Ok dquote;
     Ok " 등
            
            전체 길이는 300자 내외로 작성해주세요.
            "].

(** The f-string of [generate_tags]. *)
Definition tags_prompt (flower_data : Dict) : Res string :=
  fstring
    [Ok "
            다음 꽃 정보를 바탕으로 인스타그램에 사용할 해시태그 목록을 생성해주세요:
            
            꽃 종류: ";
     formatted (flower_type_of flower_data "korean");
     Ok " (";
     formatted (flower_type_of flower_data "english");
     Ok ")
            색상: ";
     res_bind (subscript (VDict flower_data) "colors") (str_join ", ");
     Ok "
            계절적 특성: ";
     formatted (subscript (VDict flower_data) "seasonal");
     Ok "
            꽃말: ";
     formatted (subscript (VDict flower_data) "meaning");
     Ok "
            선물 상황: ";
     res_bind (subscript (VDict flower_data) "gift_occasions") (str_join ", ");
     Ok "
            
            다음 카테고리의 해시태그를 포함해주세요:
            1. 꽃 이름 관련 (한글, 영문)
            2. 색상 관련
            3. 계절/시기 관련
            4. 감성/분위기 관련
            5. 인테리어/장식 관련
            6. 선물/이벤트 관련
            7. 인기 있는 일반 꽃 해시태그
            
            총 15-20개의 해시태그를 리스트 형태로 반환해주세요. 한글과 영어 해시태그를 모두 포함해주세요.
            "].

(** [generate_blog_post(flower_data, image_paths)] *)
Definition generate_blog_post (n : nat) (flower_data : Dict)
    (image_paths : list string) : Res string :=
  res_try
    (res_bind (blog_prompt flower_data) (fun prompt =>
     ClaudeClient.generate_text n prompt 4000 "claude-3-sonnet-20240229"))
    (fun e =>
       Raise (mkExn ContentGenerationError
                ("블로그 포스트 생성 중 오류가 발생했습니다: " +:+ exn_str e))).

(** [generate_instagram_caption(flower_data)] *)
Definition generate_instagram_caption (n : nat) (flower_data : Dict)
    : Res string :=
  res_try
    (res_bind (caption_prompt flower_data) (fun prompt =>
     ClaudeClient.generate_text n prompt 1000 "claude-3-haiku-20240307"))
    (fun e =>
       Raise (mkExn ContentGenerationError
                ("인스타그램 캡션 생성 중 오류가 발생했습니다: " +:+ exn_str e))).

(** The tags added when the text gives fewer than ten. *)
Definition default_tags : list string :=
  ["#꽃스타그램"; "#플라워샵"; "#꽃선물"; "#꽃집"; "#꽃배달";
   "#flowerstagram"; "#flowerpower"; "#flowerlovers"; "#flowermagic";
   "#floweroftheday"].

(** [[tag.strip() for tag in tags_text.split('\n')
      if tag.strip().startswith('#')]] *)
Definition hashtag_lines (tags_text : string) : list string :=
  List.filter (Text.startswith "#")
    (map Text.strip (Text.split Text.newline tags_text)).

(** The statements of [generate_tags] that follow the call to Claude. *)
Definition hashtags_of (tags_text : string) : list string :=
  let hashtags := hashtag_lines tags_text in
  let hashtags :=
    if Nat.ltb (length hashtags) 10 then hashtags ++ default_tags
    else hashtags in
  take 20 hashtags.

(** [generate_tags(flower_data)] *)
Definition generate_tags (n : nat) (flower_data : Dict) : Res (list string) :=
  res_try
    (res_bind (tags_prompt flower_data) (fun prompt =>
     res_bind
       (ClaudeClient.generate_text n prompt 1000 "claude-3-haiku-20240307")
       (fun tags_text => Ok (hashtags_of tags_text))))
    (fun e =>
       Raise (mkExn ContentGenerationError
                ("해시태그 생성 중 오류가 발생했습니다: " +:+ exn_str e))).

End Generator.
End ClaudeContentGenerator.


(** ** The HTTP interface ([app/api.py]) *)

Module UploadFile.

(** An uploaded file: its name, its size in bytes and its bytes. *)
Record t : Type := mk {
  filename : string;
  size : Z;
  content : string
}.

End UploadFile.

(** What a route hands back: the value it returns, or the
    [HTTPException] it raises.  No handler of the routes catches the
    exception, so raising it ends the route with that answer. *)
Inductive Response (A : Type) : Type :=
| Returned (a : A)
| HTTPException (status_code : nat) (detail : string).
Arguments Returned {A} a.
Arguments HTTPException {A} status_code detail.

(** The process that serves the routes: the machine of the repository,
    the files written below the upload directory and the post ids handed
    to [background_tasks.add_task]. *)
Record Server : Type := mkServer {
  machine : Machine;
  files : list (string * string);
  background_tasks : list string
}.

(** What lies behind the routes: two more settings, the generator of
    ids and the file system. *)
Class Web : Type := {
  UPLOAD_DIR : string;
  MAX_UPLOAD_SIZE : Z;
  (** [str(uuid.uuid4())] *)
  uuid4 : nat -> string;
  (** [os.makedirs] and [open(path, "wb").write]: [str] of the error
      they raise, if any *)
  write_error : nat -> string -> option string
}.

Module Api.
Section Routes.
Context `{Collaborators} `{Web}.

(** Computations of a route. *)
Definition W (A : Type) : Type := Server -> Res A * Server.

Definition wret {A} (a : A) : W A := fun srv => (Ok a, srv).

Definition wbind {A B} (m : W A) (k : A -> W B) : W B :=
  fun srv =>
    match m srv with
    | (Ok a, srv1) => k a srv1
    | (Raise e, srv1) => (Raise e, srv1)
    end.

(** A computation of the repository, run on the machine of the server. *)
Definition on_machine {A} (m : M A) : W A :=
  fun srv =>
    match m (machine srv) with
    | (r, s) => (r, mkServer s (files srv) (background_tasks srv))
    end.

(** [p in Platform.__members__]: the keys of [__members__] are the names
    of the members. *)
Definition is_member_name (p : string) : bool :=
  String.eqb p "NAVER" || String.eqb p "INSTAGRAM" || String.eqb p "YOUTUBE".

(** [[Platform(p) for p in platforms if p in Platform.__members__]] *)
Definition platform_enums (platforms : list string) : Res (list Platform) :=
  res_map Platform_of_value (List.filter is_member_name platforms).

Definition too_large (img : UploadFile.t) : bool :=
  (MAX_UPLOAD_SIZE <? UploadFile.size img)%Z.

Definition too_large_detail : string :=
  "이미지 크기가 너무 큽니다. 최대 허용 크기: " +:+ pretty MAX_UPLOAD_SIZE +:+
  " bytes".

(** [f"{settings.UPLOAD_DIR}/{post_id}/{img.filename}"] *)
Definition file_path (post_id : string) (img : UploadFile.t) : string :=
  UPLOAD_DIR +:+ "/" +:+ post_id +:+ "/" +:+ UploadFile.filename img.

(** Writing one uploaded file. *)
Definition write_file (path content : string) : W unit :=
  fun srv =>
    let s := machine srv in
    let s' := with_calls (S (calls s)) s in
    match write_error (calls s) path with
    | Some e =>
        (Raise (mkExn ExternalError e),
         mkServer s' (files srv) (background_tasks srv))
    | None =>
        (Ok tt,
         mkServer s' (files srv ++ [(path, content)]) (background_tasks srv))
    end.

(** The loop that saves the images and collects their paths. *)
Fixpoint save_images (post_id : string) (images : list UploadFile.t)
    : W (list string) :=
  match images with
  | [] => wret []
  | img :: rest =>
      wbind (write_file (file_path post_id img) (UploadFile.content img))
        (fun _ =>
      wbind (save_images post_id rest) (fun paths =>
      wret (file_path post_id img :: paths)))
  end.

(** [background_tasks.add_task(task_queue.enqueue_task,
    process_flower_content, post_id)] *)
Definition add_task (post_id : string) : W unit :=
  fun srv =>
    (Ok tt,
     mkServer (machine srv) (files srv) (background_tasks srv ++ [post_id])).

(** [POST /upload/] *)
Definition upload_flower_images (images : list UploadFile.t)
    (title description : option string) (platforms : list string)
    (schedule_time : option datetime) : W (Response FlowerPost.t) :=
  if existsb too_large images then
    wret (HTTPException 413 too_large_detail)
  else
    wbind (on_machine (external (fun n => Ok (uuid4 n)))) (fun post_id =>
    wbind (save_images post_id images) (fun image_paths =>
    wbind (on_machine (lift (platform_enums platforms))) (fun enums =>
    wbind
      match schedule_time with
      | Some t => wret t
      | None => on_machine now
      end (fun schedule =>
    wbind (on_machine now) (fun created_at =>
    wbind (on_machine now) (fun updated_at =>
    let flower_post :=
      FlowerPost.mk post_id image_paths enums title description schedule
        "pending" None None None None None None [] created_at updated_at in
    wbind (on_machine (SQLAlchemyPostRepository.save flower_post))
      (fun saved_post =>
    wbind (add_task post_id) (fun _ =>
    wret (Returned saved_post))))))))).

(** [GET /posts/{post_id}] *)
Definition get_post (post_id : string) : W (Response FlowerPost.t) :=
  wbind (on_machine (SQLAlchemyPostRepository.find_by_id post_id))
    (fun post =>
  match post with
  | None => wret (HTTPException 404 "Post not found")
  | Some p => wret (Returned p)
  end).

End Routes.
End Api.


(** ** Sample inputs for the services and the routes *)

Module Scenario.

(** Claude answers an image with a sentence around an empty JSON object
    and a text prompt with five lines, three of which are tags. *)
Definition claude : Claude :=
  {| read_image := fun _ _ => inl "JPEG";
     messages_create := fun _ request =>
       match Request.image request with
       | Some _ => Message ["분석 결과입니다: {} 이상입니다."]
       | None => Message ["추천 해시태그:
#장미
  #rose 
꽃 #아님
#빨강"]
       end;
     json_loads := fun text =>
       if String.eqb text "{}" then inl []
       else inr "Expecting value: line 1 column 2 (char 1)";
     join_other := fun _ _ =>
       Raise (mkExn TypeError "can only join an iterable") |}.



(** The sample post once it is being processed and has its blog text. *)
Definition processing_post : FlowerPost.t :=
  FlowerPost.set_blog_content (Some "<h1>장미</h1>")
    (FlowerPost.update_status PROCESSING None 101 Sample.post).




(** Two pending posts. *)
Definition two_posts : Machine :=
  mkMachine (<["p2" := Sample.row]> {["p1" := Sample.row]}) [] 100 0 []
    Unbound ∅.




(** The settings of the routes with their defaults, ids drawn in a fixed
    order and a file system that takes every file. *)
Definition web : Web :=
  {| UPLOAD_DIR := "uploads";
     MAX_UPLOAD_SIZE := 10485760;
     uuid4 := fun n => "post-" +:+ pretty n;
     write_error := fun _ _ => None |}.

Definition rose : UploadFile.t := UploadFile.mk "rose.jpg" 2048 "JPEG".

Definition field : UploadFile.t := UploadFile.mk "field.png" 20000000 "PNG".

(** A server with an empty table and one with the sample post. *)
Definition server : Server := mkServer Sample.empty_machine [] [].

Definition server_with_post : Server := mkServer Sample.machine [] [].


End Scenario.


(** ** Rules for [wp] *)

Arguments wp : simpl never.
Arguments row_of : simpl never.
Arguments analyses : simpl never.
Arguments publishes : simpl never.
Arguments updates : simpl never.
Arguments or_else : simpl never.
Arguments String.append : simpl never.
Arguments SQLAlchemyPostRepository._map_to_entity : simpl never.

Import SQLAlchemyPostRepository ClaudeImageAnalyzer Tasks.

Section WpRules.
Context {A B : Type}.

Lemma wp_ret (a : A) Q s : Q (Ok a) s -> wp (ret a) Q s.
Proof. exact id. Qed.

Lemma wp_raise (e : Exn) (Q : Res A -> Machine -> Prop) s :
  Q (Raise e) s -> wp (raise e) Q s.
Proof. exact id. Qed.

Lemma wp_lift (r : Res A) Q s : Q r s -> wp (lift r) Q s.
Proof. exact id. Qed.

Lemma wp_gets (f : Machine -> A) Q s : Q (Ok (f s)) s -> wp (gets f) Q s.
Proof. exact id. Qed.

Lemma wp_modify (f : Machine -> Machine) Q s :
  Q (Ok tt) (f s) -> wp (modify f) Q s.
Proof. exact id. Qed.

Lemma wp_bind (m : M A) (k : A -> M B) Q s :
  wp m (fun r s1 =>
          match r with
          | Ok a => wp (k a) Q s1
          | Raise e => Q (Raise e) s1
          end) s ->
  wp (bind m k) Q s.
Proof. unfold wp, bind. destruct (m s) as [[a|e] s1]; auto. Qed.

Lemma wp_try_except (m : M A) (h : Exn -> M A) Q s :
  wp m (fun r s1 =>
          match r with
          | Ok a => Q (Ok a) s1
          | Raise e => wp (h e) Q s1
          end) s ->
  wp (try_except m h) Q s.
Proof. unfold wp, try_except. destruct (m s) as [[a|e] s1]; auto. Qed.

Lemma wp_try_finally (m : M A) (f : M unit) Q s :
  wp m (fun r s1 =>
          wp f (fun r2 s2 =>
                  match r2 with
                  | Ok _ => Q r s2
                  | Raise e => Q (Raise e) s2
                  end) s1) s ->
  wp (try_finally m f) Q s.
Proof.
  unfold wp, try_finally. destruct (m s) as [r s1]; simpl.
  destruct (f s1) as [[u|e] s2]; auto.
Qed.

Lemma wp_mono (m : M A) (Q Q' : Res A -> Machine -> Prop) s :
  wp m Q s -> (forall r s', Q r s' -> Q' r s') -> wp m Q' s.
Proof. unfold wp. auto. Qed.

Lemma wp_and (m : M A) (Q Q' : Res A -> Machine -> Prop) s :
  wp m Q s -> wp m Q' s -> wp m (fun r s' => Q r s' /\ Q' r s') s.
Proof. unfold wp. auto. Qed.

Lemma wp_trivial (m : M A) (Q : Res A -> Machine -> Prop) s :
  (forall r s', Q r s') -> wp m Q s.
Proof. unfold wp. auto. Qed.

Lemma wp_run (m : M A) Q s r s' : wp m Q s -> m s = (r, s') -> Q r s'.
Proof. unfold wp. intros HQ E. rewrite E in HQ. exact HQ. Qed.

Lemma wp_eq (m : M A) (Q : Res A -> Machine -> Prop) s r s' :
  m s = (r, s') -> Q r s' -> wp m Q s.
Proof. unfold wp. intros E HQ. rewrite E. exact HQ. Qed.

End WpRules.

(** Case analysis on the innermost scrutinee, by an equation of the
    context when there is one. *)
Ltac case_scrutinee x :=
  lazymatch x with
  | match ?y with _ => _ end => case_scrutinee y
  | _ => first [ match goal with H : x = _ |- _ => rewrite H end
               | destruct x eqn:? ]
  end.

(** One step of symbolic execution through the combinators. *)
Ltac wp_step :=
  lazymatch goal with
  | |- wp (bind _ _) _ _ => apply wp_bind
  | |- wp (try_except _ _) _ _ => apply wp_try_except
  | |- wp (try_finally _ _) _ _ => apply wp_try_finally
  | |- wp (ret _) _ _ => apply wp_ret
  | |- wp (raise _) _ _ => apply wp_raise
  | |- wp (lift _) _ _ => apply wp_lift
  | |- wp (gets _) _ _ => apply wp_gets
  | |- wp (modify _) _ _ => apply wp_modify
  | |- wp (log _) _ _ => unfold log
  | |- wp now _ _ => unfold now
  | |- wp (external _) _ _ => unfold external
  | |- wp (match ?x with _ => _ end) _ _ => case_scrutinee x
  | |- match ?x with _ => _ end => case_scrutinee x
  end; cbn.

(** ** Traces *)

Lemma analyses_snoc_update t p : analyses (t ++ [EvUpdate p]) = analyses t.
Proof. unfold analyses. rewrite omap_app. apply app_nil_r. Qed.

Lemma analyses_snoc_publish t p : analyses (t ++ [EvPublish p]) = analyses t.
Proof. unfold analyses. rewrite omap_app. apply app_nil_r. Qed.

Lemma analyses_snoc_analyze t a :
  analyses (t ++ [EvAnalyze a]) = analyses t ++ [a].
Proof. unfold analyses. rewrite omap_app. reflexivity. Qed.



Lemma updates_snoc_update t p : updates (t ++ [EvUpdate p]) = updates t ++ [p].
Proof. unfold updates. rewrite omap_app. reflexivity. Qed.

Lemma updates_snoc_publish t p : updates (t ++ [EvPublish p]) = updates t.
Proof. unfold updates. rewrite omap_app. apply app_nil_r. Qed.

Lemma updates_snoc_analyze t a : updates (t ++ [EvAnalyze a]) = updates t.
Proof. unfold updates. rewrite omap_app. apply app_nil_r. Qed.

Lemma writes_keep_message_refl msg s : writes_keep_message msg s s.
Proof. exists []. rewrite app_nil_r. split; [reflexivity|constructor]. Qed.

Lemma writes_keep_message_trans msg s1 s2 s3 :
  writes_keep_message msg s1 s2 -> writes_keep_message msg s2 s3 ->
  writes_keep_message msg s1 s3.
Proof.
  intros (us & E1 & F1) (vs & E2 & F2). exists (us ++ vs).
  rewrite E2, E1, app_assoc. split; [reflexivity|].
  apply Forall_app. split; assumption.
Qed.

(** ** Entities and rows *)

Lemma map_to_model_eq p : _map_to_model p = (FlowerPost.id p, row_of p).
Proof. reflexivity. Qed.

Lemma res_map_Platform l :
  res_map Platform_of_value (map Platform_value l) = Ok l.
Proof.
  induction l as [|p l IH]; simpl; [reflexivity|].
  rewrite IH. destruct p; reflexivity.
Qed.

Lemma publish_result_json_round_trip r :
  publish_result_of_json (publish_result_to_json r) = Ok r.
Proof. destruct r as [ok p u i e]. destruct p; reflexivity. Qed.

Lemma res_map_publish_result l :
  res_map publish_result_of_json (map publish_result_to_json l) = Ok l.
Proof.
  induction l as [|r l IH]; simpl; [reflexivity|].
  rewrite IH, publish_result_json_round_trip. reflexivity.
Qed.

(** A row written by [_map_to_model] can be read back. *)
Lemma map_to_entity_row_of p :
  exists p', _map_to_entity (FlowerPost.id p) (row_of p) = Ok p'.
Proof.
  unfold _map_to_entity, row_of, _map_to_model; simpl.
  rewrite res_map_Platform; simpl.
  destruct (FlowerPost.publish_results p) as [|r l] eqn:E; simpl.
  - eauto.
  - rewrite res_map_publish_result, publish_result_json_round_trip; simpl.
    eauto.
Qed.

Lemma map_to_entity_fields k row p :
  _map_to_entity k row = Ok p ->
  FlowerPost.id p = k /\
  FlowerPost.error_message p = FlowerPostModel.error_message row.
Proof.
  unfold _map_to_entity, res_bind.
  destruct (res_map Platform_of_value _); [|discriminate].
  destruct (match FlowerPostModel.publish_results row with
            | Some l => _ | None => _ end); [|discriminate].
  intros [= <-]. unfold FlowerPost_post_init; cbn.
  destruct (FlowerPostModel.flower_data row) as [d|]; [|split; reflexivity].
  destruct (is_empty d); split; reflexivity.
Qed.

Lemma map_to_entity_id k row p :
  _map_to_entity k row = Ok p -> FlowerPost.id p = k.
Proof. intros H. apply (map_to_entity_fields k row p H). Qed.

Lemma update_status_id st err t p :
  FlowerPost.id (FlowerPost.update_status st err t p) = FlowerPost.id p.
Proof.
  unfold FlowerPost.update_status. destruct (opt_truthy err); reflexivity.
Qed.

Lemma or_else_ok o fallback :
  (exists t, fallback = Ok t) -> exists t, or_else o fallback = Ok t.
Proof.
  intros [t ->]. unfold or_else.
  destruct o as [x|]; [destruct (str_truthy x)|]; eauto.
Qed.

Section Components.
Context `{C : Collaborators}.

(** ** The repository *)

Lemma update_spec p s :
  pending s = [] -> wp (update p) (update_post p s) s.
Proof.
  intros Hp. destruct s as [t pd cl n tr pv rv]. cbn in Hp. subst pd.
  destruct (map_to_entity_row_of p) as [p' Hrt].
  unfold update. rewrite map_to_model_eq.
  unfold Session.query_first, Session.commit, Session.refresh,
    Session.stage, Session.rollback, Session.db_call.
  repeat (wp_step; rewrite ?lookup_insert_eq).
  all: unfold update_post, after_update; cbn;
    rewrite ?Nat.add_succ_r, ?Nat.add_0_r.
  all: repeat match goal with |- _ /\ _ => split end; try reflexivity; eauto.
  all: try (intros Hdb; exfalso; rewrite Hdb in *; discriminate).
  intros _ [x Hx]; congruence.
Qed.





Lemma find_by_id_spec post_id s :
  wp (find_by_id post_id) (find_post post_id s) s.
Proof.
  unfold find_by_id, Session.query_first, Session.db_call.
  repeat wp_step.
  all: unfold find_post; cbn; repeat split; eauto.
Qed.

Lemma find_by_id_eq post_id s :
  find_by_id post_id s =
  (find_answer post_id (calls s) (table s), with_calls (S (calls s)) s).
Proof.
  unfold find_by_id, find_answer, Session.query_first, Session.db_call.
  cbv [try_except bind gets modify lift ret raise]. cbn.
  destruct (db_error (calls s)); [reflexivity|]. cbn.
  destruct (table s !! post_id) as [row|]; [|reflexivity].
  destruct (_map_to_entity post_id row); reflexivity.
Qed.

Lemma find_answer_found post_id s row post0 :
  no_db_errors -> table s !! post_id = Some row ->
  _map_to_entity post_id row = Ok post0 ->
  find_answer post_id (calls s) (table s) = Ok (Some post0).
Proof.
  intros Hdb Hrow Hmap. unfold find_answer. rewrite Hdb, Hrow, Hmap.
  reflexivity.
Qed.

(** ** Analysis and publishing *)

Lemma analyze_eq image_path s :
  analyze_flower_image image_path s =
  (analyze_answer (calls s) image_path,
   with_calls (S (calls s)) (with_trace (trace s ++ [EvAnalyze image_path]) s)).
Proof.
  unfold analyze_flower_image, analyze_answer.
  cbv [try_except bind log modify external gets lift ret raise].
  cbn.
  destruct (claude_analyze_image (calls s) image_path prompt) as [fd|e];
    [|reflexivity].
  destruct (logged_name fd); reflexivity.
Qed.


Lemma publish_eq self platform content s :
  SocialPublisherService.publish self platform content s =
  (Ok (publish_answer self platform content (calls s)),
   after_publish self platform content s).
Proof.
  unfold SocialPublisherService.publish, publish_answer, after_publish.
  cbv [try_except bind log modify external gets lift ret raise].
  cbn.
  destruct (SocialPublisherService.dispatch self platform content)
    as [call|]; cbn.
  - destruct (call (calls s)); reflexivity.
  - destruct s; reflexivity.
Qed.

Lemma attempt_intro self platform content n :
  attempt self platform (publish_answer self platform content n).
Proof.
  exists content, n. unfold publish_answer.
  destruct (SocialPublisherService.dispatch self platform content)
    as [call|]; [|reflexivity].
  destruct (call n); reflexivity.
Qed.






(** ** The task *)

Lemma describes_titles fd :
  describes fd ->
  (exists t, naver_default_title fd = Ok t) /\
  (exists t, youtube_default_title fd = Ok t) /\
  (exists t, youtube_description fd = Ok t).
Proof.
  intros (ft & k & e & m & H1 & H2 & H3 & H4).
  unfold naver_default_title, youtube_default_title, youtube_description,
    flower_type_of, subscript.
  rewrite H1, H4; cbn. rewrite H2, H3; cbn. repeat split; eauto.
Qed.

Lemma repository_update_post_spec p s :
  post_var s = Bound (Some p) -> pending s = [] ->
  wp repository_update_post (update_post p s) s.
Proof.
  intros Hv Hp. unfold repository_update_post, get_post.
  do 2 apply wp_bind. apply wp_gets. rewrite Hv. cbn.
  apply wp_ret.
  apply wp_bind.
  eapply wp_mono; [apply update_spec; exact Hp|].
  intros r s' (H1 & H2 & H3 & H4 & H5 & H6 & H7).
  destruct r as [p'|e]; unfold update_post.
  - apply wp_ret. repeat split; try tauto. eauto.
  - repeat split; try tauto. intros Hdb Hrow.
    destruct (H7 Hdb Hrow); discriminate.
Qed.


(** [repository.update(post)] in a run: either it succeeds and the
    machine is known, or it raises and the run goes to its handlers. *)
Ltac use_update :=
  eapply wp_mono;
  [ apply repository_update_post_spec; cbn;
    [ first [reflexivity|eassumption] | first [reflexivity|eassumption] ]
  | let r := fresh "r" in let s' := fresh "s'" in
    let H1 := fresh "Hpend" in let H7 := fresh "Htot" in
    let H6 := fresh "Hres" in let H5 := fresh "Htr" in
    intros r s' (H1 & _ & _ & _ & H5 & H6 & H7); cbn in H1, H5, H6, H7;
    destruct r as [[]|?];
    [destruct H6 as [_ ->]; clear H1 H5 H7|clear H6] ].

Ltac wp_go :=
  lazymatch goal with
  | |- wp (set_post _) _ _ => unfold set_post
  | |- wp (get_post _) _ _ => unfold get_post
  | |- wp (post_update_status _ _) _ _ => unfold post_update_status
  | |- wp (post_add_publish_result _) _ _ => unfold post_add_publish_result
  | |- wp (SocialPublisherService.publish _ _ _) _ _ =>
      eapply wp_eq; [apply publish_eq|]
  | |- wp (analyze_flower_image _) _ _ => eapply wp_eq; [apply analyze_eq|]
  | |- wp repository_update_post _ _ => use_update
  | |- _ => wp_step
  end; cbn.

(** A step of the loop cannot fail when the database answers, generation
    succeeds and the analysis result names the flower. *)
Ltac refute_failure :=
  let Hdb := fresh "Hdb" in let Hblog := fresh "Hblog" in
  let Hcap := fresh "Hcap" in let Htags := fresh "Htags" in
  let Hvid := fresh "Hvid" in let Hdesc := fresh "Hdesc" in
  let Ht1 := fresh "Ht" in let Ht2 := fresh "Ht" in let Ht3 := fresh "Ht" in
  intros (Hdb & (Hblog & Hcap & Htags & Hvid) & Hdesc); exfalso;
  apply describes_titles in Hdesc; destruct Hdesc as (Ht1 & Ht2 & Ht3);
  first
    [ match goal with
      | H : no_db_errors -> is_Some _ -> exists _, Raise _ = Ok _ |- _ =>
          destruct H as [? ?];
          [ exact Hdb
          | rewrite ?lookup_insert_eq; first [ eauto | congruence ]
          | discriminate ]
      end
    | match goal with
      | E : generate_blog_post ?n ?a ?b = Raise _ |- _ =>
          let E' := fresh in
          destruct (Hblog n a b) as [? E']; rewrite E' in E; discriminate
      | E : generate_instagram_caption ?n ?a = Raise _ |- _ =>
          let E' := fresh in
          destruct (Hcap n a) as [? E']; rewrite E' in E; discriminate
      | E : generate_tags ?n ?a = Raise _ |- _ =>
          let E' := fresh in
          destruct (Htags n a) as [? E']; rewrite E' in E; discriminate
      | E : create_shorts_video ?n ?a ?b ?c = Raise _ |- _ =>
          let E' := fresh in
          destruct (Hvid n a b c) as [? E']; rewrite E' in E; discriminate
      | E : or_else ?o ?f = Raise _ |- _ =>
          let E' := fresh in
          destruct (or_else_ok o f) as [? E'];
          [ assumption | rewrite E' in E; discriminate ]
      | E : youtube_description _ = Raise _ |- _ =>
          let E' := fresh in
          destruct Ht3 as [? E']; rewrite E' in E; discriminate
      end ].

(** One step of the loop: it adds one publish result, the registry's
    answer for the platform, when it does not raise. *)
Lemma stage_spec self post_id fd platform p0 rs s :
  LoopInv p0 rs s ->
  wp (platform_stage self post_id fd platform)
     (stage_post self platform p0 rs fd s) s.
Proof.
  intros (Hpend & Hrow & p & Hpv & Hreq & Hpub).
  assert (Hrow' : is_Some (table s !! FlowerPost.id p))
    by (destruct Hreq as [-> _]; exact Hrow).
  destruct platform; unfold platform_stage.
  all: repeat wp_go.
  all: unfold stage_post; cbn.
  all: split; [assumption|].
  all: split;
    [ rewrite ?Htr, ?Htr0, ?Htr1;
      repeat first [ rewrite analyses_snoc_update
                   | rewrite analyses_snoc_publish ];
      reflexivity |].
  all: split; [| first [ solve [eauto] | refute_failure ] ].
  all: try exact I.
  all: eexists; split; [| apply attempt_intro].
  all: unfold LoopInv; cbn.
  all: split; [assumption|].
  all: destruct Hreq as (Hid & Hreq).
  all: split; [rewrite <- Hid, lookup_insert_eq; eauto|].
  all: eexists; split; [reflexivity|].
  all: split; [split; [exact Hid | exact Hreq]|].
  all: cbn; rewrite Hpub, app_assoc; reflexivity.
Qed.

(** The loop: one result for each platform, in the order of the list. *)
Lemma loop_spec self post_id fd p0 l : forall rs s,
  LoopInv p0 rs s ->
  wp (for_platforms self post_id fd l) (loop_post self l p0 rs fd s) s.
Proof.
  induction l as [|platform l IH]; intros rs s Inv; cbn [for_platforms].
  - apply wp_ret. unfold loop_post. split; [apply Inv|].
    split; [reflexivity|]. split; [|eauto].
    exists []. rewrite app_nil_r. split; [exact Inv|constructor].
  - apply wp_bind.
    eapply wp_mono; [apply stage_spec; exact Inv|].
    intros r s1 (Hp & Han & Hok & Htot). destruct r as [[]|e].
    + destruct Hok as (x & Inv1 & Hx).
      eapply wp_mono; [apply IH; exact Inv1|].
      intros r2 s2 (Hp2 & Han2 & Hok2 & Htot2).
      unfold loop_post. split; [exact Hp2|].
      split; [congruence|]. split; [|exact Htot2].
      destruct r2 as [[]|e2]; [|exact I].
      destruct Hok2 as (xs & Inv2 & Hxs).
      exists (x :: xs). rewrite <- app_assoc in Inv2.
      split; [exact Inv2|constructor; assumption].
    + unfold loop_post. repeat split; try assumption.
Qed.

(** The handlers never return the results of a completed run, and call
    neither the analysis gateway nor the registry. *)
Lemma handlers_spec e s :
  pending s = [] -> wp (handlers e) (handlers_post s) s.
Proof.
  intros Hp. unfold handlers.
  destruct (is_DomainException (exn_class e)).
  all: unfold post_update_status, get_post.
  all: do 3 apply wp_bind; apply wp_gets.
  all: destruct (post_var s) as [|[p|]] eqn:Hv; cbn.
  all: repeat wp_go.
  all: unfold handlers_post; cbn; rewrite ?Htr; unfold analyses, publishes;
    rewrite ?omap_app; cbn; rewrite ?app_nil_r.
  all: repeat split; try assumption; try reflexivity; try discriminate.
Qed.

Ltac use_handlers :=
  eapply wp_mono;
  [ apply handlers_spec; cbn; first [reflexivity|eassumption]
  | let r := fresh "r" in let s' := fresh "s'" in
    let H1 := fresh "Hpend" in let H2 := fresh "Han" in
    let H3 := fresh "Hpub" in let H4 := fresh "Hnd" in
    intros r s' (H1 & H2 & H3 & H4); cbn in H1, H2, H3 ].

Ltac use_find :=
  eapply wp_mono;
  [ apply find_by_id_spec
  | let r := fresh "r" in let s' := fresh "s'" in let H := fresh "Hfind" in
    intros r s' [-> H]; cbn in H; destruct r as [[?|]|?] ].

(** A run under any behaviour of the collaborators. *)
Ltac wp_run_step :=
  lazymatch goal with
  | |- wp (handlers _) _ _ => use_handlers
  | |- wp Session.close _ _ => unfold Session.close
  | |- wp (find_by_id _) _ _ => use_find
  | |- wp (pipeline _ _) _ _ => unfold pipeline
  | |- _ => wp_go
  end.

(** Ways in which a step cannot have failed when the database answers. *)
Ltac refute_db Hdb Hrow Hmap Hid :=
  first
    [ match goal with
      | H : _ /\ _ !! _ = None |- _ =>
          destruct H as [_ H]; rewrite Hrow in H; discriminate
      | H : _ /\ (is_Some _ \/ _) |- _ =>
          let x := fresh in let Hx := fresh in
          let r := fresh in let e := fresh in
          let Hr := fresh in let Hm := fresh in
          destruct H as [_ [[x Hx] | (r & e & Hr & Hm)]];
          [ rewrite Hdb in Hx; discriminate
          | rewrite Hrow in Hr; injection Hr as <-;
            rewrite Hmap in Hm; discriminate ]
      end
    | match goal with
      | H : no_db_errors -> is_Some _ -> exists _, Raise _ = Ok _ |- _ =>
          destruct H as [? ?];
          [ exact Hdb
          | first [ rewrite Hid, Hrow; eauto
                  | rewrite lookup_insert_eq; eauto
                  | match goal with
                    | Hq : same_request _ ?pf, Hs : is_Some _ |- _ =>
                        destruct Hq as (-> & _); exact Hs
                    end ]
          | discriminate ]
      end ].

Lemma process_found self post_id s row post0 :
  table s !! post_id = Some row ->
  _map_to_entity post_id row = Ok post0 ->
  wp (process_with self post_id) (found_post self post_id post0 s) s.
Proof.
  intros Hrow Hmap.
  unfold process_with, try_body.
  repeat wp_run_step.
  all: try match goal with
       | H : _ /\ (exists r, _ !! _ = Some r /\ _map_to_entity _ r = Ok _) |- _ =>
           destruct H as (Hdb0 & row' & Hrow' & Hmap');
           rewrite Hrow in Hrow'; injection Hrow' as <-;
           rewrite Hmap in Hmap'; injection Hmap' as <-
       end.
  1: lazymatch goal with
     | |- wp (for_platforms ?sp ?pid ?fd ?l) _ ?st =>
         let p := constr:(FlowerPost.set_flower_data (Some (AsDict fd))
                            (FlowerPost.update_status PROCESSING None
                               (clock s) post0)) in
         eapply wp_mono;
         [ apply (loop_spec sp pid fd p l [] st)
         | intros r s' (Hp & Han & Hok & Htot); cbn in Hp, Han;
           destruct r as [[]|e];
           [ destruct Hok as (xs & (_ & Hrow' & pf & Hpv & Hreq & Hpubs) & Hxs)
           | clear Hok ] ]
     end.
  1: { unfold LoopInv; cbn. split; [reflexivity|].
       split; [rewrite lookup_insert_eq; eauto|].
       eexists; split; [reflexivity|]. rewrite app_nil_r.
       repeat split. }
  all: repeat wp_run_step.
  all: change (first_image (FlowerPost.update_status PROCESSING None
                              (clock s) post0))
         with (first_image post0) in *.
  all: assert (Hid : FlowerPost.id post0 = post_id)
         by (eapply map_to_entity_id; exact Hmap).
  all: unfold found_post; cbn.
  all: split; [|split].
  (* the images analysed *)
  all: try lazymatch goal with
       | |- exists l, analyses _ = _ /\ _ =>
           repeat first
             [ rewrite analyses_snoc_update
             | rewrite analyses_snoc_publish
             | rewrite analyses_snoc_analyze
             | match goal with
               | H : analyses (trace ?x) = _ |- context [analyses (trace ?x)] =>
                   rewrite H
               | H : trace ?x = _ |- context [trace ?x] => rewrite H
               end ]
       end.
  all: try lazymatch goal with
       | |- exists l, ?X ++ [?a] = ?X ++ l /\ _ =>
           exists [a]; split; [reflexivity|];
           match goal with H : first_image _ = Ok _ |- _ => rewrite H end;
           split; [right; reflexivity | intros _; reflexivity]
       | |- exists l, ?X = ?X ++ l /\ _ =>
           exists []; split; [rewrite app_nil_r; reflexivity|];
           first
             [ match goal with
               | H : first_image _ = Raise _ |- _ => rewrite H; reflexivity
               end
             | match goal with
               | |- match ?fi with _ => _ end => destruct fi
               end;
               [ split; [left; reflexivity|];
                 intros Hdb; exfalso; refute_db Hdb Hrow Hmap Hid
               | reflexivity ] ]
       end.
  (* a run that returns its results *)
  all: try lazymatch goal with
       | Hnd : forall a b, ?r <> Ok (TaskDone a b)
         |- forall a b, ?r = Ok (TaskDone a b) -> _ =>
           intros a' b' E; exfalso; exact (Hnd a' b' E)
       | |- forall a b, Ok (TaskError _) = Ok (TaskDone a b) -> _ =>
           intros a' b' E; discriminate E
       end.
  (* a run that cannot fail *)
  all: try lazymatch goal with
       | |- run_hyps _ _ -> exists b, Ok (TaskDone ?p ?x) = Ok (TaskDone ?p b) =>
           intros _; exists x; reflexivity
       | |- run_hyps _ _ -> _ =>
           intros (Hdb & Hgen & img & fd & Himg & Hans & Hdesc); exfalso;
           replace (calls s + 4) with (S (calls s + 3)) in Hans by lia;
           first
             [ refute_db Hdb Hrow Hmap Hid
             | congruence
             | match goal with
               | H : loop_hyps _ -> exists _, Raise _ = Ok _ |- _ =>
                   destruct H as [? ?];
                   [ split; [exact Hdb|split; [exact Hgen|]];
                     congruence
                   | discriminate ]
               end ]
       end.
  intros a1 b [= <- <-]. split; [reflexivity|].
  destruct Hreq as (Hi & Him & Hpl & Hti & Hst & Her & Hcr).
  cbn in Hi, Hpl, Her, Hcr, Hpubs.
  exists (FlowerPost.update_status COMPLETED None (clock s') pf), xs.
  cbn. rewrite Hi, lookup_insert_eq.
  repeat split; assumption.
Qed.

(** A run with the handlers written out. *)
Ltac wp_exec_step :=
  lazymatch goal with
  | |- wp (handlers _) _ _ => unfold handlers
  | |- wp Session.close _ _ => unfold Session.close
  | |- wp (find_by_id _) _ _ => eapply wp_eq; [apply find_by_id_eq|]; cbn
  | |- wp (pipeline _ _) _ _ => unfold pipeline
  | |- wp (if ?c then _ else _) _ _ => destruct c
  | |- _ => wp_go
  end.

Lemma process_lookup self post_id s :
  wp (process_with self post_id) (lookup_post post_id s) s.
Proof.
  destruct (find_answer post_id (calls s) (table s)) as [[p|]|e] eqn:Hf.
  - apply wp_trivial. intros r s'. unfold lookup_post. rewrite Hf. exact I.
  - unfold process_with, try_body. repeat wp_exec_step.
    unfold lookup_post. rewrite Hf. cbn. auto.
  - unfold process_with, try_body. repeat wp_exec_step.
    all: unfold lookup_post; rewrite Hf; cbn; auto.
Qed.





(** ** The posts written during a run *)

(** Rewrites the trace of the machine reached into what was appended to
    the trace of the machine the step started from. *)
Ltac normalise_updates :=
  repeat first
    [ rewrite updates_snoc_update
    | rewrite updates_snoc_publish
    | rewrite updates_snoc_analyze
    | match goal with
      | H : updates (trace ?x) = _ |- context [updates (trace ?x)] =>
          rewrite H
      | H : trace ?x = _ |- context [trace ?x] => rewrite H
      end ];
  rewrite <- ?app_assoc.

(** Names the posts appended and leaves one goal for each of them. *)
Ltac split_writes :=
  lazymatch goal with
  | |- exists us, ?X ++ ?l = ?X ++ us /\ _ =>
      exists l; split; [reflexivity|]
  | |- exists us, ?X = ?X ++ us /\ _ =>
      exists []; split; [symmetry; apply app_nil_r|]
  end;
  repeat first [ apply Forall_nil_2 | apply Forall_cons_2 | apply Forall_app_2 ].

Lemma stage_writes self post_id fd platform p0 rs s :
  LoopInv p0 rs s ->
  wp (platform_stage self post_id fd platform)
     (fun _ s' =>
        writes_keep_message (FlowerPost.error_message p0) s s') s.
Proof.
  intros (Hpend & Hrow & p & Hpv & Hreq & Hpub).
  destruct Hreq as (_ & _ & _ & _ & _ & Herr & _).
  destruct platform; unfold platform_stage.
  all: repeat wp_go.
  all: unfold writes_keep_message; cbn; normalise_updates.
  all: split_writes; left; cbn; exact Herr.
Qed.

Lemma loop_writes self post_id fd p0 l : forall rs s,
  LoopInv p0 rs s ->
  wp (for_platforms self post_id fd l)
     (fun _ s' =>
        writes_keep_message (FlowerPost.error_message p0) s s') s.
Proof.
  induction l as [|platform l IH]; intros rs s Inv; cbn [for_platforms].
  - apply wp_ret. apply writes_keep_message_refl.
  - apply wp_bind.
    eapply wp_mono;
      [apply (wp_and _ _ _ _ (stage_spec self post_id fd platform p0 rs s Inv)
                (stage_writes self post_id fd platform p0 rs s Inv))|].
    intros r s1 [(_ & _ & Hok & _) Hw]. destruct r as [[]|e]; [|exact Hw].
    destruct Hok as (x & Inv1 & _).
    eapply wp_mono; [apply (IH _ _ Inv1)|].
    intros r2 s2 Hw2. cbn in Hw2.
    exact (writes_keep_message_trans _ _ _ _ Hw Hw2).
Qed.

Lemma handlers_writes msg e s :
  pending s = [] ->
  wp (handlers e) (fun _ s' => writes_keep_message msg s s') s.
Proof.
  intros Hp. unfold handlers.
  destruct (is_DomainException (exn_class e)).
  all: unfold post_update_status, get_post.
  all: do 3 apply wp_bind; apply wp_gets.
  all: destruct (post_var s) as [|[p|]] eqn:Hv; cbn.
  all: repeat wp_go.
  all: unfold writes_keep_message; cbn; normalise_updates.
  all: split_writes; right.
  all: unfold FlowerPost.update_status;
    destruct (opt_truthy (Some (exn_str e))); reflexivity.
Qed.

Ltac use_handlers_writes msg :=
  eapply wp_mono;
  [ apply wp_and; [apply handlers_spec | apply (handlers_writes msg)];
    cbn; first [reflexivity|eassumption]
  | let r := fresh "r" in let s' := fresh "s'" in
    let H1 := fresh "Hpend" in let Hw := fresh "Hw" in
    intros r s' [(H1 & _) Hw]; cbn in H1 ].

Ltac wp_writes_step msg :=
  lazymatch goal with
  | |- wp (handlers _) _ _ => use_handlers_writes msg
  | |- wp Session.close _ _ => unfold Session.close
  | |- wp (find_by_id _) _ _ => use_find
  | |- wp (pipeline _ _) _ _ => unfold pipeline
  | |- _ => wp_go
  end.

(** Every post a run hands to [repository.update] carries the error
    message the post was loaded with, or has the status failed. *)
Lemma process_writes self post_id s row post0 :
  table s !! post_id = Some row ->
  _map_to_entity post_id row = Ok post0 ->
  wp (process_with self post_id)
     (fun _ s' =>
        writes_keep_message (FlowerPost.error_message post0) s s') s.
Proof.
  intros Hrow Hmap.
  unfold process_with, try_body.
  repeat wp_writes_step (FlowerPost.error_message post0).
  all: try match goal with
       | H : _ /\ (exists r, _ !! _ = Some r /\ _map_to_entity _ r = Ok _) |- _ =>
           destruct H as (Hdb0 & row' & Hrow' & Hmap');
           rewrite Hrow in Hrow'; injection Hrow' as <-;
           rewrite Hmap in Hmap'; injection Hmap' as <-
       end.
  1: lazymatch goal with
     | |- wp (for_platforms ?sp ?pid ?fd ?l) _ ?st =>
         let p := constr:(FlowerPost.set_flower_data (Some (AsDict fd))
                            (FlowerPost.update_status PROCESSING None
                               (clock s) post0)) in
         eapply wp_mono;
         [ apply wp_and;
           [ apply (loop_spec sp pid fd p l [] st)
           | apply (loop_writes sp pid fd p l [] st) ]
         | intros r s' [(Hp & _ & Hok & _) Hw]; cbn in Hp;
           cbn in Hw;
           destruct r as [[]|e];
           [ destruct Hok as (xs & (_ & Hrow' & pf & Hpv & Hreq & Hpubs) & Hxs)
           | clear Hok ] ]
     end.
  1, 2: unfold LoopInv; cbn; (split; [reflexivity|]);
       (split; [rewrite lookup_insert_eq; eauto|]);
       (eexists; split; [reflexivity|]); rewrite app_nil_r;
       repeat split.
  all: repeat wp_writes_step (FlowerPost.error_message post0).
  all: repeat match goal with
       | H : writes_keep_message _ _ _ |- _ =>
           let us := fresh "us" in let E := fresh "Eus" in
           let F := fresh "Fus" in
           destruct H as (us & E & F); cbn in E
       end.
  all: try match goal with
       | H : same_request _ _ |- _ =>
           destruct H as (_ & _ & _ & _ & _ & Herr & _); cbn in Herr
       end.
  all: unfold writes_keep_message; cbn; normalise_updates.
  all: split_writes.
  all: first [ assumption | left; cbn; first [reflexivity | exact Herr] ].
Qed.

(** A run returns its results only for a post that the lookup found. *)
Lemma process_done_found self post_id s a b s' :
  process_with self post_id s = (Ok (TaskDone a b), s') ->
  exists row post0,
    table s !! post_id = Some row /\ _map_to_entity post_id row = Ok post0.
Proof.
  intros Hrun.
  pose proof (wp_run _ _ _ _ _ (process_lookup self post_id s) Hrun) as L.
  unfold lookup_post, find_answer in L.
  destruct (db_error (calls s)); [destruct L; discriminate|].
  destruct (table s !! post_id) as [row|]; [|destruct L; discriminate].
  destruct (_map_to_entity post_id row) as [post0|e0] eqn:Hmap;
    [eauto|destruct L; discriminate].
Qed.

Lemma process_done_completed self post_id s a b s' :
  process_with self post_id s = (Ok (TaskDone a b), s') ->
  exists row post0,
    table s !! post_id = Some row /\ _map_to_entity post_id row = Ok post0 /\
    FlowerPost.id post0 = post_id /\ completed_from self post0 s'.
Proof.
  intros Hrun.
  destruct (process_done_found _ _ _ _ _ _ Hrun) as (row & post0 & Hrow & Hmap).
  exists row, post0. split; [exact Hrow|]. split; [exact Hmap|].
  split; [exact (map_to_entity_id _ _ _ Hmap)|].
  pose proof (wp_run _ _ _ _ _ (process_found self post_id s row post0 Hrow Hmap)
                Hrun) as (_ & Hdone & _).
  apply (Hdone a b eq_refl).
Qed.


(** ** The registry calls of a run whose generation fails *)






(** ** The invariant of a run *)

Section RunInvariant.


Lemma Platform_value_of_value v p :
  Platform_of_value v = Ok p -> Platform_value p = v.
Proof.
  unfold Platform_of_value.
  destruct (String.eqb v "naver") eqn:E1;
    [apply String.eqb_eq in E1; intros [= <-]; symmetry; exact E1|].
  destruct (String.eqb v "instagram") eqn:E2;
    [apply String.eqb_eq in E2; intros [= <-]; symmetry; exact E2|].
  destruct (String.eqb v "youtube") eqn:E3;
    [apply String.eqb_eq in E3; intros [= <-]; symmetry; exact E3|].
  discriminate.
Qed.

Lemma res_map_Platform_inv l : forall ps,
  res_map Platform_of_value l = Ok ps -> map Platform_value ps = l.
Proof.
  induction l as [|v l IH]; intros ps; simpl.
  - intros [= <-]. reflexivity.
  - destruct (Platform_of_value v) as [p|] eqn:Hv; [|discriminate]. simpl.
    destruct (res_map Platform_of_value l) as [ps'|]; [|discriminate]. simpl.
    intros [= <-]. simpl. rewrite (IH ps' eq_refl).
    rewrite (Platform_value_of_value _ _ Hv). reflexivity.
Qed.

(** A post read from a row carries its request. *)
Lemma map_to_entity_request k row p :
  _map_to_entity k row = Ok p ->
  request_of k row p /\
  FlowerPost.status p = FlowerPostModel.status row /\
  FlowerPost.error_message p = FlowerPostModel.error_message row.
Proof.
  unfold _map_to_entity, res_bind.
  destruct (res_map Platform_of_value _) as [ps|] eqn:Hps; [|discriminate].
  apply res_map_Platform_inv in Hps.
  destruct (match FlowerPostModel.publish_results row with
            | Some l => _ | None => _ end); [|discriminate].
  intros [= <-]. unfold FlowerPost_post_init, request_of; cbn.
  destruct (FlowerPostModel.flower_data row) as [d|];
    [destruct (is_empty d)|]; cbn; repeat split; exact Hps.
Qed.

Lemma request_of_row_of k row0 p :
  request_of k row0 p -> same_columns row0 (row_of p).
Proof. intros (_ & H1 & H2 & H3 & H4 & H5 & H6). repeat split; assumption. Qed.

Lemma same_columns_refl row : same_columns row row.
Proof. repeat split. Qed.

Lemma request_of_update_status k row0 st err t p :
  request_of k row0 p -> request_of k row0 (FlowerPost.update_status st err t p).
Proof.
  unfold FlowerPost.update_status. destruct (opt_truthy err); exact id.
Qed.

Ltac use_update_inv :=
  eapply wp_mono;
  [ apply repository_update_post_spec; cbn;
    [ first [reflexivity|eassumption] | first [reflexivity|eassumption] ]
  | let r := fresh "r" in let s' := fresh "s'" in
    let H1 := fresh "Hpend" in let H2 := fresh "Hpv" in
    let H5 := fresh "Htr" in let H6 := fresh "Hres" in
    intros r s' (H1 & H2 & _ & _ & H5 & H6 & _); cbn in H1, H2, H5, H6;
    destruct r as [[]|?];
    [ destruct H6 as [_ ->]; clear H1 H2 H5
    | destruct H6 as [_ H6] ] ].

Ltac inv_go :=
  lazymatch goal with
  | |- wp repository_update_post _ _ => use_update_inv; cbn
  | |- _ => wp_go
  end.

Arguments FlowerPost.update_status : simpl never.

Ltac solve_request Hreq :=
  first
    [ exact Hreq
    | apply request_of_update_status; solve_request Hreq
    | unfold request_of in *; cbn; exact Hreq ].

(** The invariant at the end of a path through a step, from the
    invariant [Hreq], [Hframe], [Hrow], [Hcols], [Fus] at its start. *)
Ltac close_inv_case Hreq Hframe Hrow Hcols Fus :=
  unfold RunInv, kept; cbn;
  repeat match goal with H : table _ = _ |- _ => rewrite H; clear H end;
  cbn; rewrite ?update_status_id;
  split; [first [assumption | reflexivity]|];
  split;
    [ eexists; split; [first [reflexivity | eassumption]|];
      solve_request Hreq |];
  split;
    [ let k0 := fresh "k0" in let Hk0 := fresh "Hk0" in
      intros k0 Hk0;
      rewrite ?lookup_insert_ne by
        (destruct Hreq as (<- & _); congruence);
      apply Hframe; exact Hk0 |];
  split;
    [ eexists; split;
      [ first [ exact Hrow
              | destruct Hreq as (<- & _); apply lookup_insert_eq ]
      | first [ exact Hcols
              | eapply request_of_row_of; solve_request Hreq ] ]
    | normalise_updates; split_writes;
      first [ exact Fus | solve_request Hreq ] ].

Ltac close_inv Hreq Hframe Hrow Hcols Fus :=
  lazymatch goal with
  | H : table _ = _ \/ _ |- _ =>
      destruct H as [H | [_ H]];
      close_inv_case Hreq Hframe Hrow Hcols Fus
  | |- _ => close_inv_case Hreq Hframe Hrow Hcols Fus
  end.

Lemma stage_inv self post_id fd platform k row0 s0 s :
  RunInv k row0 s0 s ->
  wp (platform_stage self post_id fd platform)
     (fun _ s' => RunInv k row0 s0 s') s.
Proof.
  intros (Hpend & (p & Hpv & Hreq) & Hframe & (row & Hrow & Hcols) &
          (us & Hus & Fus)).
  destruct platform; unfold platform_stage.
  all: repeat inv_go.
  all: close_inv Hreq Hframe Hrow Hcols Fus.
Qed.

Lemma str_truthy_ne s : s <> "" -> str_truthy s = true.
Proof.
  intros Hne. unfold str_truthy.
  destruct (String.eqb_spec s ""); [contradiction|reflexivity].
Qed.

Lemma terminal_failed msg t p :
  terminal (TaskError msg) (FlowerPost.update_status FAILED (Some msg) t p).
Proof.
  unfold terminal, FlowerPost.update_status; cbn [opt_truthy]. split.
  - destruct (str_truthy msg); reflexivity.
  - intros Hne. rewrite (str_truthy_ne _ Hne). reflexivity.
Qed.

Lemma loop_inv self post_id fd k row0 s0 l : forall s,
  RunInv k row0 s0 s ->
  wp (for_platforms self post_id fd l) (fun _ s' => RunInv k row0 s0 s') s.
Proof.
  induction l as [|platform l IH]; intros s HI; cbn [for_platforms].
  - apply wp_ret. exact HI.
  - apply wp_bind.
    eapply wp_mono; [apply stage_inv; exact HI|].
    intros [[]|e] s1 HI1; [|exact HI1].
    apply IH. exact HI1.
Qed.

(** [repository.update(post)] in a run, with what it guarantees when the
    database answers. *)
Ltac use_update_tot :=
  eapply wp_mono;
  [ apply repository_update_post_spec; cbn;
    [ first [reflexivity|eassumption] | first [reflexivity|eassumption] ]
  | let r := fresh "r" in let s' := fresh "s'" in
    let H1 := fresh "Hpend" in let H2 := fresh "Hpv" in
    let H5 := fresh "Htr" in let H6 := fresh "Hres" in
    let H7 := fresh "Htot" in
    intros r s' (H1 & H2 & _ & _ & H5 & H6 & H7);
    cbn in H1, H2, H5, H6, H7;
    destruct r as [[]|?];
    [ destruct H6 as [_ ->]; clear H1 H2 H5 H7
    | destruct H6 as [_ H6] ] ].

Ltac tot_go :=
  lazymatch goal with
  | |- wp repository_update_post _ _ => use_update_tot; cbn
  | |- _ => wp_go
  end.

(** A raised update contradicts a database that answers. *)
Ltac refute_update Hreq Hrow :=
  let Hdb := fresh "Hdb" in
  intros Hdb;
  match goal with
  | Htot : no_db_errors -> is_Some _ -> exists _, Raise _ = Ok _ |- _ =>
      destruct Htot as [? ?];
      [ exact Hdb
      | rewrite ?update_status_id; cbn; rewrite ?update_status_id;
        destruct Hreq as (<- & _);
        first [ rewrite Hrow; eauto | rewrite lookup_insert_eq; eauto ]
      | discriminate ]
  end.

Lemma handlers_inv k row0 s0 e s :
  RunInv k row0 s0 s ->
  wp (handlers e)
     (fun r s' =>
        RunInv k row0 s0 s' /\
        (forall res, r = Ok res ->
           exists final,
             table s' !! k = Some (row_of final) /\ terminal res final) /\
        (no_db_errors -> exists res, r = Ok res)) s.
Proof.
  intros (Hpend & (p & Hpv & Hreq) & Hframe & (row & Hrow & Hcols) &
          (us & Hus & Fus)).
  unfold handlers.
  destruct (is_DomainException (exn_class e)).
  all: repeat tot_go.
  all: split; [close_inv Hreq Hframe Hrow Hcols Fus|].
  all: split; [|first [solve [eauto] | refute_update Hreq Hrow]].
  all: intros res [= <-].
  all: eexists; split;
    [ rewrite update_status_id; destruct Hreq as (<- & _);
      apply lookup_insert_eq |].
  all: apply terminal_failed.
Qed.

Lemma pipeline_inv self k row0 s0 s :
  RunInv k row0 s0 s ->
  wp (pipeline self k)
     (fun r s' =>
        RunInv k row0 s0 s' /\
        (forall res, r = Ok res ->
           exists final,
             table s' !! k = Some (row_of final) /\ terminal res final)) s.
Proof.
  intros (Hpend & (p & Hpv & Hreq) & Hframe & (row & Hrow & Hcols) &
          (us & Hus & Fus)).
  unfold pipeline.
  repeat tot_go.
  all: try solve [split; [close_inv Hreq Hframe Hrow Hcols Fus
                         | intros ? [=]]].
  eapply wp_mono;
    [ apply (loop_inv self k a0 k row0 s0);
      close_inv Hreq Hframe Hrow Hcols Fus |].
  clear Hpend p Hpv Hreq Hframe row Hrow Hcols us Hus Fus Heqr.
  intros r s1 (Hpend & (p & Hpv & Hreq) & Hframe & (row & Hrow & Hcols) &
               (us & Hus & Fus)).
  destruct r as [[]|e].
  2: { split; [|intros ? [=]].
       close_inv Hreq Hframe Hrow Hcols Fus. }
  repeat tot_go.
  all: split; [close_inv Hreq Hframe Hrow Hcols Fus|].
  all: intros res [= <-].
  eexists. split;
    [ rewrite update_status_id; destruct Hreq as (<- & _);
      apply lookup_insert_eq |].
  unfold terminal, FlowerPost.update_status. reflexivity.
Qed.

Lemma kept_close k row0 s0 s :
  kept k row0 s0 s -> kept k row0 s0 (with_pending [] s).
Proof. exact id. Qed.

(** A run whose lookup returns the post. *)
Lemma process_inv self post_id s row post0 :
  table s !! post_id = Some row ->
  _map_to_entity post_id row = Ok post0 ->
  db_error (calls s) = None ->
  wp (process_with self post_id) (run_post post_id row s) s.
Proof.
  intros Hrow Hmap Hdb0.
  destruct (map_to_entity_request _ _ _ Hmap) as (Hreq & _).
  unfold process_with, try_body.
  apply wp_bind, wp_modify. cbn.
  apply wp_try_finally, wp_try_except, wp_bind.
  eapply wp_eq; [apply find_by_id_eq|].
  unfold find_answer. cbn. rewrite Hdb0, Hrow, Hmap.
  apply wp_bind, wp_modify. cbn.
  eapply wp_mono; [apply (pipeline_inv self post_id row s)|].
  - unfold RunInv, kept. cbn. split; [reflexivity|].
    split; [eauto|]. split; [reflexivity|].
    split; [exists row; split; [exact Hrow|apply same_columns_refl]|].
    exists []. rewrite app_nil_r. split; [reflexivity|constructor].
  - intros r s1 [HI Hok]. destruct r as [res|e].
    + unfold Session.close. apply wp_modify. cbn.
      split; [apply kept_close, HI|].
      split; [exact Hok|eauto].
    + eapply wp_mono; [apply (handlers_inv post_id row s e s1 HI)|].
      intros r2 s2 (HI2 & Hok2 & Htot2).
      unfold Session.close. apply wp_modify. cbn.
      destruct r2 as [res|e2]; cbn.
      * split; [apply kept_close, HI2|]. split; [exact Hok2|eauto].
      * split; [apply kept_close, HI2|]. split; [intros ? [=]|exact Htot2].
Qed.

(** A run that does not load the post changes nothing. *)
Lemma process_not_loaded self post_id s :
  (forall p, find_answer post_id (calls s) (table s) <> Ok (Some p)) ->
  let run := process_with self post_id s in
  table run.2 = table s /\ trace run.2 = trace s /\
  (run.1 = Raise (unbound_local "post") \/
   run.1 = Ok (TaskError "Post not found") /\ table s !! post_id = None).
Proof.
  intros Hf. pose proof (process_lookup self post_id s) as H.
  unfold wp, lookup_post in H.
  unfold find_answer in *.
  destruct (db_error (calls s)) as [msg|].
  { destruct H as (-> & -> & ->). auto. }
  destruct (table s !! post_id) as [row|].
  - destruct (_map_to_entity post_id row) as [p|e].
    + destruct (Hf p eq_refl).
    + destruct H as (-> & -> & ->). auto.
  - destruct H as (-> & -> & ->). auto.
Qed.

End RunInvariant.

(** ** The claims *)



(** C3.  For every platform and content the registry's [publish] returns
    a [PublishResult] and does not raise.  When no publisher is
    registered for the platform, and when the registered publisher
    raises [e], the result is [success=False] tagged with the platform
    and with [str(e)] as its error; otherwise it is the publisher's
    answer. *)
Theorem publish_never_raises self platform content s :
  exists r s',
    SocialPublisherService.publish self platform content s = (Ok r, s') /\
    match SocialPublisherService.dispatch self platform content with
    | None =>
        r = PublishResult.mk false platform None None
              (Some (exn_str (SocialPublisherService.unsupported platform)))
    | Some call =>
        match call (calls s) with
        | Ok answer => r = answer
        | Raise e =>
            r = PublishResult.mk false platform None None (Some (exn_str e))
        end
    end.
Proof.
  eexists _, _. split; [apply publish_eq|]. unfold publish_answer.
  destruct (SocialPublisherService.dispatch self platform content)
    as [call|]; [|reflexivity].
  destruct (call (calls s)); reflexivity.
Qed.


(** C5.  A run on a post id that has no row in the table writes nothing:
    the table and the trace are as before, so no row is created or
    changed and [repository.update] is not called.  The run never returns
    the results of a completed run, and when the database answers the
    lookup it returns the error "Post not found". *)
Theorem unknown_post_not_found self post_id s :
  table s !! post_id = None ->
  exists r s',
    process_with self post_id s = (r, s') /\
    table s' = table s /\ trace s' = trace s /\
    (forall a b, r <> Ok (TaskDone a b)) /\
    (db_error (calls s) = None -> r = Ok (TaskError "Post not found")).
Proof.
  intros Hrow.
  pose proof (process_lookup self post_id s) as L.
  unfold wp, lookup_post, find_answer in L. rewrite Hrow in L.
  destruct (process_with self post_id s) as [r s']. cbn in L.
  exists r, s'. split; [reflexivity|].
  destruct (db_error (calls s)) as [msg|]; destruct L as (-> & Ht & Htr).
  - repeat split; try assumption; discriminate.
  - repeat split; try assumption; discriminate.
Qed.

(** C6.  In a run on a stored post whose images start with [img], the
    analysis gateway is called with [img] and with no other image: the
    run calls it at most once, always with [img], and exactly once when
    the database answers every call. *)
Theorem analysis_uses_first_image self post_id s row post0 img rest :
  table s !! post_id = Some row ->
  _map_to_entity post_id row = Ok post0 ->
  FlowerPost.image_paths post0 = img :: rest ->
  exists l,
    analyses (trace (process_with self post_id s).2) = analyses (trace s) ++ l /\
    (l = [] \/ l = [img]) /\
    (no_db_errors -> l = [img]).
Proof.
  intros Hrow Hmap Himg.
  pose proof (process_found self post_id s row post0 Hrow Hmap)
    as ((l & Hl & Hfirst) & _).
  unfold first_image in Hfirst. rewrite Himg in Hfirst.
  exists l. split; [exact Hl|exact Hfirst].
Qed.

(** C8 (as amended).  [update_status] replaces the error message only
    when it is given a message that is not empty.  In a run on a stored
    post, every post handed to [repository.update] carries the error
    message the row had when the run started, or has the status failed.
    A run that returns its results leaves the post stored as completed
    with that error message: none for a post that had none, and the
    earlier message for a post that had failed before. *)
Theorem completed_run_keeps_error_message self post_id s row r s' :
  table s !! post_id = Some row ->
  process_with self post_id s = (r, s') ->
  (forall st err t p,
     FlowerPost.error_message (FlowerPost.update_status st err t p) =
     if opt_truthy err then err else FlowerPost.error_message p) /\
  writes_keep_message (FlowerPostModel.error_message row) s s' /\
  (forall a b, r = Ok (TaskDone a b) ->
     exists row',
       table s' !! post_id = Some row' /\
       FlowerPostModel.status row' = "completed" /\
       FlowerPostModel.error_message row' = FlowerPostModel.error_message row).
Proof.
  intros Hrow Hrun. split; [|split].
  - intros st err t p. unfold FlowerPost.update_status.
    destruct (opt_truthy err); reflexivity.
  - destruct (_map_to_entity post_id row) as [post0|e] eqn:Hmap.
    + destruct (map_to_entity_fields _ _ _ Hmap) as [_ <-].
      exact (wp_run _ _ _ _ _ (process_writes self post_id s row post0 Hrow Hmap)
               Hrun).
    + pose proof (wp_run _ _ _ _ _ (process_lookup self post_id s) Hrun) as H.
      unfold lookup_post, find_answer in H. rewrite Hrow, Hmap in H.
      assert (Htr : trace s' = trace s)
        by (destruct (db_error (calls s)); apply H).
      exists []. rewrite Htr, app_nil_r. split; [reflexivity|constructor].
  - intros a b ->.
    destruct (process_done_completed _ _ _ _ _ _ Hrun)
      as (row2 & post0 & Hrow2 & Hmap & Hid &
          final & xs & Ht & Hst & Herr & _).
    rewrite Hrow in Hrow2. injection Hrow2 as <-.
    rewrite Hid in Ht.
    exists (row_of final). split; [exact Ht|]. split; [exact Hst|].
    change (FlowerPostModel.error_message (row_of final))
      with (FlowerPost.error_message final).
    rewrite Herr. apply (map_to_entity_fields _ _ _ Hmap).
Qed.


(** C10.  When [find_by_id] itself raises, the handlers read the local
    [post] before it was ever assigned: the run ends with the
    [UnboundLocalError] raised inside the handler, the table is as
    before, and [repository.update] is not called, so no failed status
    is written. *)
Theorem lookup_failure_unbound_post self post_id s e :
  (find_by_id post_id s).1 = Raise e ->
  exists s',
    process_with self post_id s = (Raise (unbound_local "post"), s') /\
    table s' = table s /\
    trace s' = trace s.
Proof.
  intros H. rewrite find_by_id_eq in H. cbn in H.
  pose proof (process_lookup self post_id s) as L.
  unfold wp, lookup_post in L. rewrite H in L.
  destruct (process_with self post_id s) as [r s']. cbn in L.
  destruct L as (-> & Ht & Htr). eauto.
Qed.


(** * Further properties of the code *)

(** ** The repository: rows and entities *)

Lemma FlowerData_round_trip fd :
  FlowerData.from_dict (FlowerData.to_dict fd) = fd.
Proof. destruct fd; reflexivity. Qed.

Lemma map_to_entity_read_back p :
  _map_to_entity (FlowerPost.id p) (row_of p) = Ok (read_back p).
Proof.
  unfold _map_to_entity, row_of, _map_to_model, read_back; simpl.
  rewrite res_map_Platform; simpl.
  assert (Hres :
    match
      (if is_empty (FlowerPost.publish_results p) then None
       else Some (map publish_result_to_json (FlowerPost.publish_results p)))
    with
    | Some l => if is_empty l then Ok [] else res_map publish_result_of_json l
    | None => Ok []
    end = Ok (FlowerPost.publish_results p)).
  { destruct (FlowerPost.publish_results p) as [|r l]; [reflexivity|].
    cbn [is_empty]. exact (res_map_publish_result (r :: l)). }
  rewrite Hres; simpl.
  destruct p as [i ip pl ti de sc st er fd bc ic it vp pr ca ua]; simpl.
  destruct fd as [[fd|d]|]; simpl.
  - rewrite FlowerData_round_trip. reflexivity.
  - destruct d; reflexivity.
  - reflexivity.
Qed.

(** X1. a post written by [_map_to_model] and read by [_map_to_entity] is
    the same post, with its flower data as a [FlowerData] object. *)
Theorem map_to_model_round_trip p :
  _map_to_entity (_map_to_model p).1 (_map_to_model p).2 = Ok (read_back p) /\
  read_back (read_back p) = read_back p /\
  (forall fd, FlowerPost.flower_data p = Some (AsFlowerData fd) ->
     read_back p = p) /\
  (FlowerPost.flower_data p = None -> read_back p = p).
Proof.
  split; [apply map_to_entity_read_back|].
  destruct p as [i ip pl ti de sc st er fd bc ic it vp pr ca ua].
  unfold read_back; cbn.
  split; [|split].
  - destruct fd as [[fd|d]|]; cbn; try reflexivity.
    destruct d; reflexivity.
  - intros fd' ->. reflexivity.
  - intros ->. reflexivity.
Qed.

(** ** The repository on a database that answers *)

(** Evaluates the session's operations when the database answers. *)
Ltac run_db Hdb :=
  cbv [try_except bind Session.stage Session.commit Session.db_call
       Session.refresh Session.query_first Session.rollback
       modify gets ret raise lift log];
  cbn; rewrite ?Hdb; cbn.

Lemma save_ok p s :
  no_db_errors -> pending s = [] -> table s !! FlowerPost.id p = None ->
  save p s =
  (Ok (read_back p),
   with_calls (S (S (calls s)))
     (with_table (<[FlowerPost.id p := row_of p]> (table s)) s)).
Proof.
  intros Hdb Hp Hnone. destruct s as [t pd cl n tr pv rv].
  cbn in Hp, Hnone. subst pd.
  unfold save. rewrite map_to_model_eq.
  run_db Hdb. rewrite Hnone. run_db Hdb.
  rewrite lookup_insert_eq. cbn. rewrite map_to_entity_read_back.
  reflexivity.
Qed.

Lemma update_ok p s :
  no_db_errors -> pending s = [] -> is_Some (table s !! FlowerPost.id p) ->
  update p s = (Ok (read_back p), after_update p s).
Proof.
  intros Hdb Hp [row Hrow]. destruct s as [t pd cl n tr pv rv].
  cbn in Hp, Hrow. subst pd.
  unfold update, after_update. rewrite map_to_model_eq.
  run_db Hdb. rewrite Hrow. run_db Hdb. rewrite Hrow. run_db Hdb.
  rewrite lookup_insert_eq. cbn. rewrite map_to_entity_read_back.
  cbn. rewrite !Nat.add_succ_r, Nat.add_0_r. reflexivity.
Qed.

Lemma find_by_id_ok k row p s :
  no_db_errors -> table s !! k = Some row -> _map_to_entity k row = Ok p ->
  find_by_id k s = (Ok (Some p), with_calls (S (calls s)) s).
Proof.
  intros Hdb Hrow Hmap. rewrite find_by_id_eq.
  rewrite (find_answer_found k s row p Hdb Hrow Hmap). reflexivity.
Qed.

(** X2.  On a database that answers and a session that holds no change,
    [save] of a post whose id is not in the table stores its row and
    returns the post as it reads back; [find_by_id] with that id then
    returns the same post. *)
Theorem save_then_find p s :
  no_db_errors -> pending s = [] -> table s !! FlowerPost.id p = None ->
  exists s1 s2,
    save p s = (Ok (read_back p), s1) /\
    table s1 = <[FlowerPost.id p := row_of p]> (table s) /\
    pending s1 = [] /\
    find_by_id (FlowerPost.id p) s1 = (Ok (Some (read_back p)), s2) /\
    table s2 = table s1.
Proof.
  intros Hdb Hp Hnone. eexists. eexists.
  split; [apply save_ok; assumption|].
  split; [reflexivity|]. split; [exact Hp|].
  split.
  - eapply find_by_id_ok; [exact Hdb| |apply map_to_entity_read_back].
    cbn. apply lookup_insert_eq.
  - reflexivity.
Qed.

(** X3.  [save] never overwrites: when the table already holds a row
    with the id of the post, [save] raises a [RepositoryError] and leaves
    the table and the session as they were, however the database
    behaves. *)
Theorem save_existing_id_rejected p s :
  pending s = [] -> is_Some (table s !! FlowerPost.id p) ->
  exists e s',
    save p s = (Raise e, s') /\ exn_class e = RepositoryError /\
    table s' = table s /\ pending s' = [].
Proof.
  intros Hp [row Hrow]. destruct s as [t pd cl n tr pv rv].
  cbn in Hp, Hrow. subst pd.
  unfold save. rewrite map_to_model_eq.
  cbv [try_except bind Session.stage Session.commit Session.db_call
       Session.refresh Session.rollback modify gets ret raise lift].
  cbn. destruct (db_error n); cbn.
  - eexists. eexists. repeat split.
  - rewrite Hrow. cbn. eexists. eexists. repeat split.
Qed.

(** X4.  On a database that answers and a session that holds no change,
    [update] of a post whose id is in the table, and whose [updated_at]
    differs from the stored one, replaces the row and returns the post as
    it reads back; [find_by_id] then returns the same post, and no other
    row has changed.  A post carries a new [updated_at] after
    [update_status] or [add_publish_result]; the column's own [onupdate]
    default, which the database applies when an update leaves
    [updated_at] as it was, then does not come into play. *)
Theorem update_then_find p s row :
  no_db_errors -> pending s = [] ->
  table s !! FlowerPost.id p = Some row ->
  FlowerPostModel.updated_at row <> FlowerPost.updated_at p ->
  exists s1 s2,
    update p s = (Ok (read_back p), s1) /\
    table s1 = <[FlowerPost.id p := row_of p]> (table s) /\
    (forall k, k <> FlowerPost.id p -> table s1 !! k = table s !! k) /\
    find_by_id (FlowerPost.id p) s1 = (Ok (Some (read_back p)), s2) /\
    table s2 = table s1.
Proof.
  intros Hdb Hp Hrow _. eexists. eexists.
  split; [apply update_ok; [assumption|assumption|eauto]|].
  split; [reflexivity|].
  split; [intros k Hk; cbn; apply lookup_insert_ne; congruence|].
  split.
  - eapply find_by_id_ok; [exact Hdb| |apply map_to_entity_read_back].
    cbn. apply lookup_insert_eq.
  - reflexivity.
Qed.

(** X5.  On a database that answers and a session that holds no change,
    [delete] returns whether the table held a row with the id; the row is
    gone afterwards, the other rows are as before, and [find_by_id] with
    that id returns [None]. *)
Theorem delete_then_find k s :
  no_db_errors -> pending s = [] ->
  exists s1 s2,
    SQLAlchemyPostRepository.delete k s =
      (Ok (bool_decide (is_Some (table s !! k))), s1) /\
    table s1 = base.delete k (table s) /\
    pending s1 = [] /\
    find_by_id k s1 = (Ok None, s2).
Proof.
  intros Hdb Hp. destruct s as [t pd cl n tr pv rv]. cbn in Hp. subst pd.
  unfold SQLAlchemyPostRepository.delete.
  run_db Hdb.
  destruct (t !! k) as [row|] eqn:Hrow; run_db Hdb.
  - rewrite Hrow. cbn. eexists. eexists. split; [reflexivity|].
    split; [reflexivity|]. split; [reflexivity|].
    rewrite find_by_id_eq. unfold find_answer. cbn.
    rewrite Hdb, lookup_delete_eq. reflexivity.
  - eexists. eexists. split; [reflexivity|]. cbn.
    split; [symmetry; apply delete_id; exact Hrow|].
    split; [reflexivity|].
    rewrite find_by_id_eq. unfold find_answer. cbn.
    rewrite Hdb, Hrow. reflexivity.
Qed.


(** ** What a run leaves alone *)

Arguments FlowerPost.update_status : simpl never.

(** X6.  A run changes no row but the one of its post, however the
    collaborators behave. *)
Theorem run_touches_one_row self post_id s k :
  k <> post_id ->
  table (process_with self post_id s).2 !! k = table s !! k.
Proof.
  intros Hk.
  destruct (find_answer post_id (calls s) (table s)) as [[p|]|e] eqn:Hf.
  - unfold find_answer in Hf.
    destruct (db_error (calls s)) eqn:Hdb0; [discriminate|].
    destruct (table s !! post_id) as [row|] eqn:Hrow; [|discriminate].
    destruct (_map_to_entity post_id row) as [p'|] eqn:Hmap; [|discriminate].
    pose proof (process_inv self post_id s row p' Hrow Hmap Hdb0) as H.
    unfold wp, run_post in H. destruct H as ((Hframe & _) & _).
    apply Hframe. exact Hk.
  - destruct (process_not_loaded self post_id s) as (-> & _);
      [rewrite Hf; discriminate|reflexivity].
  - destruct (process_not_loaded self post_id s) as (-> & _);
      [rewrite Hf; discriminate|reflexivity].
Qed.

(** X7.  A run on a stored post never changes what was requested: the
    row keeps its title, description, image paths, platforms, schedule
    time and creation time, and every post handed to [repository.update]
    has the id of the run and carries the same request. *)
Theorem run_keeps_request self post_id s row :
  table s !! post_id = Some row ->
  let s' := (process_with self post_id s).2 in
  (exists row', table s' !! post_id = Some row' /\ same_columns row row') /\
  exists us,
    updates (trace s') = updates (trace s) ++ us /\
    Forall (request_of post_id row) us.
Proof.
  intros Hrow. cbv zeta.
  destruct (db_error (calls s)) eqn:Hdb0;
    [|destruct (_map_to_entity post_id row) as [p|e] eqn:Hmap].
  2: { pose proof (process_inv self post_id s row p Hrow Hmap Hdb0) as H.
       unfold wp, run_post in H. destruct H as ((_ & Hr & Hu) & _).
       split; assumption. }
  all: destruct (process_not_loaded self post_id s) as (Ht & Htr & _);
    [ intros p; unfold find_answer; rewrite ?Hdb0, ?Hrow, ?Hmap;
      discriminate |].
  all: rewrite Ht, Htr.
  all: split; [exists row; split; [exact Hrow|apply same_columns_refl]|].
  all: exists []; rewrite app_nil_r; split; [reflexivity|constructor].
Qed.


(** ** Edge cases of the task *)



(** ** The results that the task returns *)









(** ** Publishing *)

Lemma str_truthy_true s : str_truthy s = true <-> s <> "".
Proof.
  unfold str_truthy. destruct (String.eqb_spec s ""); cbn; split;
    congruence.
Qed.

Lemma publish_answer_well_formed platform content n :
  let r := publish_answer get_social_publishers platform content n in
  PublishResult.platform r = platform /\ well_formed r.
Proof.
  unfold publish_answer, get_social_publishers, well_formed.
  destruct platform; cbn;
    unfold NaverBlogPublisher, InstagramPublisher, YoutubePublisher,
      res_try, res_bind.
  - destruct (negb _ || negb _); [cbn; eauto|].
    destruct (negb _); [cbn; eauto|].
    destruct (negb _); [cbn; eauto|].
    destruct (naver_browser _ _ _ _); cbn; eauto.
  - destruct (negb _ || negb _); [cbn; eauto|].
    destruct (negb _); [cbn; eauto|].
    destruct (is_empty _); [cbn; eauto|].
    destruct (instagram_graph_api _ _ _ _); cbn; eauto.
  - destruct (negb _); [cbn; eauto|].
    destruct (negb _); [cbn; eauto|].
    destruct (negb _); [cbn; eauto|].
    destruct (negb _); cbn; eauto.
Qed.

(** X11.  Through the registry that [get_social_publishers] builds,
    [publish] always returns a result for the platform it was asked for,
    and the result is well formed: a success carries a url and no error,
    a failure carries an error and neither url nor post id. *)
Theorem publish_results_well_formed platform content s :
  exists r s',
    SocialPublisherService.publish get_social_publishers platform content s
      = (Ok r, s') /\
    PublishResult.platform r = platform /\ well_formed r.
Proof.
  eexists. eexists. split; [apply publish_eq|].
  apply publish_answer_well_formed.
Qed.

(** X12.  The video publisher makes no upload.  It always returns a
    result for the video platform; the result is a success exactly when
    the credentials path, the video path and the title are not empty and
    the video file exists, and a success always reports the fixed id
    [sample_video_id] with its url, whatever the video, the description
    and the tags are. *)
Theorem youtube_publisher_reports_fixed_id credentials_path n video_path
    title description tags :
  exists r,
    YoutubePublisher credentials_path n video_path title description tags
      = Ok r /\
    PublishResult.platform r = YOUTUBE /\
    (PublishResult.success r = true <->
     credentials_path <> "" /\ video_path <> "" /\
     path_exists n video_path = true /\ title <> "") /\
    (PublishResult.success r = true ->
     r = PublishResult.mk true YOUTUBE
           (Some "https://youtube.com/shorts/sample_video_id")
           (Some "sample_video_id") None).
Proof.
  unfold YoutubePublisher, res_try.
  destruct (str_truthy credentials_path) eqn:Hc,
    (str_truthy video_path) eqn:Hv, (path_exists n video_path) eqn:Hp,
    (str_truthy title) eqn:Ht; cbn;
    try (eexists; split; [reflexivity|]; cbn; split; [reflexivity|]; split;
         [ split;
           [ discriminate
           | intros (H1 & H2 & H3 & H4);
             apply str_truthy_true in H1, H2, H4; congruence ]
         | discriminate ]).
  apply str_truthy_true in Hc, Hv, Ht.
  eexists. split; [reflexivity|]. cbn. split; [reflexivity|].
  split; [|reflexivity]. split; [auto|reflexivity].
Qed.



(** ** The content generator *)

Section Generators.
Context `{K : Claude}.

Lemma startswith_app p x : Text.startswith p (p +:+ x) = true.
Proof.
  unfold Text.startswith.
  induction p as [|a p IH]; [destruct x; reflexivity|].
  change (String a p +:+ x) with (String a (p +:+ x)). cbn.
  destruct (Ascii.ascii_dec a a); [exact IH|congruence].
Qed.

Lemma hashtag_lines_start tags_text :
  Forall (fun tag => Text.startswith "#" tag = true)
    (ClaudeContentGenerator.hashtag_lines tags_text).
Proof.
  unfold ClaudeContentGenerator.hashtag_lines.
  apply List.Forall_forall. intros tag Hin.
  apply List.filter_In in Hin. apply Hin.
Qed.

Lemma default_tags_start :
  Forall (fun tag => Text.startswith "#" tag = true)
    ClaudeContentGenerator.default_tags.
Proof. repeat constructor. Qed.

Lemma hashtags_of_bounds tags_text :
  let tags := ClaudeContentGenerator.hashtags_of tags_text in
  10 <= length tags <= 20 /\
  Forall (fun tag => Text.startswith "#" tag = true) tags.
Proof.
  unfold ClaudeContentGenerator.hashtags_of. cbv zeta.
  pose proof (hashtag_lines_start tags_text) as Hs.
  set (lines := ClaudeContentGenerator.hashtag_lines tags_text) in *.
  destruct (Nat.ltb_spec (length lines) 10) as [Hlt|Hge].
  - rewrite take_ge by (rewrite length_app; cbn; lia).
    rewrite length_app. cbn [length ClaudeContentGenerator.default_tags].
    split; [lia|]. apply Forall_app. split; [exact Hs|].
    apply default_tags_start.
  - rewrite length_take. split; [lia|]. apply Forall_take. exact Hs.
Qed.

Lemma hashtags_of_eq tags_text :
  let lines := ClaudeContentGenerator.hashtag_lines tags_text in
  ClaudeContentGenerator.hashtags_of tags_text =
    take 20 lines ++
    (if decide (length lines < 10) then ClaudeContentGenerator.default_tags
     else []).
Proof.
  cbv zeta. unfold ClaudeContentGenerator.hashtags_of.
  set (lines := ClaudeContentGenerator.hashtag_lines tags_text).
  destruct (Nat.ltb_spec (length lines) 10) as [Hlt|Hge].
  - rewrite decide_True by exact Hlt.
    rewrite take_ge by (rewrite length_app; cbn; lia).
    rewrite (take_ge lines) by lia. reflexivity.
  - rewrite decide_False by lia. rewrite app_nil_r. reflexivity.
Qed.

(** X14.  Whatever Claude writes, a list of tags that [generate_tags]
    returns has at least ten and at most twenty entries, and each of them
    starts with the hash sign.  The tags are the lines of Claude's text
    that start with the hash sign once stripped, in their order and cut
    after the twentieth; the ten default tags follow them, all ten,
    exactly when the text has fewer than ten such lines. *)
Theorem generate_tags_bounds n flower_data tags :
  ClaudeContentGenerator.generate_tags n flower_data = Ok tags ->
  10 <= length tags <= 20 /\
  Forall (fun tag => Text.startswith "#" tag = true) tags /\
  exists prompt tags_text,
    ClaudeContentGenerator.tags_prompt flower_data = Ok prompt /\
    ClaudeClient.generate_text n prompt 1000 "claude-3-haiku-20240307"
      = Ok tags_text /\
    let lines :=
      List.filter (Text.startswith "#")
        (map Text.strip (Text.split Text.newline tags_text)) in
    tags =
      take 20 lines ++
      (if decide (length lines < 10)
       then ClaudeContentGenerator.default_tags else []).
Proof.
  unfold ClaudeContentGenerator.generate_tags, res_try, res_bind.
  destruct (ClaudeContentGenerator.tags_prompt flower_data) as [prompt|e];
    [|discriminate].
  destruct (ClaudeClient.generate_text n prompt 1000 _) as [text|e] eqn:Ht;
    [|discriminate].
  intros [= <-].
  destruct (hashtags_of_bounds text) as (Hlen & Hstart).
  split; [exact Hlen|]. split; [exact Hstart|].
  exists prompt, text. split; [reflexivity|]. split; [exact Ht|].
  apply hashtags_of_eq.
Qed.

(** X15.  The three generators raise nothing but a
    [ContentGenerationError], and its message starts with the text of the
    function that failed.  In each of them an error of the API is wrapped
    twice, by [generate_text] and by the generator, and analysis data
    without the key [flower_type] fails in the generator, before Claude
    is asked, with the text of the [KeyError]. *)
Theorem generators_wrap_errors n flower_data image_paths :
  let blog :=
    ClaudeContentGenerator.generate_blog_post n flower_data image_paths in
  let caption :=
    ClaudeContentGenerator.generate_instagram_caption n flower_data in
  let tags := ClaudeContentGenerator.generate_tags n flower_data in
  let blog_text := "블로그 포스트 생성 중 오류가 발생했습니다: " in
  let caption_text := "인스타그램 캡션 생성 중 오류가 발생했습니다: " in
  let tags_text := "해시태그 생성 중 오류가 발생했습니다: " in
  ((forall e, blog = Raise e ->
      exn_class e = ContentGenerationError /\
      Text.startswith blog_text (exn_str e) = true) /\
   (forall e, caption = Raise e ->
      exn_class e = ContentGenerationError /\
      Text.startswith caption_text (exn_str e) = true) /\
   (forall e, tags = Raise e ->
      exn_class e = ContentGenerationError /\
      Text.startswith tags_text (exn_str e) = true)) /\
  ((forall prompt message,
      ClaudeContentGenerator.blog_prompt flower_data = Ok prompt ->
      messages_create n
        (Request.mk "claude-3-sonnet-20240229" 4000 prompt None)
        = ApiError message ->
      blog = Raise (mkExn ContentGenerationError
                      (blog_text +:+ "Claude API 오류: " +:+ message))) /\
   (forall prompt message,
      ClaudeContentGenerator.caption_prompt flower_data = Ok prompt ->
      messages_create n
        (Request.mk "claude-3-haiku-20240307" 1000 prompt None)
        = ApiError message ->
      caption = Raise (mkExn ContentGenerationError
                         (caption_text +:+ "Claude API 오류: " +:+ message))) /\
   (forall prompt message,
      ClaudeContentGenerator.tags_prompt flower_data = Ok prompt ->
      messages_create n
        (Request.mk "claude-3-haiku-20240307" 1000 prompt None)
        = ApiError message ->
      tags = Raise (mkExn ContentGenerationError
                      (tags_text +:+ "Claude API 오류: " +:+ message)))) /\
  (dict_get "flower_type" flower_data = None ->
   blog = Raise (mkExn ContentGenerationError
                   (blog_text +:+ "'flower_type'")) /\
   caption = Raise (mkExn ContentGenerationError
                      (caption_text +:+ "'flower_type'")) /\
   tags = Raise (mkExn ContentGenerationError
                   (tags_text +:+ "'flower_type'"))).
Proof.
  cbv zeta. split; [|split].
  - split; [|split]; intros e.
    + unfold ClaudeContentGenerator.generate_blog_post, res_try, res_bind.
      destruct (ClaudeContentGenerator.blog_prompt flower_data)
        as [prompt|e0].
      * destruct (ClaudeClient.generate_text n prompt 4000 _);
          [discriminate|].
        intros [= <-]. split; [reflexivity|apply startswith_app].
      * intros [= <-]. split; [reflexivity|apply startswith_app].
    + unfold ClaudeContentGenerator.generate_instagram_caption, res_try,
        res_bind.
      destruct (ClaudeContentGenerator.caption_prompt flower_data)
        as [prompt|e0].
      * destruct (ClaudeClient.generate_text n prompt 1000 _);
          [discriminate|].
        intros [= <-]. split; [reflexivity|apply startswith_app].
      * intros [= <-]. split; [reflexivity|apply startswith_app].
    + unfold ClaudeContentGenerator.generate_tags, res_try, res_bind.
      destruct (ClaudeContentGenerator.tags_prompt flower_data)
        as [prompt|e0].
      * destruct (ClaudeClient.generate_text n prompt 1000 _);
          [discriminate|].
        intros [= <-]. split; [reflexivity|apply startswith_app].
      * intros [= <-]. split; [reflexivity|apply startswith_app].
  - split; [|split]; intros prompt message Hprompt Hapi.
    + unfold ClaudeContentGenerator.generate_blog_post, res_try, res_bind.
      rewrite Hprompt. unfold ClaudeClient.generate_text. rewrite Hapi.
      reflexivity.
    + unfold ClaudeContentGenerator.generate_instagram_caption, res_try,
        res_bind.
      rewrite Hprompt. unfold ClaudeClient.generate_text. rewrite Hapi.
      reflexivity.
    + unfold ClaudeContentGenerator.generate_tags, res_try, res_bind.
      rewrite Hprompt. unfold ClaudeClient.generate_text. rewrite Hapi.
      reflexivity.
  - intros Hnone. split; [|split].
    + unfold ClaudeContentGenerator.generate_blog_post, res_try.
      unfold ClaudeContentGenerator.blog_prompt.
      cbn [ClaudeContentGenerator.fstring res_bind].
      unfold ClaudeContentGenerator.formatted at 1.
      unfold flower_type_of at 1. cbn [subscript res_bind].
      rewrite Hnone. reflexivity.
    + unfold ClaudeContentGenerator.generate_instagram_caption, res_try.
      unfold ClaudeContentGenerator.caption_prompt.
      cbn [ClaudeContentGenerator.fstring res_bind].
      unfold ClaudeContentGenerator.formatted at 1.
      unfold flower_type_of at 1. cbn [subscript res_bind].
      rewrite Hnone. reflexivity.
    + unfold ClaudeContentGenerator.generate_tags, res_try.
      unfold ClaudeContentGenerator.tags_prompt.
      cbn [ClaudeContentGenerator.fstring res_bind].
      unfold ClaudeContentGenerator.formatted at 1.
      unfold flower_type_of at 1. cbn [subscript res_bind].
      rewrite Hnone. reflexivity.
Qed.

End Generators.

(** ** The Claude client *)

Lemma append_cons a s t : String a s +:+ t = String a (s +:+ t).
Proof. reflexivity. Qed.

Lemma append_nil t : EmptyString +:+ t = t.
Proof. reflexivity. Qed.

Lemma first_index_app c pre rest :
  Text.first_index c pre = None ->
  Text.first_index c (pre +:+ String c rest) = Some (String.length pre).
Proof.
  induction pre as [|a pre IH]; intros Hpre.
  - rewrite append_nil. cbn. rewrite Ascii.eqb_refl. reflexivity.
  - rewrite append_cons. cbn in Hpre |- *.
    destruct (Ascii.eqb a c); [discriminate|].
    destruct (Text.first_index c pre); [discriminate|].
    rewrite (IH eq_refl). reflexivity.
Qed.

Lemma last_index_none c s :
  Text.first_index c s = None -> Text.last_index c s = None.
Proof.
  induction s as [|a s IH]; cbn; [reflexivity|].
  destruct (Ascii.eqb a c); [discriminate|].
  destruct (Text.first_index c s); [discriminate|].
  intros _. rewrite (IH eq_refl). reflexivity.
Qed.

Lemma last_index_app c s post :
  Text.first_index c post = None ->
  Text.last_index c (s +:+ String c post) = Some (String.length s).
Proof.
  intros Hpost. apply last_index_none in Hpost.
  induction s as [|a s IH].
  - rewrite append_nil. cbn. rewrite Hpost, Ascii.eqb_refl. reflexivity.
  - rewrite append_cons. cbn. rewrite IH. reflexivity.
Qed.

Lemma substring_app pre mid post :
  String.substring (String.length pre) (String.length mid)
    (pre +:+ mid +:+ post) = mid.
Proof.
  induction pre as [|a pre IH].
  - rewrite append_nil. cbn [String.length].
    induction mid as [|b mid IHm].
    + rewrite append_nil. destruct post; reflexivity.
    + rewrite append_cons. cbn. rewrite IHm. reflexivity.
  - rewrite append_cons. cbn. exact IH.
Qed.

Lemma length_append s t :
  String.length (s +:+ t) = String.length s + String.length t.
Proof.
  induction s as [|a s IH]; [reflexivity|].
  rewrite append_cons. cbn. rewrite IH. reflexivity.
Qed.

Lemma append_assoc s t u : (s +:+ t) +:+ u = s +:+ (t +:+ u).
Proof.
  induction s as [|a s IH]; [reflexivity|].
  rewrite !append_cons, IH. reflexivity.
Qed.

Section Client.
Context `{K : Claude}.

Lemma json_part_between pre mid post :
  Text.first_index Text.open_brace pre = None ->
  Text.first_index Text.close_brace post = None ->
  ClaudeClient.json_part (pre +:+ "{" +:+ mid +:+ "}" +:+ post) =
  Some ("{" +:+ mid +:+ "}").
Proof.
  intros Hpre Hpost.
  set (text := pre +:+ "{" +:+ mid +:+ "}" +:+ post).
  assert (Hfirst : Text.first_index Text.open_brace text
                   = Some (String.length pre))
    by (apply (first_index_app _ _ _ Hpre)).
  assert (Hlast : Text.last_index Text.close_brace text
                  = Some (String.length (pre +:+ "{" +:+ mid))).
  { replace text
      with ((pre +:+ "{" +:+ mid) +:+ String Text.close_brace post)
      by (unfold text; rewrite !append_assoc; reflexivity).
    apply (last_index_app _ _ _ Hpost). }
  rewrite !length_append in Hlast. cbn [String.length] in Hlast.
  unfold ClaudeClient.json_part, Text.find, Text.rfind.
  rewrite Hfirst, Hlast.
  destruct (_ =? -1)%Z eqn:E1; [apply Z.eqb_eq in E1; lia|].
  destruct (_ <=? _)%Z eqn:E2; [apply Z.leb_le in E2; lia|].
  cbn [orb]. f_equal. unfold Text.slice.
  rewrite Nat2Z.id.
  replace (Z.to_nat _) with (String.length ("{" +:+ mid +:+ "}")).
  2: { rewrite !length_append. cbn [String.length]. lia. }
  replace text with (pre +:+ ("{" +:+ mid +:+ "}") +:+ post)
    by (unfold text; rewrite !append_assoc; reflexivity).
  apply substring_app.
Qed.

Lemma json_part_none text :
  Text.first_index Text.open_brace text = None \/
  Text.first_index Text.close_brace text = None ->
  ClaudeClient.json_part text = None.
Proof.
  unfold ClaudeClient.json_part, Text.find, Text.rfind.
  intros [Hopen|Hclose].
  - rewrite Hopen. reflexivity.
  - rewrite (last_index_none _ _ Hclose).
    destruct (Text.first_index Text.open_brace text) as [i|]; [|reflexivity].
    destruct (_ =? -1)%Z; [reflexivity|].
    destruct (_ <=? _)%Z eqn:E; [reflexivity|].
    apply Z.leb_gt in E. lia.
Qed.

(** X16.  [analyze_image] parses what stands between the first opening
    brace and the last closing brace of Claude's answer and ignores the
    text around it: the result is the dictionary that [json.loads] gives
    for that part, or an [ImageAnalysisError] with its parse error. *)
Theorem analyze_image_parses_between_braces n image_path prompt img_bytes
    pre mid post more :
  read_image n image_path = inl img_bytes ->
  messages_create n
    (Request.mk "claude-3-opus-20240229" 1000 prompt
       (Some (ClaudeClient.mime_type_of image_path, img_bytes)))
    = Message ((pre +:+ "{" +:+ mid +:+ "}" +:+ post) :: more) ->
  Text.first_index Text.open_brace pre = None ->
  Text.first_index Text.close_brace post = None ->
  ClaudeClient.analyze_image n image_path prompt =
  match json_loads ("{" +:+ mid +:+ "}") with
  | inl flower_data => Ok flower_data
  | inr e => Raise (mkExn ImageAnalysisError ("JSON 파싱 오류: " +:+ e))
  end.
Proof.
  intros Hread Hmsg Hpre Hpost.
  unfold ClaudeClient.analyze_image, ClaudeClient.analyze_image_body.
  rewrite Hread, Hmsg, (json_part_between _ _ _ Hpre Hpost).
  destruct (json_loads _); reflexivity.
Qed.

(** X17.  [analyze_image] raises nothing but an [ImageAnalysisError],
    whose message starts with the text of the [except] clause that caught
    the failure.  An answer without an opening brace, or without a
    closing brace, is reported as an unexpected error: the
    [ImageAnalysisError] raised for it inside the [try] block is caught by
    the last clause and wrapped again. *)
Theorem analyze_image_errors n image_path prompt :
  (forall e,
     ClaudeClient.analyze_image n image_path prompt = Raise e ->
     exn_class e = ImageAnalysisError /\
     (Text.startswith "Claude API 오류: " (exn_str e) = true \/
      Text.startswith "JSON 파싱 오류: " (exn_str e) = true \/
      Text.startswith "이미지 분석 오류: " (exn_str e) = true)) /\
  (forall img_bytes text more,
     read_image n image_path = inl img_bytes ->
     messages_create n
       (Request.mk "claude-3-opus-20240229" 1000 prompt
          (Some (ClaudeClient.mime_type_of image_path, img_bytes)))
       = Message (text :: more) ->
     Text.first_index Text.open_brace text = None \/
     Text.first_index Text.close_brace text = None ->
     ClaudeClient.analyze_image n image_path prompt =
     Raise (mkExn ImageAnalysisError
              ("이미지 분석 오류: " +:+ "응답에서 JSON을 찾을 수 없습니다"))).
Proof.
  split.
  - intros e.
    unfold ClaudeClient.analyze_image.
    destruct (ClaudeClient.analyze_image_body n image_path prompt)
      as [[msg|msg|msg]|fd]; intros [= <-]; (split; [reflexivity|]).
    + left. apply startswith_app.
    + right. left. apply startswith_app.
    + right. right. apply startswith_app.
  - intros bytes text more Hread Hmsg Hnone.
    unfold ClaudeClient.analyze_image, ClaudeClient.analyze_image_body.
    rewrite Hread, Hmsg, (json_part_none _ Hnone). reflexivity.
Qed.
End Client.

(** ** The HTTP interface *)

Section Routes.
Context `{Wb : Web}.

Lemma member_name_not_value p :
  Api.is_member_name p = true -> exists e, Platform_of_value p = Raise e.
Proof.
  unfold Api.is_member_name. intros Hm.
  apply orb_true_iff in Hm as [Hm|Hm];
    [apply orb_true_iff in Hm as [Hm|Hm]|];
    apply String.eqb_eq in Hm; subst p; cbn; eauto.
Qed.

(** The conversion of the requested platforms returns the empty list or
    raises. *)
Lemma platform_enums_empty platforms l :
  Api.platform_enums platforms = Ok l ->
  l = [] /\ Forall (fun p => Api.is_member_name p = false) platforms.
Proof.
  unfold Api.platform_enums.
  induction platforms as [|p platforms IH]; cbn [List.filter].
  - intros [= <-]. split; [reflexivity|constructor].
  - destruct (Api.is_member_name p) eqn:Hp.
    + destruct (member_name_not_value p Hp) as [e He].
      cbn [res_map]. rewrite He. discriminate.
    + intros Hl. destruct (IH Hl) as [-> Hall]. split; [reflexivity|].
      constructor; assumption.
Qed.

Lemma platform_enums_raises platforms :
  Exists (fun p => Api.is_member_name p = true) platforms ->
  exists e, Api.platform_enums platforms = Raise e /\
            exn_class e = ValueError.
Proof.
  unfold Api.platform_enums.
  induction 1 as [p platforms Hp|p platforms Hex IH]; cbn [List.filter].
  - rewrite Hp. cbn [res_map].
    unfold Api.is_member_name in Hp.
    apply orb_true_iff in Hp as [Hp|Hp];
      [apply orb_true_iff in Hp as [Hp|Hp]|];
      apply String.eqb_eq in Hp; subst p; cbn; eauto.
  - destruct (Api.is_member_name p) eqn:Hp; [|exact IH].
    cbn [res_map].
    unfold Api.is_member_name in Hp.
    apply orb_true_iff in Hp as [Hp|Hp];
      [apply orb_true_iff in Hp as [Hp|Hp]|];
      apply String.eqb_eq in Hp; subst p; cbn; eauto.
Qed.

(** A [save] that returns stored the row of a new id and returns the
    post as it reads back. *)
Lemma save_returns p s q s' :
  pending s = [] -> save p s = (Ok q, s') ->
  q = read_back p /\ table s !! FlowerPost.id p = None /\
  table s' = <[FlowerPost.id p := row_of p]> (table s) /\ pending s' = [].
Proof.
  intros Hp. destruct s as [t pd cl n tr pv rv]. cbn in Hp. subst pd.
  unfold save. rewrite map_to_model_eq.
  cbv [try_except bind Session.stage Session.commit Session.db_call
       Session.refresh Session.rollback modify gets ret raise lift].
  cbn. destruct (db_error n); cbn; [discriminate|].
  destruct (t !! FlowerPost.id p) eqn:Hrow; cbn; [discriminate|].
  destruct (db_error (S n)); cbn; [discriminate|].
  rewrite lookup_insert_eq. cbn. rewrite map_to_entity_read_back.
  intros [= <- <-]. cbn. auto.
Qed.

(** The images are written without touching the table, the session or
    the background tasks. *)
Lemma save_images_machine post_id images : forall srv r srv',
  Api.save_images post_id images srv = (r, srv') ->
  table (machine srv') = table (machine srv) /\
  pending (machine srv') = pending (machine srv) /\
  background_tasks srv' = background_tasks srv /\
  forall paths, r = Ok paths ->
    paths = map (Api.file_path post_id) images /\
    files srv' =
      files srv ++
      map (fun img => (Api.file_path post_id img, UploadFile.content img))
        images.
Proof.
  induction images as [|img images IH]; intros srv r srv';
    cbn [Api.save_images].
  - unfold Api.wret. intros [= <- <-].
    split; [reflexivity|]. split; [reflexivity|]. split; [reflexivity|].
    intros ps [= <-]. rewrite app_nil_r. split; reflexivity.
  - unfold Api.wbind at 1. unfold Api.write_file.
    destruct (write_error (calls (machine srv)) _) as [e|].
    { intros [= <- <-]. cbn.
      split; [reflexivity|]. split; [reflexivity|]. split; [reflexivity|].
      intros ps [=]. }
    unfold Api.wbind.
    match goal with
    | |- context [Api.save_images post_id images ?x] =>
        destruct (Api.save_images post_id images x) as [[ps|e] srv1] eqn:E
    end; apply IH in E; cbn in E; destruct E as (Ht & Hp & Hb & Hpaths).
    + unfold Api.wret. intros [= <- <-].
      destruct (Hpaths _ eq_refl) as [-> Hfiles].
      split; [assumption|]. split; [assumption|]. split; [assumption|].
      intros ? [= <-]. split; [reflexivity|].
      rewrite Hfiles, <- app_assoc. reflexivity.
    + intros [= <- <-].
      split; [assumption|]. split; [assumption|]. split; [assumption|].
      intros ? [=].
Qed.

(** What a returned upload has done. *)
Lemma upload_returned images title description platforms schedule_time
    srv saved srv' :
  pending (machine srv) = [] ->
  Api.upload_flower_images images title description platforms schedule_time
    srv = (Ok (Returned saved), srv') ->
  let post_id := uuid4 (calls (machine srv)) in
  exists schedule created_at updated_at,
    let post :=
      FlowerPost.mk post_id (map (Api.file_path post_id) images) [] title
        description schedule "pending" None None None None None None []
        created_at updated_at in
    saved = read_back post /\
    (forall t, schedule_time = Some t -> schedule = t) /\
    existsb Api.too_large images = false /\
    Forall (fun p => Api.is_member_name p = false) platforms /\
    table (machine srv) !! post_id = None /\
    table (machine srv') = <[post_id := row_of post]> (table (machine srv)) /\
    pending (machine srv') = [] /\
    background_tasks srv' = background_tasks srv ++ [post_id] /\
    files srv' =
      files srv ++
      map (fun img => (Api.file_path post_id img, UploadFile.content img))
        images.
Proof.
  intros Hpend. unfold Api.upload_flower_images.
  destruct (existsb Api.too_large images) eqn:Hbig; [discriminate|].
  unfold Api.wbind at 1. unfold Api.on_machine at 1.
  cbv [external bind gets modify lift ret]. cbn.
  unfold Api.wbind at 1.
  match goal with
  | |- context [Api.save_images ?i images ?x] =>
      destruct (Api.save_images i images x) as [[paths|e] srv1] eqn:Himgs
  end; [|discriminate].
  apply save_images_machine in Himgs. cbn in Himgs.
  destruct Himgs as (Ht1 & Hp1 & Hb1 & Hpaths).
  destruct (Hpaths _ eq_refl) as [-> Hf1]. clear Hpaths.
  unfold Api.wbind at 1. unfold Api.on_machine at 1. unfold lift.
  destruct (Api.platform_enums platforms) as [enums|e] eqn:Hen;
    [|discriminate].
  destruct (platform_enums_empty _ _ Hen) as [-> Hnames].
  unfold Api.wbind at 1.
  assert (Hsched : exists schedule srv2,
            match schedule_time with
            | Some t => Api.wret t
            | None => Api.on_machine now
            end (mkServer (machine srv1) (files srv1) (background_tasks srv1))
            = (Ok schedule, srv2) /\
            (forall t, schedule_time = Some t -> schedule = t) /\
            table (machine srv2) = table (machine srv1) /\
            pending (machine srv2) = pending (machine srv1) /\
            files srv2 = files srv1 /\
            background_tasks srv2 = background_tasks srv1).
  { destruct schedule_time as [t|].
    - eexists. eexists. split; [reflexivity|].
      split; [intros ? [= <-]; reflexivity|]. repeat split.
    - eexists. eexists. split; [reflexivity|].
      split; [intros ? [=]|]. repeat split. }
  destruct Hsched as (schedule & srv2 & -> & Hsame & Ht2 & Hp2 & Hf2 & Hb2).
  unfold Api.wbind at 1. unfold Api.on_machine at 1.
  cbv [now bind gets modify ret]. cbn.
  unfold Api.wbind at 1. unfold Api.on_machine at 1.
  cbv [now bind gets modify ret]. cbn.
  match goal with
  | |- context [save ?post ?s] =>
      destruct (save post s) as [[q|e] s3] eqn:Hsave
  end; [|discriminate].
  apply save_returns in Hsave; [|cbn; congruence].
  cbn in Hsave. destruct Hsave as (-> & Hnone & Ht3 & Hp3).
  unfold Api.wret. intros [= <- <-]. cbn.
  eexists. eexists. eexists.
  split; [reflexivity|]. split; [exact Hsame|].
  split; [reflexivity|]. split; [exact Hnames|].
  split; [congruence|]. split; [congruence|]. split; [exact Hp3|].
  split; congruence.
Qed.

Lemma row_of_platforms p :
  FlowerPostModel.platforms (row_of p) =
  map Platform_value (FlowerPost.platforms p).
Proof. reflexivity. Qed.

Lemma upload_with_member_name images title description platforms
    schedule_time srv r srv' :
  Exists (fun p => Api.is_member_name p = true) platforms ->
  Api.upload_flower_images images title description platforms schedule_time
    srv = (r, srv') ->
  (forall saved, r <> Ok (Returned saved)) /\
  table (machine srv') = table (machine srv) /\
  background_tasks srv' = background_tasks srv.
Proof.
  intros Hex. unfold Api.upload_flower_images.
  destruct (existsb Api.too_large images) eqn:Hbig.
  { unfold Api.wret. intros [= <- <-]. repeat split. discriminate. }
  unfold Api.wbind at 1. unfold Api.on_machine at 1.
  cbv [external bind gets modify lift ret]. cbn.
  unfold Api.wbind at 1.
  match goal with
  | |- context [Api.save_images ?i images ?x] =>
      destruct (Api.save_images i images x) as [[paths|e] srv1] eqn:Himgs
  end; apply save_images_machine in Himgs; cbn in Himgs;
    destruct Himgs as (Ht1 & _ & Hb1 & _).
  - unfold Api.wbind at 1. unfold Api.on_machine at 1. unfold lift.
    destruct (platform_enums_raises _ Hex) as (e & -> & _).
    intros [= <- <-]. cbn. repeat split; try assumption. discriminate.
  - intros [= <- <-]. repeat split; try assumption. discriminate.
Qed.

(** X18.  The upload route never stores a requested platform.  The
    route keeps the requested strings that are names of [Platform]
    members and converts them with [Platform(p)], which looks a member up
    by its value: a name such as NAVER makes the request fail before
    anything is stored or queued, and every other string, the values
    naver, instagram and youtube among them, is dropped.  A post that the
    route returns therefore has no platform, in the answer and in its
    row. *)
Theorem upload_stores_no_platform images title description platforms
    schedule_time srv r srv' :
  pending (machine srv) = [] ->
  Api.upload_flower_images images title description platforms schedule_time
    srv = (r, srv') ->
  (forall saved, r = Ok (Returned saved) ->
     FlowerPost.platforms saved = [] /\
     Forall (fun p => Api.is_member_name p = false) platforms /\
     exists row,
       table (machine srv') !! FlowerPost.id saved = Some row /\
       FlowerPostModel.platforms row = []) /\
  (Exists (fun p => Api.is_member_name p = true) platforms ->
   (forall saved, r <> Ok (Returned saved)) /\
   table (machine srv') = table (machine srv) /\
   background_tasks srv' = background_tasks srv).
Proof.
  intros Hpend Hrun. split.
  - intros saved ->.
    destruct (upload_returned _ _ _ _ _ _ _ _ Hpend Hrun)
      as (sch & cr & up & -> & _ & _ & Hnames & _ & Ht & _).
    split; [reflexivity|]. split; [exact Hnames|].
    eexists. split; [rewrite Ht; cbn; apply lookup_insert_eq|].
    reflexivity.
  - intros Hex. exact (upload_with_member_name _ _ _ _ _ _ _ _ Hex Hrun).
Qed.

(** X19.  One image above the size limit rejects the whole upload with
    status 413 before anything happens: no id is drawn, no file is
    written and nothing is stored or queued, whatever the other images
    are. *)
Theorem upload_rejects_large_image images title description platforms
    schedule_time srv img :
  img ∈ images ->
  (MAX_UPLOAD_SIZE < UploadFile.size img)%Z ->
  Api.upload_flower_images images title description platforms schedule_time
    srv =
  (Ok (HTTPException 413
         ("이미지 크기가 너무 큽니다. 최대 허용 크기: " +:+
          pretty MAX_UPLOAD_SIZE +:+ " bytes")),
   srv).
Proof.
  intros Hin Hbig. unfold Api.upload_flower_images.
  assert (Hex : existsb Api.too_large images = true).
  { apply existsb_exists. exists img. split.
    - apply list_elem_of_In. exact Hin.
    - unfold Api.too_large. apply Z.ltb_lt. exact Hbig. }
  rewrite Hex. reflexivity.
Qed.

Lemma save_images_ok post_id images : forall srv,
  (forall n path, write_error n path = None) ->
  exists srv',
    Api.save_images post_id images srv =
      (Ok (map (Api.file_path post_id) images), srv') /\
    table (machine srv') = table (machine srv) /\
    pending (machine srv') = pending (machine srv) /\
    clock (machine srv') = clock (machine srv) /\
    background_tasks srv' = background_tasks srv /\
    files srv' =
      files srv ++
      map (fun img => (Api.file_path post_id img, UploadFile.content img))
        images.
Proof.
  intros srv Hw. revert srv.
  induction images as [|img images IH]; intros srv; cbn [Api.save_images].
  - exists srv. unfold Api.wret. rewrite app_nil_r. repeat split.
  - unfold Api.wbind at 1. unfold Api.write_file. rewrite Hw.
    cbv beta iota. unfold Api.wbind.
    match goal with
    | |- context [Api.save_images post_id images ?x] =>
        destruct (IH x) as (srv1 & E & Ht & Hp & Hc & Hb & Hf)
    end.
    rewrite E. unfold Api.wret. cbn in *.
    exists srv1. split; [reflexivity|].
    repeat (split; [assumption|]).
    rewrite Hf, <- app_assoc. reflexivity.
Qed.

(** X20.  What an upload does when nothing fails: on a database that
    answers and a file system that takes every file, a request whose
    images are within the size limit and whose platforms name no member
    draws a new id, writes each image to [UPLOAD_DIR/id/filename] in the
    order of the request, stores the post as pending with these paths,
    hands the id to the background tasks and returns the stored post. *)
Theorem upload_stores_pending_post images title description platforms
    schedule_time srv :
  no_db_errors ->
  (forall n path, write_error n path = None) ->
  pending (machine srv) = [] ->
  existsb Api.too_large images = false ->
  Forall (fun p => Api.is_member_name p = false) platforms ->
  table (machine srv) !! uuid4 (calls (machine srv)) = None ->
  let post_id := uuid4 (calls (machine srv)) in
  exists saved srv',
    Api.upload_flower_images images title description platforms
      schedule_time srv = (Ok (Returned saved), srv') /\
    FlowerPost.id saved = post_id /\
    FlowerPost.status saved = "pending" /\
    FlowerPost.image_paths saved = map (Api.file_path post_id) images /\
    FlowerPost.title saved = title /\
    FlowerPost.description saved = description /\
    FlowerPost.publish_results saved = [] /\
    (forall t, schedule_time = Some t -> FlowerPost.schedule_time saved = t) /\
    table (machine srv') = <[post_id := row_of saved]> (table (machine srv)) /\
    background_tasks srv' = background_tasks srv ++ [post_id] /\
    files srv' =
      files srv ++
      map (fun img => (Api.file_path post_id img, UploadFile.content img))
        images.
Proof.
  intros Hdb Hw Hpend Hbig Hnames Hfresh post_id.
  destruct (Api.upload_flower_images images title description platforms
              schedule_time srv) as [r srv'] eqn:Hrun.
  assert (Hret : exists saved, r = Ok (Returned saved)).
  { revert Hrun. unfold Api.upload_flower_images. rewrite Hbig.
    unfold Api.wbind at 1. unfold Api.on_machine at 1.
    cbv [external bind gets modify lift ret]. cbn.
    unfold Api.wbind at 1.
    match goal with
    | |- context [Api.save_images ?i images ?x] =>
        destruct (save_images_ok i images x Hw)
          as (srv1 & -> & Ht1 & Hp1 & Hc1 & Hb1 & Hf1)
    end. cbn in Ht1, Hp1, Hc1.
    unfold Api.wbind at 1. unfold Api.on_machine at 1. unfold lift.
    assert (Hen : Api.platform_enums platforms = Ok []).
    { unfold Api.platform_enums.
      replace (List.filter Api.is_member_name platforms) with (@nil string);
        [reflexivity|].
      symmetry. clear -Hnames.
      induction Hnames as [|p l Hp _ IH]; [reflexivity|].
      cbn. rewrite Hp. exact IH. }
    rewrite Hen.
    unfold Api.wbind at 1.
    destruct schedule_time as [t|].
    all: repeat (try unfold Api.wret at 1; try unfold Api.wbind at 1;
                 try unfold Api.on_machine at 1;
                 progress (cbv [now bind gets modify ret]; cbn)).
    all: rewrite save_ok; [|exact Hdb|cbn; congruence|cbn; congruence].
    all: unfold Api.wret; intros [= <- <-]; eauto. }
  destruct Hret as [saved ->].
  destruct (upload_returned _ _ _ _ _ _ _ _ Hpend Hrun)
    as (sch & cr & up & -> & Hs & _ & _ & _ & Ht & _ & Hb & Hf).
  eexists. eexists. split; [reflexivity|].
  do 6 (split; [reflexivity|]).
  split; [exact Hs|]. split; [exact Ht|]. split; [exact Hb|exact Hf].
Qed.

(** X21.  [GET /posts/{post_id}] answers 404 exactly when the table has
    no row with the id: with a database that answers the lookup, a
    missing row gives status 404 with the detail Post not found, a row
    that can be read gives its post, and the table is not changed. *)
Theorem get_post_not_found_iff post_id srv :
  db_error (calls (machine srv)) = None ->
  let run := Api.get_post post_id srv in
  table (machine run.2) = table (machine srv) /\
  (table (machine srv) !! post_id = None ->
   run.1 = Ok (HTTPException 404 "Post not found")) /\
  (forall row p,
     table (machine srv) !! post_id = Some row ->
     _map_to_entity post_id row = Ok p ->
     run.1 = Ok (Returned p)) /\
  (forall detail, run.1 = Ok (HTTPException 404 detail) ->
     table (machine srv) !! post_id = None).
Proof.
  intros Hdb. unfold Api.get_post, Api.wbind, Api.on_machine.
  rewrite find_by_id_eq. unfold find_answer. rewrite Hdb.
  destruct (table (machine srv) !! post_id) as [row|] eqn:Hrow.
  - destruct (_map_to_entity post_id row) as [p|e] eqn:Hmap; cbn.
    + split; [reflexivity|]. split; [discriminate|].
      split; [intros ? ? [= <-]; rewrite Hmap; intros [= <-]; reflexivity|].
      intros ? [=].
    + split; [reflexivity|]. split; [discriminate|].
      split; [intros ? ? [= <-]; rewrite Hmap; discriminate|].
      intros ? [=].
  - cbn. split; [reflexivity|]. split; [reflexivity|].
    split; [intros ? ? [=]|]. reflexivity.
Qed.


End Routes.

End Components.

(** C7.  The run of [process_flower_content] on the sample post, with
    collaborators that all answer.  The first three posts handed to
    [repository.update] are the post after [update_status(PROCESSING)],
    the post after [post.flower_data = flower_data] and the post after
    [post.blog_content = blog_content]: the second and the third carry
    new field values and the [updated_at] of the first. *)
Theorem content_write_keeps_updated_at :
  match
    updates (trace (@process_flower_content Sample.healthy "p1"
                      Sample.machine).2)
  with
  | p1 :: p2 :: p3 :: _ =>
      FlowerPost.flower_data p1 = None /\
      FlowerPost.flower_data p2 = Some (AsDict Sample.flower_data) /\
      FlowerPost.updated_at p2 = FlowerPost.updated_at p1 /\
      FlowerPost.blog_content p2 = None /\
      FlowerPost.blog_content p3 = Some "<h1>장미</h1>" /\
      FlowerPost.updated_at p3 = FlowerPost.updated_at p1
  | _ => False
  end.
Proof. vm_compute. repeat split. Qed.

(** ** The claims on the sample inputs *)





Lemma unknown_post_not_found_witness :
  table Sample.machine !! "p9" = None /\
  exists r s',
    @process_with Sample.healthy (@get_social_publishers Sample.healthy)
      "p9" Sample.machine = (r, s') /\
    table s' = table Sample.machine /\ trace s' = trace Sample.machine /\
    (forall a b, r <> Ok (TaskDone a b)) /\
    (@db_error Sample.healthy (calls Sample.machine) = None ->
     r = Ok (TaskError "Post not found")).
Proof.
  split; [reflexivity|].
  apply (@unknown_post_not_found Sample.healthy
           (@get_social_publishers Sample.healthy) "p9" Sample.machine).
  reflexivity.
Defined.

Lemma analysis_uses_first_image_witness :
  FlowerPost.image_paths Sample.post
    = "uploads/p1/rose.jpg" :: ["uploads/p1/rose2.jpg"] /\
  exists l,
    analyses (trace (@process_with Sample.healthy
                       (@get_social_publishers Sample.healthy) "p1"
                       Sample.machine).2)
      = analyses (trace Sample.machine) ++ l /\
    (l = [] \/ l = ["uploads/p1/rose.jpg"]) /\
    (@no_db_errors Sample.healthy -> l = ["uploads/p1/rose.jpg"]).
Proof.
  split; [reflexivity|].
  apply (@analysis_uses_first_image Sample.healthy
           (@get_social_publishers Sample.healthy) "p1" Sample.machine
           Sample.row Sample.post "uploads/p1/rose.jpg"
           ["uploads/p1/rose2.jpg"]); reflexivity.
Defined.

Lemma completed_run_keeps_error_message_witness :
  let run1 := @process_flower_content Sample.analysis_flaky "p1"
                Sample.machine in
  let run2 := @process_flower_content Sample.analysis_flaky "p1" run1.2 in
  exists row,
    table run1.2 !! "p1" = Some row /\
    FlowerPostModel.status row = "failed" /\
    writes_keep_message (FlowerPostModel.error_message row) run1.2 run2.2 /\
    exists row',
      table run2.2 !! "p1" = Some row' /\
      FlowerPostModel.status row' = "completed" /\
      FlowerPostModel.error_message row' = FlowerPostModel.error_message row.
Proof.
  intros run1 run2.
  destruct (table run1.2 !! "p1") as [row|] eqn:Hrow;
    [|vm_compute in Hrow; discriminate Hrow].
  exists row. split; [reflexivity|].
  split; [vm_compute in Hrow; injection Hrow as <-; reflexivity|].
  destruct (@completed_run_keeps_error_message Sample.analysis_flaky
              (@get_social_publishers Sample.analysis_flaky) "p1" run1.2 row
              run2.1 run2.2 Hrow (surjective_pairing run2))
    as (_ & Hwrites & Hdone).
  split; [exact Hwrites|].
  apply (Hdone "p1" (Sample.results_of run2.1)).
  vm_compute. reflexivity.
Defined.

(** C8 as stated fails.  The first run fails in the analysis and stores
    the message; the second run on the same post completes, and the post
    is stored as completed together with the message of the first run. *)
Lemma rerun_completes_with_error_message :
  let run1 := @process_flower_content Sample.analysis_flaky "p1"
                Sample.machine in
  let run2 := @process_flower_content Sample.analysis_flaky "p1" run1.2 in
  FlowerPostModel.status <$> table run1.2 !! "p1" = Some "failed" /\
  run2.1 = Ok (TaskDone "p1" (Sample.results_of run2.1)) /\
  FlowerPostModel.status <$> table run2.2 !! "p1" = Some "completed" /\
  FlowerPostModel.error_message <$> table run2.2 !! "p1"
    = Some (Some "이미지 분석 중 오류가 발생했습니다: Claude API 오류: overloaded").
Proof. vm_compute. repeat split. Qed.



Lemma lookup_failure_unbound_post_witness :
  let e := mkExn RepositoryError
             "포스트 조회 중 오류가 발생했습니다: database is locked" in
  (@find_by_id Sample.database_down "p1" Sample.machine).1 = Raise e /\
  exists s',
    @process_with Sample.database_down
      (@get_social_publishers Sample.database_down) "p1" Sample.machine
      = (Raise (unbound_local "post"), s') /\
    table s' = table Sample.machine /\
    trace s' = trace Sample.machine.
Proof.
  split; [reflexivity|].
  apply (@lookup_failure_unbound_post Sample.database_down
           (@get_social_publishers Sample.database_down) "p1" Sample.machine
           (mkExn RepositoryError
              "포스트 조회 중 오류가 발생했습니다: database is locked")).
  reflexivity.
Defined.


(** * The task with the services of the repository *)


(** ** The further properties on the sample inputs *)

Lemma save_then_find_witness :
  exists s1 s2,
    @save Sample.healthy Sample.post Sample.empty_machine
      = (Ok (read_back Sample.post), s1) /\
    table s1 = <["p1" := row_of Sample.post]> (table Sample.empty_machine) /\
    pending s1 = [] /\
    @find_by_id Sample.healthy "p1" s1
      = (Ok (Some (read_back Sample.post)), s2) /\
    table s2 = table s1.
Proof.
  apply (@save_then_find Sample.healthy Sample.post Sample.empty_machine).
  - intros n. reflexivity.
  - reflexivity.
  - reflexivity.
Defined.

Lemma save_existing_id_rejected_witness :
  table Sample.machine !! "p1" = Some Sample.row /\
  exists e s',
    @save Sample.healthy Sample.post Sample.machine = (Raise e, s') /\
    exn_class e = RepositoryError /\
    table s' = table Sample.machine /\ pending s' = [].
Proof.
  split; [reflexivity|].
  apply (@save_existing_id_rejected Sample.healthy Sample.post
           Sample.machine).
  - reflexivity.
  - exists Sample.row. reflexivity.
Defined.

Lemma update_then_find_witness :
  FlowerPostModel.status Sample.row = "pending" /\
  FlowerPostModel.status (row_of Scenario.processing_post) = "processing" /\
  exists s1 s2,
    @update Sample.healthy Scenario.processing_post Sample.machine
      = (Ok (read_back Scenario.processing_post), s1) /\
    table s1 =
      <["p1" := row_of Scenario.processing_post]> (table Sample.machine) /\
    (forall k, k <> "p1" -> table s1 !! k = table Sample.machine !! k) /\
    @find_by_id Sample.healthy "p1" s1
      = (Ok (Some (read_back Scenario.processing_post)), s2) /\
    table s2 = table s1.
Proof.
  split; [reflexivity|]. split; [reflexivity|].
  apply (@update_then_find Sample.healthy Scenario.processing_post
           Sample.machine Sample.row).
  - intros n. reflexivity.
  - reflexivity.
  - reflexivity.
  - discriminate.
Defined.

Lemma delete_then_find_witness :
  exists s1 s2,
    @SQLAlchemyPostRepository.delete Sample.healthy "p1" Scenario.two_posts
      = (Ok (bool_decide (is_Some (table Scenario.two_posts !! "p1"))), s1) /\
    table s1 = base.delete "p1" (table Scenario.two_posts) /\
    pending s1 = [] /\
    @find_by_id Sample.healthy "p1" s1 = (Ok None, s2).
Proof.
  apply (@delete_then_find Sample.healthy "p1" Scenario.two_posts).
  - intros n. reflexivity.
  - reflexivity.
Defined.

Lemma run_touches_one_row_witness :
  table Scenario.two_posts !! "p2" = Some Sample.row /\
  table (@process_with Sample.healthy (@get_social_publishers Sample.healthy)
           "p1" Scenario.two_posts).2 !! "p2"
    = table Scenario.two_posts !! "p2".
Proof.
  split; [reflexivity|].
  apply (@run_touches_one_row Sample.healthy
           (@get_social_publishers Sample.healthy) "p1" Scenario.two_posts
           "p2").
  discriminate.
Defined.

Lemma run_keeps_request_witness :
  let s' := (@process_with Sample.healthy
               (@get_social_publishers Sample.healthy) "p1"
               Sample.machine).2 in
  (exists row',
     table s' !! "p1" = Some row' /\ same_columns Sample.row row') /\
  exists us,
    updates (trace s') = updates (trace Sample.machine) ++ us /\
    Forall (request_of "p1" Sample.row) us.
Proof.
  apply (@run_keeps_request Sample.healthy
           (@get_social_publishers Sample.healthy) "p1" Sample.machine
           Sample.row).
  reflexivity.
Defined.





Lemma generate_tags_bounds_witness :
  let tags :=
    ["#장미"; "#rose"; "#빨강"] ++ ClaudeContentGenerator.default_tags in
  @ClaudeContentGenerator.generate_tags Sample.healthy Scenario.claude 0
    Sample.flower_data = Ok tags /\
  10 <= length tags <= 20 /\
  Forall (fun tag => Text.startswith "#" tag = true) tags /\
  exists prompt tags_text,
    @ClaudeContentGenerator.tags_prompt Sample.healthy Scenario.claude
      Sample.flower_data = Ok prompt /\
    @ClaudeClient.generate_text Scenario.claude 0 prompt 1000
      "claude-3-haiku-20240307" = Ok tags_text /\
    let lines :=
      List.filter (Text.startswith "#")
        (map Text.strip (Text.split Text.newline tags_text)) in
    tags =
      take 20 lines ++
      (if decide (length lines < 10)
       then ClaudeContentGenerator.default_tags else []).
Proof.
  intros tags.
  split; [vm_compute; reflexivity|].
  apply (@generate_tags_bounds Sample.healthy Scenario.claude 0
           Sample.flower_data tags).
  vm_compute. reflexivity.
Defined.

Lemma analyze_image_parses_between_braces_witness :
  @ClaudeClient.analyze_image Scenario.claude 0 "uploads/p1/rose.jpg"
    ClaudeImageAnalyzer.prompt = Ok [].
Proof.
  apply (@analyze_image_parses_between_braces Scenario.claude 0
           "uploads/p1/rose.jpg" ClaudeImageAnalyzer.prompt "JPEG"
           "분석 결과입니다: " "" " 이상입니다." []).
  - reflexivity.
  - reflexivity.
  - reflexivity.
  - reflexivity.
Defined.


Lemma upload_stores_no_platform_witness :
  let run :=
    @Api.upload_flower_images Sample.healthy Scenario.web [Scenario.rose]
      (Some "장미") None ["naver"; "instagram"] None Scenario.server in
  (forall saved, run.1 = Ok (Returned saved) ->
     FlowerPost.platforms saved = [] /\
     Forall (fun p => Api.is_member_name p = false) ["naver"; "instagram"] /\
     exists row,
       table (machine run.2) !! FlowerPost.id saved = Some row /\
       FlowerPostModel.platforms row = []) /\
  (Exists (fun p => Api.is_member_name p = true) ["naver"; "instagram"] ->
   (forall saved, run.1 <> Ok (Returned saved)) /\
   table (machine run.2) = table (machine Scenario.server) /\
   background_tasks run.2 = background_tasks Scenario.server).
Proof.
  intros run.
  apply (@upload_stores_no_platform Sample.healthy Scenario.web
           [Scenario.rose] (Some "장미") None ["naver"; "instagram"] None
           Scenario.server run.1 run.2).
  - reflexivity.
  - apply surjective_pairing.
Defined.

Lemma upload_rejects_large_image_witness :
  @Api.upload_flower_images Sample.healthy Scenario.web
    [Scenario.rose; Scenario.field] (Some "장미") None ["naver"] None
    Scenario.server =
  (Ok (HTTPException 413
         "이미지 크기가 너무 큽니다. 최대 허용 크기: 10485760 bytes"),
   Scenario.server).
Proof.
  apply (@upload_rejects_large_image Sample.healthy Scenario.web
           [Scenario.rose; Scenario.field] (Some "장미") None ["naver"] None
           Scenario.server Scenario.field).
  - apply list_elem_of_further, list_elem_of_here.
  - reflexivity.
Defined.

Lemma upload_stores_pending_post_witness :
  exists saved srv',
    @Api.upload_flower_images Sample.healthy Scenario.web [Scenario.rose]
      (Some "장미") None ["naver"; "instagram"] None Scenario.server
      = (Ok (Returned saved), srv') /\
    FlowerPost.id saved = "post-0" /\
    FlowerPost.status saved = "pending" /\
    FlowerPost.image_paths saved =
      map (@Api.file_path Scenario.web "post-0") [Scenario.rose] /\
    FlowerPost.title saved = Some "장미" /\
    FlowerPost.description saved = None /\
    FlowerPost.publish_results saved = [] /\
    (forall t, None = Some t -> FlowerPost.schedule_time saved = t) /\
    table (machine srv') =
      <["post-0" := row_of saved]> (table (machine Scenario.server)) /\
    background_tasks srv' = background_tasks Scenario.server ++ ["post-0"] /\
    files srv' =
      files Scenario.server ++
      map (fun img =>
             (@Api.file_path Scenario.web "post-0" img, UploadFile.content img))
        [Scenario.rose].
Proof.
  apply (@upload_stores_pending_post Sample.healthy Scenario.web
           [Scenario.rose] (Some "장미") None ["naver"; "instagram"] None
           Scenario.server).
  - intros n. reflexivity.
  - intros n path. reflexivity.
  - reflexivity.
  - reflexivity.
  - repeat constructor.
  - reflexivity.
Defined.

Lemma get_post_not_found_iff_witness :
  let run := @Api.get_post Sample.healthy "p9" Scenario.server_with_post in
  table (machine run.2) = table (machine Scenario.server_with_post) /\
  (table (machine Scenario.server_with_post) !! "p9" = None ->
   run.1 = Ok (HTTPException 404 "Post not found")) /\
  (forall row p,
     table (machine Scenario.server_with_post) !! "p9" = Some row ->
     _map_to_entity "p9" row = Ok p ->
     run.1 = Ok (Returned p)) /\
  (forall detail, run.1 = Ok (HTTPException 404 detail) ->
     table (machine Scenario.server_with_post) !! "p9" = None).
Proof.
  apply (@get_post_not_found_iff Sample.healthy "p9"
           Scenario.server_with_post).
  reflexivity.
Defined.

